(** * cu-prelim-planner: the scrape, parse and store pipeline

    A shallow embedding of [backend/src/webscrape.py] and
    [backend/src/database.py], and the properties of the pipeline
    they implement.

    Text is modelled over the code points below 256: a character is an
    [ascii], a Python [str] is a [string].  Python dictionaries are
    [gmap string _]; exceptions are explicit results. *)

From Stdlib Require Import Ascii String NArith Lia Bool.
From stdpp Require Import gmap strings list fin_maps.

(** ** Python string primitives *)

Module Py.

(** [str.isspace] on one character: the code points U+0009..U+000D,
    U+001C..U+0020, U+0085 and U+00A0. *)
Definition isspace (c : ascii) : bool :=
  let n := N_of_ascii c in
  (((9 <=? n) && (n <=? 13)) || ((28 <=? n) && (n <=? 32))
   || (n =? 133) || (n =? 160))%N.

(** [str.lower] on one character: A..Z and the upper-case letters of
    U+00C0..U+00DE (the multiplication sign U+00D7 apart) move up by 32. *)
Definition lower_char (c : ascii) : ascii :=
  let n := N_of_ascii c in
  if (((65 <=? n) && (n <=? 90))
      || ((192 <=? n) && (n <=? 222) && negb (n =? 215)))%N
  then ascii_of_N (n + 32) else c.

Fixpoint lower (s : string) : string :=
  match s with
  | EmptyString => EmptyString
  | String c s' => String (lower_char c) (lower s')
  end.

(** [s.replace(a, b)] for one-character [a] and [b]. *)
Fixpoint replace_char (a b : ascii) (s : string) : string :=
  match s with
  | EmptyString => EmptyString
  | String c s' =>
      String (if Ascii.eqb c a then b else c) (replace_char a b s')
  end.

(** [line.startswith(p)] *)
Definition startswith (line p : string) : bool := String.prefix p line.

Fixpoint lstrip (s : string) : string :=
  match s with
  | EmptyString => EmptyString
  | String c s' => if isspace c then lstrip s' else s
  end.

Definition is_empty (s : string) : bool :=
  match s with EmptyString => true | _ => false end.

Fixpoint rstrip (s : string) : string :=
  match s with
  | EmptyString => EmptyString
  | String c s' =>
      let r := rstrip s' in
      if is_empty r && isspace c then EmptyString else String c r
  end.

(** [s.strip()] *)
Definition strip (s : string) : string := lstrip (rstrip s).

(** [s.split()]: the maximal runs of non-space characters, in order.
    [cur] is the run being read. *)
Definition emit (cur : string) (l : list string) : list string :=
  if is_empty cur then l else cur :: l.

Fixpoint split_go (cur : string) (s : string) : list string :=
  match s with
  | EmptyString => emit cur []
  | String c s' =>
      if isspace c then emit cur (split_go EmptyString s')
      else split_go (cur +:+ String c EmptyString) s'
  end.

Definition split (s : string) : list string := split_go EmptyString s.

(** [sep.join(l)] *)
Definition join (sep : string) (l : list string) : string :=
  String.concat sep l.

(** [l[i:j]] and [l[i:]] for literal bounds [i <= j]. *)
Definition slice {A} (i j : nat) (l : list A) : list A :=
  take (j - i) (drop i l).

Definition slice_from {A} (i : nat) (l : list A) : list A := drop i l.

(** [c in s] for a character [c]. *)
Fixpoint contains (c : ascii) (s : string) : bool :=
  match s with
  | EmptyString => false
  | String x s' => Ascii.eqb x c || contains c s'
  end.

(** A string without white space. *)
Fixpoint no_space (s : string) : bool :=
  match s with
  | EmptyString => true
  | String c s' => negb (isspace c) && no_space s'
  end.

(** What [split] returns: a non-empty run without white space. *)
Definition is_token (s : string) : Prop :=
  is_empty s = false /\ no_space s = true.

End Py.

(** ** Exceptions and results *)

Inductive exn_class :=
| IndexError | ValueError | AssertionError | AttributeError | TypeError
| FileNotFoundError | OSError
| RequestException
| OperationalError | ProgrammingError | IntegrityError | InternalError.

Global Instance exn_class_eq_dec : EqDecision exn_class.
Proof. solve_decision. Defined.

Record exn := Exn { exn_cls : exn_class; exn_msg : string }.

Inductive result (A : Type) :=
| Ok (a : A)
| Raise (e : exn).
Arguments Ok {A} a.
Arguments Raise {A} e.

Global Instance result_ret : MRet result := fun A a => Ok a.
Global Instance result_bind : MBind result := fun A B f m =>
  match m with Ok a => f a | Raise e => Raise e end.

(** [l[i]] for a literal index [i >= 0]. *)
Definition getitem {A} (l : list A) (i : nat) : result A :=
  match l !! i with
  | Some x => Ok x
  | None => Raise (Exn IndexError "list index out of range")
  end.

(** A function declared to return [Union[A, bool]]. *)
Inductive Union (A : Type) :=
| Val (a : A)
| Flag (b : bool).
Arguments Val {A} a.
Arguments Flag {A} b.

(** ** [WebScraper.parse_exam_file] *)

Definition nl : string := String (ascii_of_N 10) EmptyString.

(** An exam record as the scraper builds it: a dictionary of strings. *)
Abbreviation Dict := (gmap string string).

(** The body of the loop after the header test: [parts] is
    [line.split()], [exam_type] is [self.exam_type]. *)
Definition decode_line (exam_type : string) (parts : list string)
  : result Dict :=
  if String.eqb (Py.lower exam_type) "prelim" then
    p2 ← getitem parts 2;
    if Nat.eqb (String.length p2) 3 then
      p0 ← getitem parts 0; p1 ← getitem parts 1; p2 ← getitem parts 2;
      let course_code := p0 +:+ " " +:+ p1 +:+ " " +:+ p2 in
      exam_date ← getitem parts 3;
      let exam_locations := Py.join " " (Py.slice_from 4 parts) in
      Ok ({[ "course_code" := Py.strip course_code;
             "exam_date" := Py.strip exam_date;
             "exam_locations" := Py.strip exam_locations ]} : Dict)
    else
      p0 ← getitem parts 0; p1 ← getitem parts 1;
      let course_code := p0 +:+ " " +:+ p1 in
      exam_date ← getitem parts 2;
      let exam_locations := Py.join " " (Py.slice_from 3 parts) in
      Ok ({[ "course_code" := Py.strip course_code;
             "exam_date" := Py.strip exam_date;
             "exam_locations" := Py.strip exam_locations ]} : Dict)
  else if String.eqb (Py.lower exam_type) "final" then
    p2 ← getitem parts 2;
    if Nat.eqb (String.length p2) 3 then
      p0 ← getitem parts 0; p1 ← getitem parts 1; p2 ← getitem parts 2;
      let course_code := p0 +:+ " " +:+ p1 +:+ " " +:+ p2 in
      exam_date ← getitem parts 3;
      let exam_time := Py.join " " (Py.slice 4 6 parts) in
      let test_type := Py.join " " (Py.slice 6 8 parts) in
      let exam_locations := Py.join " " (Py.slice_from 8 parts) in
      Ok ({[ "course_code" := Py.strip course_code;
             "exam_date" := Py.strip exam_date;
             "exam_time" := Py.strip exam_time;
             "test_type" := Py.strip test_type;
             "exam_locations" := Py.strip exam_locations ]} : Dict)
    else
      p0 ← getitem parts 0; p1 ← getitem parts 1;
      let course_code := p0 +:+ " " +:+ p1 in
      exam_date ← getitem parts 2;
      let exam_time := Py.join " " (Py.slice 3 5 parts) in
      let test_type := Py.join " " (Py.slice 5 7 parts) in
      let exam_locations := Py.join " " (Py.slice_from 7 parts) in
      Ok ({[ "course_code" := Py.strip course_code;
             "exam_date" := Py.strip exam_date;
             "exam_time" := Py.strip exam_time;
             "test_type" := Py.strip test_type;
             "exam_locations" := Py.strip exam_locations ]} : Dict)
  else Raise (Exn ValueError "Unknown Exam Type").

(** The header test of the loop, on the stripped line. *)
Definition skipped (semester line : string) : bool :=
  Py.startswith line semester || Py.is_empty line.

(** The loop of [parse_exam_file]; [formatted_data] is the list built
    so far. *)
Fixpoint parse_lines (semester exam_type : string) (file : list string)
    (formatted_data : list Dict) : result (list Dict) :=
  match file with
  | [] => Ok formatted_data
  | line :: file' =>
      let line := Py.strip line in
      if skipped semester line
      then parse_lines semester exam_type file' formatted_data
      else
        formatted_exam ← decode_line exam_type (Py.split line);
        parse_lines semester exam_type file'
          (formatted_data ++ [formatted_exam])
  end.

Definition parse_exam_file (semester exam_type : string)
    (file : list string) : result (list Dict) :=
  parse_lines semester exam_type file [].

(** ** The relational store behind the connection

    The database server is outside the repository.  It is modelled as far
    as the queries of [database.py] use it: a table has named [TEXT NOT
    NULL] columns and keeps its rows in insertion order, and the database
    maps the name of a table, as the server keeps it, to the table.  A
    value is a string or [None] (SQL [NULL]). *)

Abbreviation Value := (option string).

Record Table := { columns : list string; rows : list (list Value) }.

Abbreviation DB := (gmap string Table).

(** The SQL texts the [generate_*_query] methods build, with their [%s]
    placeholders still open.  A [CREATE TABLE] carries its column
    definitions as the comma-separated items of the text, each one the
    list of its words. *)
Inductive Query :=
| CreateTableIfNotExists (table : string) (defs : list (list string))
| InsertInto (table : string) (cols : list string)
| UpdateSetWhere (table : string) (set_cols : list string)
    (where_col : string)
| SelectAllWhere (table : string) (where_col : string).

Definition sql_error {A} (c : exn_class) (m : string) : result A :=
  Raise (Exn c m).

(** *** Table names

    [database.py] pastes the table name into the SQL text, between double
    quotes in [SELECT *] and in the two [DELETE]s, and bare in [CREATE
    TABLE], [INSERT], [UPDATE], [DROP TABLE] and [SELECT DISTINCT].  A
    quoted name is the name of the table as it stands.  A bare name is read
    by the server's lexer: when it is an identifier (a letter, an
    underscore or a character beyond ASCII, followed by such characters,
    digits and dollar signs) and no reserved key word, it names the table
    of its lower-case form, in which the letters A to Z are folded (as in
    a database encoded in UTF-8); otherwise the statement is taken as
    refused with a syntax error.  (What
    the server makes of a bare text that is no identifier, a
    schema-qualified name or a text that ends the statement early, is left
    out: the properties below that depend on a bare name ask for an
    identifier.) *)

Definition ident_start (c : ascii) : bool :=
  let n := N_of_ascii c in
  (((65 <=? n) && (n <=? 90)) || ((97 <=? n) && (n <=? 122))
   || (n =? 95) || (128 <=? n))%N.

Definition ident_cont (c : ascii) : bool :=
  let n := N_of_ascii c in
  ident_start c || (((48 <=? n) && (n <=? 57)) || (n =? 36))%N.

Definition downcase_char (c : ascii) : ascii :=
  let n := N_of_ascii c in
  if ((65 <=? n) && (n <=? 90))%N then ascii_of_N (n + 32) else c.

Fixpoint downcase_identifier (s : string) : string :=
  match s with
  | EmptyString => EmptyString
  | String c s' => String (downcase_char c) (downcase_identifier s')
  end.

Fixpoint all_chars (p : ascii -> bool) (s : string) : bool :=
  match s with
  | EmptyString => true
  | String c s' => p c && all_chars p s'
  end.

Definition is_identifier (s : string) : bool :=
  match s with
  | EmptyString => false
  | String c s' => ident_start c && all_chars ident_cont s'
  end.

(** The key words of PostgreSQL that cannot name a table. *)
Definition reserved_words : list string :=
  [ "all"; "analyse"; "analyze"; "and"; "any"; "array"; "as"; "asc";
    "asymmetric"; "authorization"; "binary"; "both"; "case"; "cast";
    "check"; "collate"; "collation"; "column"; "concurrently";
    "constraint"; "create"; "cross"; "current_catalog"; "current_date";
    "current_role"; "current_schema"; "current_time"; "current_timestamp";
    "current_user"; "default"; "deferrable"; "desc"; "distinct"; "do";
    "else"; "end"; "except"; "false"; "fetch"; "for"; "foreign"; "freeze";
    "from"; "full"; "grant"; "group"; "having"; "ilike"; "in"; "initially";
    "inner"; "intersect"; "into"; "is"; "isnull"; "join"; "lateral";
    "leading"; "left"; "like"; "limit"; "localtime"; "localtimestamp";
    "natural"; "not"; "notnull"; "null"; "offset"; "on"; "only"; "or";
    "order"; "outer"; "overlaps"; "placing"; "primary"; "references";
    "returning"; "right"; "select"; "session_user"; "similar"; "some";
    "symmetric"; "system_user"; "table"; "tablesample"; "then"; "to";
    "trailing"; "true"; "union"; "unique"; "user"; "using"; "variadic";
    "verbose"; "when"; "where"; "window"; "with" ].

(** The table a bare name stands for. *)
Definition unquoted_name (t : string) : result string :=
  let n := downcase_identifier t in
  if is_identifier t && negb (existsb (String.eqb n) reserved_words)
  then Ok n
  else sql_error ProgrammingError "syntax error".

(** One column definition: [name TEXT NOT NULL]. *)
Definition column_of_def (def : list string) : option string :=
  match def with
  | [name; "TEXT"; "NOT"; "NULL"] => Some name
  | _ => None
  end.

Fixpoint columns_of_defs (defs : list (list string))
  : option (list string) :=
  match defs with
  | [] => Some []
  | d :: ds =>
      match column_of_def d, columns_of_defs ds with
      | Some c, Some cs => Some (c :: cs)
      | _, _ => None
      end
  end.

Definition index_of (c : string) (cols : list string) : option nat :=
  fst <$> list_find (fun x => bool_decide (x = c)) cols.

(** The value bound to column [c] by an [INSERT] that lists [cols] and
    binds [params] to them in order; an unlisted column stays [NULL]. *)
Definition bound_value (cols : list string) (params : list Value)
    (c : string) : Value :=
  match index_of c cols with
  | Some i => default None (params !! i)
  | None => None
  end.

Definition is_null (v : Value) : bool :=
  match v with None => true | Some _ => false end.

(** [WHERE col = v] on one row. *)
Definition row_matches (i : nat) (v : Value) (row : list Value) : bool :=
  match v, row !! i with
  | Some x, Some (Some y) => String.eqb x y
  | _, _ => false
  end.

Fixpoint assign (cols : list string) (set_cols : list string)
    (params : list Value) (row : list Value) : list Value :=
  match cols, row with
  | c :: cols', v :: row' =>
      (match index_of c set_cols with
       | Some i => default None (params !! i)
       | None => v
       end) :: assign cols' set_cols params row'
  | _, _ => row
  end.

(** Running one statement: the rows it returns and the new contents.
    [CREATE TABLE], [INSERT] and [UPDATE] carry a bare table name,
    [SELECT *] a quoted one. *)
Definition run_query (q : Query) (params : list Value) (db : DB)
  : result (list (list Value) * DB) :=
  match q with
  | CreateTableIfNotExists t defs =>
      t ← unquoted_name t;
      match columns_of_defs defs with
      | None => sql_error ProgrammingError "syntax error"
      | Some cols =>
          match db !! t with
          | Some _ => Ok ([], db)
          | None => Ok ([], <[ t := {| columns := cols; rows := [] |} ]> db)
          end
      end
  | InsertInto t cols =>
      t ← unquoted_name t;
      match db !! t with
      | None => sql_error ProgrammingError "relation does not exist"
      | Some tb =>
          if negb (forallb (fun c => bool_decide (c ∈ columns tb)) cols)
          then sql_error ProgrammingError "column does not exist"
          else if negb (Nat.eqb (length cols) (length params))
          then sql_error ProgrammingError "wrong number of parameters"
          else
            let row := bound_value cols params <$> columns tb in
            if existsb is_null row
            then sql_error IntegrityError "null value violates not-null constraint"
            else Ok ([], <[ t := {| columns := columns tb;
                                    rows := rows tb ++ [row] |} ]> db)
      end
  | UpdateSetWhere t set_cols where_col =>
      t ← unquoted_name t;
      match db !! t with
      | None => sql_error ProgrammingError "relation does not exist"
      | Some tb =>
          match index_of where_col (columns tb) with
          | None => sql_error ProgrammingError "column does not exist"
          | Some i =>
              if negb (forallb (fun c => bool_decide (c ∈ columns tb))
                         set_cols)
              then sql_error ProgrammingError "column does not exist"
              else if negb (Nat.eqb (S (length set_cols)) (length params))
              then sql_error ProgrammingError "wrong number of parameters"
              else
                let key := default None (params !! length set_cols) in
                let rows' :=
                  (fun row => if row_matches i key row
                              then assign (columns tb) set_cols params row
                              else row) <$> rows tb in
                if existsb (existsb is_null) rows'
                then sql_error IntegrityError
                       "null value violates not-null constraint"
                else Ok ([], <[ t := {| columns := columns tb;
                                        rows := rows' |} ]> db)
          end
      end
  | SelectAllWhere t where_col =>
      match db !! t with
      | None => sql_error ProgrammingError "relation does not exist"
      | Some tb =>
          match index_of where_col (columns tb) with
          | None => sql_error ProgrammingError "column does not exist"
          | Some i =>
              Ok (List.filter (fun row => row_matches i
                                       (default None (params !! 0)) row)
                    (rows tb), db)
          end
      end
  end.

(** The statements of the other methods of [database.py], beside the
    queries above: [DELETE FROM "t" WHERE col = %s] and [DELETE FROM "t"]
    with a quoted table name, [SELECT DISTINCT col FROM t] and
    [DROP TABLE IF EXISTS t] with a bare one. *)
Inductive Statement :=
| Plain (q : Query)
| DeleteWhere (table where_col : string)
| DeleteAll (table : string)
| SelectDistinct (col table : string)
| DropTableIfExists (table : string).

(** The rows of a table without those that match [WHERE col = v]. *)
Definition rows_without (i : nat) (v : Value) (rows : list (list Value))
  : list (list Value) :=
  List.filter (fun row => negb (row_matches i v row)) rows.

(** The value of column [i] in each row, every value once. *)
Definition distinct_values (i : nat) (rows : list (list Value))
  : list Value :=
  remove_dups ((fun row => default None (row !! i)) <$> rows).

Definition run_statement (s : Statement) (params : list Value) (db : DB)
  : result (list (list Value) * DB) :=
  match s with
  | Plain q => run_query q params db
  | DeleteWhere t where_col =>
      match db !! t with
      | None => sql_error ProgrammingError "relation does not exist"
      | Some tb =>
          match index_of where_col (columns tb) with
          | None => sql_error ProgrammingError "column does not exist"
          | Some i =>
              Ok ([], <[ t := {| columns := columns tb;
                                 rows := rows_without i
                                           (default None (params !! 0%nat))
                                           (rows tb) |} ]> db)
          end
      end
  | DeleteAll t =>
      match db !! t with
      | None => sql_error ProgrammingError "relation does not exist"
      | Some tb =>
          Ok ([], <[ t := {| columns := columns tb; rows := [] |} ]> db)
      end
  | SelectDistinct col t =>
      t ← unquoted_name t;
      match db !! t with
      | None => sql_error ProgrammingError "relation does not exist"
      | Some tb =>
          match index_of col (columns tb) with
          | None => sql_error ProgrammingError "column does not exist"
          | Some i =>
              Ok ((fun v => [v]) <$> distinct_values i (rows tb), db)
          end
      end
  | DropTableIfExists t =>
      t ← unquoted_name t;
      Ok ([], delete t db)
  end.

(** The connection: what is committed on the server, the contents as the
    open transaction sees them ([None] once a statement failed in it, until
    the next commit ends it), and the number of statements sent so far. *)
Record Conn := {
  committed : DB;
  working : option DB;
  n_exec : nat
}.

(** The connection after one more statement, which leaves the open
    transaction as [w] ([None]: the statement failed). *)
Definition sent (c : Conn) (w : option DB) : Conn :=
  {| committed := committed c; working := w; n_exec := S (n_exec c) |}.

(** The connection after [commit]: the open transaction becomes visible;
    an aborted one is rolled back. *)
Definition committing (c : Conn) : Conn :=
  let db := default (committed c) (working c) in
  {| committed := db; working := Some db; n_exec := n_exec c |}.

(** ** Objects, the outside world and the monad of methods *)

(** What [requests.get], [raise_for_status] and [BeautifulSoup] hand to
    [parse_html]: the text of the [h2] under the content [div] ([None] when
    an element on the way is missing), the text of the [strong] element of
    the [pre] block ([None] when either is missing), and the text of the
    [pre] block once the [strong] element is taken out. *)
Record Soup := {
  h2_text : option string;
  strong_text : option string;
  pre_text : string
}.

(** A failure while a file is written: [open(file_name, 'w')] raises and
    the file system is as it was, or the file is opened, and thereby
    emptied, and [f.write] or the closing of the file raises once
    [written] characters of the data have reached the file. *)
Inductive WriteFault :=
| AtOpen (e : exn)
| AtWrite (e : exn) (written : nat).

Definition fault_exn (f : WriteFault) : exn :=
  match f with AtOpen e => e | AtWrite e _ => e end.

(** The files once writing [data] to [file_name] has failed with [f]. *)
Definition after_fault (f : WriteFault) (file_name data : string)
    (fs : gmap string string) : gmap string string :=
  match f with
  | AtOpen _ => fs
  | AtWrite _ written => <[ file_name := String.substring 0 written data ]> fs
  end.

(** What the code cannot decide: the answer of the network to a URL, a
    failure of the file system when a file is written, and a failure of
    the server at the [n]-th statement sent over the connection. *)
Record Env := {
  requester : string -> result Soup;
  write_fault : string -> option WriteFault;
  db_fault : nat -> option exn
}.

(** The fields of the [WebScraper] and of the [DatabaseManager] that holds
    it, the files on disk and the lines printed so far. *)
Record State := {
  semester : string;
  exam_type : string;
  file_name : option string;
  exam_data_header : option string;
  year : option string;
  table_name : option string;
  conn : Conn;
  files : gmap string string;
  stdout : list string
}.

Definition set_file_name (v : option string) (st : State) : State :=
  {| semester := semester st; exam_type := exam_type st; file_name := v;
     exam_data_header := exam_data_header st; year := year st;
     table_name := table_name st; conn := conn st; files := files st;
     stdout := stdout st |}.

Definition set_exam_data_header (v : option string) (st : State) : State :=
  {| semester := semester st; exam_type := exam_type st;
     file_name := file_name st; exam_data_header := v; year := year st;
     table_name := table_name st; conn := conn st; files := files st;
     stdout := stdout st |}.

Definition set_year (v : option string) (st : State) : State :=
  {| semester := semester st; exam_type := exam_type st;
     file_name := file_name st; exam_data_header := exam_data_header st;
     year := v; table_name := table_name st; conn := conn st;
     files := files st; stdout := stdout st |}.

Definition set_table_name (v : option string) (st : State) : State :=
  {| semester := semester st; exam_type := exam_type st;
     file_name := file_name st; exam_data_header := exam_data_header st;
     year := year st; table_name := v; conn := conn st; files := files st;
     stdout := stdout st |}.

Definition set_conn (v : Conn) (st : State) : State :=
  {| semester := semester st; exam_type := exam_type st;
     file_name := file_name st; exam_data_header := exam_data_header st;
     year := year st; table_name := table_name st; conn := v;
     files := files st; stdout := stdout st |}.

Definition set_files (v : gmap string string) (st : State) : State :=
  {| semester := semester st; exam_type := exam_type st;
     file_name := file_name st; exam_data_header := exam_data_header st;
     year := year st; table_name := table_name st; conn := conn st;
     files := v; stdout := stdout st |}.

Definition set_stdout (v : list string) (st : State) : State :=
  {| semester := semester st; exam_type := exam_type st;
     file_name := file_name st; exam_data_header := exam_data_header st;
     year := year st; table_name := table_name st; conn := conn st;
     files := files st; stdout := v |}.

(** A method: it runs on a state, returns or raises, and leaves a state.
    The state a raising method leaves keeps what it changed before. *)
Definition M (A : Type) : Type := State -> result A * State.

Global Instance M_ret : MRet M := fun A a st => (Ok a, st).
Global Instance M_bind : MBind M := fun A B f m st =>
  match m st with
  | (Ok a, st') => f a st'
  | (Raise e, st') => (Raise e, st')
  end.

Definition raise {A} (e : exn) : M A := fun st => (Raise e, st).
Definition lift {A} (r : result A) : M A := fun st => (r, st).
Definition gets {A} (f : State -> A) : M A := fun st => (Ok (f st), st).
Definition modify (f : State -> State) : M unit := fun st => (Ok tt, f st).

(** [try: body except C as e: handler], [catches] deciding the class. *)
Definition try_except {A} (body : M A) (catches : exn -> bool)
    (handler : exn -> M A) : M A := fun st =>
  match body st with
  | (Raise e, st') => if catches e then handler e st' else (Raise e, st')
  | r => r
  end.

Definition print (line : string) : M unit :=
  modify (fun st => set_stdout (stdout st ++ [line]) st).

(** [f"{v}"] for a value that is a string or [None]. *)
Definition fmt (v : option string) : string := default "None" v.

Definition is_class (c : exn_class) (e : exn) : bool :=
  bool_decide (exn_cls e = c).

(** Iterating over an open text file: the lines end at a line feed, a
    carriage return or both, and come with a line feed at their end. *)
Fixpoint readlines_go (cur : string) (s : string) : list string :=
  match s with
  | EmptyString => Py.emit cur []
  | String c s' =>
      if Ascii.eqb c (ascii_of_N 10)
      then (cur +:+ nl) :: readlines_go EmptyString s'
      else if Ascii.eqb c (ascii_of_N 13)
      then (cur +:+ nl) ::
           match s' with
           | String c' s'' =>
               if Ascii.eqb c' (ascii_of_N 10)
               then readlines_go EmptyString s''
               else readlines_go EmptyString s'
           | EmptyString => readlines_go EmptyString s'
           end
      else readlines_go (cur +:+ String c EmptyString) s'
  end.

Definition readlines (content : string) : list string :=
  readlines_go EmptyString content.

(** ** [class WebScraper] *)

Module WebScraper.
Section Methods.
Variable env : Env.

Definition base_url : string := "https://registrar.cornell.edu/exams/".

Definition error_response (error : string) : M bool :=
  _ ← print error; mret false.

Definition success_response (message : string) : M bool :=
  _ ← print message; mret true.

Definition generate_url : M string :=
  sem ← gets semester;
  et ← gets exam_type;
  let semester_param := Py.replace_char " " "-" (Py.lower sem) in
  let exam_type_param := Py.replace_char " " "-" (Py.lower et) in
  mret (base_url +:+ semester_param +:+ "-" +:+ exam_type_param
        +:+ "-exam-schedule").

Definition save_to_text_file (file_name data : string) : M bool :=
  try_except
    (_ ← match write_fault env file_name with
         | Some f =>
             _ ← modify (fun st =>
                   set_files (after_fault f file_name data (files st)) st);
             raise (fault_exn f)
         | None =>
             modify (fun st =>
               set_files (<[ file_name := data ]> (files st)) st)
         end;
     success_response ("Data saved to " +:+ file_name))
    (fun _ => true)
    (fun e => error_response ("Error saving data to file: " +:+ exn_msg e)).

(** The lambda [filename] of [parse_html]. *)
Definition filename (sem year exam : string) : string :=
  Py.lower sem +:+ "-" +:+ year +:+ "-" +:+ Py.lower exam +:+ "-exams.txt".

Definition attribute_error : exn :=
  Exn AttributeError "'NoneType' object has no attribute".

Definition parse_html (soup : Soup) : M string :=
  semester_info ← match h2_text soup with
                  | Some t => mret t
                  | None => raise attribute_error
                  end;
  strong ← match strong_text soup with
           | Some t => mret t
           | None => raise attribute_error
           end;
  _ ← modify (set_exam_data_header (Some (Py.strip strong)));
  let exam_data := pre_text soup in
  y ← lift (getitem (Py.split semester_info) 1);
  _ ← modify (set_year (Some y));
  sem ← gets semester;
  et ← gets exam_type;
  let fn := filename sem y et in
  _ ← modify (set_file_name (Some fn));
  _ ← save_to_text_file fn (semester_info +:+ nl +:+ exam_data);
  mret exam_data.

Definition scrape_course_info : M (Union string) :=
  try_except
    (url ← generate_url;
     soup ← lift (requester env url);
     exam_data ← parse_html soup;
     mret (Val exam_data))
    (fun _ => true)
    (fun e => b ← error_response
                    ("Error scraping course information: " +:+ exn_msg e);
              mret (Flag b)).

Definition process_exam_data (filepath : option string)
  : M (Union (list Dict)) :=
  match filepath with
  | None => raise (Exn AssertionError "")
  | Some path =>
      try_except
        (content ← (fun st => match files st !! path with
                              | Some c => (Ok c, st)
                              | None => (Raise (Exn FileNotFoundError
                                           "No such file or directory"), st)
                              end);
         sem ← gets semester;
         et ← gets exam_type;
         data ← lift (parse_exam_file sem et (readlines content));
         mret (Val data))
        (is_class FileNotFoundError)
        (fun _ => b ← error_response
                        ("Error: File '" +:+ path +:+ "' not found.");
                  mret (Flag b))
  end.

End Methods.
End WebScraper.

(** ** [class DatabaseManager] *)

Module DatabaseManager.
Section Methods.
Variable env : Env.

Definition error_response (error : string) : M bool :=
  _ ← print ("Error: " +:+ error); mret false.

Definition success_response (message : string) : M bool :=
  _ ← print ("Success: " +:+ message); mret true.

Definition set_exam_table_name (table_name : string) : M unit :=
  modify (set_table_name (Some table_name)).

(** [cur.execute(query, params)] *)
Definition execute (q : Query) (params : list Value)
  : M (list (list Value)) := fun st =>
  let c := conn st in
  match db_fault env (n_exec c) with
  | Some e => (Raise e, set_conn (sent c None) st)
  | None =>
      match working c with
      | None =>
          (Raise (Exn InternalError "current transaction is aborted"),
           set_conn (sent c None) st)
      | Some db =>
          match run_query q params db with
          | Ok (rs, db') => (Ok rs, set_conn (sent c (Some db')) st)
          | Raise e => (Raise e, set_conn (sent c None) st)
          end
      end
  end.

(** [self.conn.commit()] *)
Definition commit : M unit :=
  modify (fun st => set_conn (committing (conn st)) st).

Definition unknown_exam_type : exn := Exn ValueError "Unknown exam type".

Definition text_not_null (name : string) : list string :=
  [name; "TEXT"; "NOT"; "NULL"].

Definition generate_create_table_query (table_name exam_type : string)
  : result Query :=
  if String.eqb (Py.lower exam_type) "prelim" then
    Ok (CreateTableIfNotExists table_name
          [ text_not_null "course_code";
            text_not_null "exam_date";
            text_not_null "exam_locations" ])
  else if String.eqb (Py.lower exam_type) "final" then
    Ok (CreateTableIfNotExists table_name
          [ text_not_null "course_code";
            text_not_null "exam_date";
            text_not_null "exam_time";
            text_not_null "test_type" ++ text_not_null "exam_locations" ])
  else Raise unknown_exam_type.

Definition create_exam_table (semester exam_type : string)
    (year : option string) : M bool :=
  _ ← set_exam_table_name
        (semester +:+ "_" +:+ fmt year +:+ "_" +:+ exam_type +:+ "_exams");
  try_except
    (tn ← gets table_name;
     q ← lift (generate_create_table_query (fmt tn) exam_type);
     _ ← execute q [];
     _ ← commit;
     success_response "Table created successfully!")
    (is_class OperationalError)
    (fun e => error_response
                ("Error creating table in PostgreSQL: " +:+ exn_msg e)).

Definition generate_insert_exam_query (table_name exam_type : string)
  : result Query :=
  if String.eqb (Py.lower exam_type) "prelim" then
    Ok (InsertInto table_name
          ["course_code"; "exam_date"; "exam_locations"])
  else if String.eqb (Py.lower exam_type) "final" then
    Ok (InsertInto table_name
          ["course_code"; "exam_date"; "exam_time"; "exam_or_deliverable";
           "exam_locations"])
  else Raise unknown_exam_type.

Definition insert_exam (code date locations : Value) (exam_type : string)
    (time test_type : Value) : M bool :=
  tn ← gets table_name;
  insert_query ← lift (generate_insert_exam_query (fmt tn)
                         (Py.lower exam_type));
  try_except
    (_ ← (if String.eqb (Py.lower exam_type) "prelim"
          then execute insert_query [code; date; locations]
          else if String.eqb (Py.lower exam_type) "final"
          then execute insert_query
                 [code; date; time; test_type; locations]
          else raise unknown_exam_type);
     _ ← commit;
     success_response "Exam record inserted successfully.")
    (is_class OperationalError)
    (fun e => error_response
                ("Error inserting exam record: " +:+ exn_msg e)).

(** The [for] loop of [populate_exam_table]. *)
Fixpoint insert_each (exam_type : string) (exams_data : list Dict)
  : M unit :=
  match exams_data with
  | [] => mret tt
  | exam_info :: rest =>
      let code := exam_info !! "course_code" in
      let date := exam_info !! "exam_date" in
      let locations := exam_info !! "exam_locations" in
      _ ← (if String.eqb (Py.lower exam_type) "final" then
             let time := exam_info !! "exam_time" in
             let test_type := exam_info !! "test_type" in
             insert_exam code date locations (Py.lower exam_type)
               time test_type
           else
             insert_exam code date locations (Py.lower exam_type)
               None None);
      insert_each exam_type rest
  end.

Definition populate_exam_table (semester exam_type : string) : M bool :=
  _ ← WebScraper.scrape_course_info env;
  fn ← gets file_name;
  exams_data ← WebScraper.process_exam_data fn;
  y ← gets year;
  _ ← create_exam_table semester (Py.lower exam_type) y;
  try_except
    (_ ← match exams_data with
         | Val l => insert_each exam_type l
         | Flag _ => raise (Exn TypeError "'bool' object is not iterable")
         end;
     _ ← commit;
     success_response "Data inserted into database successfully!")
    (is_class OperationalError)
    (fun e => error_response
                ("Error inserting data into PostgreSQL: " +:+ exn_msg e)).

Definition generate_update_exam_query (table_name exam_type : string)
  : result Query :=
  if String.eqb (Py.lower exam_type) "prelim" then
    Ok (UpdateSetWhere table_name ["exam_date"; "exam_locations"]
          "course_code")
  else if String.eqb (Py.lower exam_type) "final" then
    Ok (UpdateSetWhere table_name
          ["exam_date"; "exam_time"; "exam_or_deliverable";
           "exam_locations"] "course_code")
  else Raise unknown_exam_type.

Definition update_exam (code date locations : Value) (exam_type : string)
    (time test_type : Value) : M bool :=
  try_except
    (tn ← gets table_name;
     update_query ← lift (generate_update_exam_query (fmt tn) exam_type);
     _ ← (if String.eqb (Py.lower exam_type) "prelim"
          then execute update_query [code; date; locations]
          else if String.eqb (Py.lower exam_type) "final"
          then execute update_query
                 [code; date; time; test_type; locations]
          else raise unknown_exam_type);
     _ ← commit;
     success_response "Exam record updated successfully.")
    (is_class OperationalError)
    (fun e => error_response
                ("Error updating exam record: " +:+ exn_msg e)).

(** [record[i]] on a row tuple. *)
Definition field (record : list Value) (i : nat) : result Value :=
  match record !! i with
  | Some v => Ok v
  | None => Raise (Exn IndexError "tuple index out of range")
  end.

Definition format_exam_record (record : list Value) (exam_type : string)
  : result (gmap string Value) :=
  if String.eqb exam_type "prelim" then
    r0 ← field record 0; r1 ← field record 1; r2 ← field record 2;
    Ok ({[ "course_code" := r0; "exam_date" := r1;
           "exam_locations" := r2 ]} : gmap string Value)
  else if String.eqb exam_type "final" then
    r0 ← field record 0; r1 ← field record 1; r2 ← field record 2;
    r3 ← field record 3; r4 ← field record 4;
    Ok ({[ "course_code" := r0; "exam_date" := r1; "exam_time" := r2;
           "test_type" := r3; "exam_locations" := r4 ]}
        : gmap string Value)
  else Raise unknown_exam_type.

(** The list comprehension of [fetch_exam]. *)
Fixpoint format_each (exam_records : list (list Value))
    (exam_type : string) : result (list (gmap string Value)) :=
  match exam_records with
  | [] => Ok []
  | record :: rest =>
      d ← format_exam_record record exam_type;
      ds ← format_each rest exam_type;
      Ok (d :: ds)
  end.

Definition fetch_exam (course_code : Value) (exam_type : string)
  : M (Union (list (gmap string Value))) :=
  try_except
    (tn ← gets table_name;
     exam_records ← execute (SelectAllWhere (fmt tn) "course_code")
                      [course_code];
     l ← lift (format_each exam_records exam_type);
     mret (Val l))
    (is_class OperationalError)
    (fun e => b ← error_response
                    ("Error fetching exam records: " +:+ exn_msg e);
              mret (Flag b)).

(** [cur.execute] for the statements of the methods below. *)
Definition execute_statement (s : Statement) (params : list Value)
  : M (list (list Value)) := fun st =>
  let c := conn st in
  match db_fault env (n_exec c) with
  | Some e => (Raise e, set_conn (sent c None) st)
  | None =>
      match working c with
      | None =>
          (Raise (Exn InternalError "current transaction is aborted"),
           set_conn (sent c None) st)
      | Some db =>
          match run_statement s params db with
          | Ok (rs, db') => (Ok rs, set_conn (sent c (Some db')) st)
          | Raise e => (Raise e, set_conn (sent c None) st)
          end
      end
  end.

(** [delete_table]; the connection object is there, so that the branch
    "Database connection not available." is never taken. *)
Definition delete_table (table_name : string) : M bool :=
  try_except
    (_ ← execute_statement (DropTableIfExists table_name) [];
     _ ← commit;
     success_response ("Table '" +:+ table_name
                       +:+ "' deleted successfully."))
    (is_class OperationalError)
    (fun e => error_response ("Error deleting table: " +:+ exn_msg e)).

Definition delete_exam (course_code : Value) : M bool :=
  try_except
    (tn ← gets table_name;
     _ ← execute_statement (DeleteWhere (fmt tn) "course_code")
           [course_code];
     _ ← commit;
     success_response "Exam record deleted successfully.")
    (is_class OperationalError)
    (fun e => error_response
                ("Error deleting exam record: " +:+ exn_msg e)).

(** The loop of [fetch_k_exams]: one [SELECT] and one [fetchone] for each
    course code; [exam_records] is the list built so far. *)
Fixpoint fetch_each (course_codes : list Value) (exam_type : string)
    (exam_records : list (gmap string Value))
  : M (list (gmap string Value)) :=
  match course_codes with
  | [] => mret exam_records
  | code :: rest =>
      tn ← gets table_name;
      rs ← execute (SelectAllWhere (fmt tn) "course_code") [code];
      match rs with
      | (_ :: _) as record :: _ =>
          d ← lift (format_exam_record record exam_type);
          fetch_each rest exam_type (exam_records ++ [d])
      | _ => fetch_each rest exam_type exam_records
      end
  end.

Definition fetch_k_exams (course_codes : list Value) (exam_type : string)
  : M (Union (list (gmap string Value))) :=
  try_except
    (l ← fetch_each course_codes exam_type [];
     mret (Val l))
    (is_class OperationalError)
    (fun e => b ← error_response
                    ("Error fetching exam records: " +:+ exn_msg e);
              mret (Flag b)).

(** The list comprehension of [fetch_all_courses]. *)
Fixpoint first_fields (records : list (list Value))
  : result (list Value) :=
  match records with
  | [] => Ok []
  | record :: rest =>
      v ← field record 0;
      vs ← first_fields rest;
      Ok (v :: vs)
  end.

Definition fetch_all_courses : M (Union (list Value)) :=
  try_except
    (tn ← gets table_name;
     records ← execute_statement (SelectDistinct "course_code" (fmt tn)) [];
     course_codes ← lift (first_fields records);
     mret (Val course_codes))
    (is_class OperationalError)
    (fun e => b ← error_response
                    ("Error fetching course codes: " +:+ exn_msg e);
              mret (Flag b)).

Definition delete_all_exams : M bool :=
  try_except
    (tn ← gets table_name;
     _ ← execute_statement (DeleteAll (fmt tn)) [];
     _ ← commit;
     success_response "All exam records deleted successfully.")
    (is_class OperationalError)
    (fun e => error_response
                ("Error deleting all exam records: " +:+ exn_msg e)).

End Methods.
End DatabaseManager.

(** ** The rows of a prelim table *)

Definition prelim_columns : list string :=
  ["course_code"; "exam_date"; "exam_locations"].



(** Table [t] with [new] rows after those it has. *)
Definition append_rows (t : string) (new : list (list Value)) (db : DB)
  : DB :=
  match db !! t with
  | Some tb => <[ t := {| columns := columns tb; rows := rows tb ++ new |} ]> db
  | None => db
  end.

(** The database once [CREATE TABLE IF NOT EXISTS t] has run for a prelim
    table. *)
Definition with_prelim_table (t : string) (db : DB) : DB :=
  match db !! t with
  | Some _ => db
  | None => <[ t := {| columns := prelim_columns; rows := [] |} ]> db
  end.

(** ** Scenarios

    The state [get_db_manager] of [app.py] sets up for one request: a new
    scraper and a new manager (with [table_name] left to its default
    [None]) on a connection that has sent nothing yet, over the given
    database and files. *)
Definition get_db_manager (semester exam_type : string) (db : DB)
    (fs : gmap string string) : State :=
  {| semester := semester; exam_type := exam_type;
     file_name := None; exam_data_header := None; year := None;
     table_name := None;
     conn := {| committed := db; working := Some db; n_exec := 0 |};
     files := fs; stdout := [] |}.

(** A page with the given heading and schedule text, served for every URL
    by a network, a file system and a server that do not fail. *)
Definition page (heading body : string) : Soup :=
  {| h2_text := Some heading;
     strong_text := Some "Course Date Location";
     pre_text := body |}.

Definition serving (soup : Soup) : Env :=
  {| requester := fun _ => Ok soup;
     write_fault := fun _ => None;
     db_fault := fun _ => None |}.

(** The same, with the server failing at statement [n] with [e]. *)
Definition serving_with_fault (soup : Soup) (n : nat) (e : exn) : Env :=
  {| requester := fun _ => Ok soup;
     write_fault := fun _ => None;
     db_fault := fun i => if Nat.eqb i n then Some e else None |}.

(** ** The routes of [app.py]

    A route builds its manager with [get_db_manager], calls one method and
    answers with [success_response]; whatever the method raises is
    answered with [failure_response].  Between two requests the server
    keeps what was committed and what was written to disk. *)

Module App.

(** What [jsonify] is given. *)
Inductive Payload :=
| Message (s : string)
| Exams (v : Union (list (gmap string Value)))
| Courses (v : Union (list Value))
| Error (message : string).

Record Server := { database : DB; disk : gmap string string }.

Definition success_response (data : Payload) : Payload * nat := (data, 200).

Definition failure_response (message : string) : Payload * nat :=
  (Error message, 404).

(** The [try] ... [except Exception as e] around the body of a route. *)
Definition handle {A} (semester exam_type : string) (body : M A)
    (reply : A -> Payload) (srv : Server) : (Payload * nat) * Server :=
  let st := get_db_manager semester exam_type (database srv) (disk srv) in
  let (r, st') := body st in
  let srv' := {| database := committed (conn st'); disk := files st' |} in
  match r with
  | Ok a => (success_response (reply a), srv')
  | Raise e => (failure_response (exn_msg e), srv')
  end.

Section Routes.
Variable env : Env.

Definition create_all_exams (semester exam_type : string) :=
  handle semester exam_type
    (DatabaseManager.populate_exam_table env semester exam_type)
    (fun _ => Message "Exam data created successfully.").

Definition get_exams_by_course_code (course_code semester
    exam_type : string) :=
  handle semester exam_type
    (DatabaseManager.fetch_exam env (Some course_code) exam_type)
    Exams.

Definition delete_exam_by_course_code (course_code semester
    exam_type : string) :=
  handle semester exam_type
    (DatabaseManager.delete_exam env (Some course_code))
    (fun _ => Message ("Exam data for course " +:+ course_code
                       +:+ " deleted successfully.")).

Definition fetch_all_courses (semester exam_type : string) :=
  handle semester exam_type
    (DatabaseManager.fetch_all_courses env)
    Courses.

End Routes.
End App.

(** The pages of the two scenarios, and a page asked for with an exam
    type the code does not know. *)
Definition prelim_page : Soup :=
  page "Fall 2024 Prelim Exam Schedule" "CS 2110 10/15 Statler Hall".

Definition midterm_page : Soup :=
  page "FA 2024 Midterm Exam Schedule" "CS 2110 10/15 Statler Hall".

Definition final_page : Soup :=
  page "fall 2024 Final Exam Schedule"
    "CS 2110 001 12/14 9:00 AM in person Barton Hall".

(** The state the final scenario is left in by populate: the scrape has
    set its fields, written the file and printed; the table name is
    selected; the one statement sent has failed. *)
Definition after_final_populate : State :=
  {| semester := "fall"; exam_type := "final";
     file_name := Some "fall-2024-final-exams.txt";
     exam_data_header := Some "Course Date Location";
     year := Some "2024";
     table_name := Some "fall_2024_final_exams";
     conn := {| committed := ∅; working := None; n_exec := 1 |};
     files := {[ "fall-2024-final-exams.txt" :=
                   "fall 2024 Final Exam Schedule" +:+ nl +:+
                   "CS 2110 001 12/14 9:00 AM in person Barton Hall" ]};
     stdout := ["Data saved to fall-2024-final-exams.txt"] |}.

(** A prelim page with three exams, and the records they parse to. *)
Definition three_prelims : Soup :=
  page "FA 2024 Prelim Exam Schedule"
    ("CS 2110 10/15 Statler Hall" +:+ nl +:+
     "MATH 1920 10/17 Olin Hall" +:+ nl +:+
     "PHYS 1112 10/22 Rockefeller Hall").

Definition three_records : list Dict :=
  [ {[ "course_code" := "CS 2110"; "exam_date" := "10/15";
       "exam_locations" := "Statler Hall" ]};
    {[ "course_code" := "MATH 1920"; "exam_date" := "10/17";
       "exam_locations" := "Olin Hall" ]};
    {[ "course_code" := "PHYS 1112"; "exam_date" := "10/22";
       "exam_locations" := "Rockefeller Hall" ]} ].

Definition statement_timeout : exn :=
  Exn OperationalError "canceling statement due to statement timeout".

(** The record of the final scenario. *)
Definition final_record : Dict :=
  {[ "course_code" := "CS 2110 001"; "exam_date" := "12/14";
     "exam_time" := "9:00 AM"; "test_type" := "in person";
     "exam_locations" := "Barton Hall" ]}.

(** ** Notions used by the further properties *)

(** An exam type the code knows, in any letter case. *)
Definition known (et : string) : Prop :=
  Py.lower et = "prelim" \/ Py.lower et = "final".

(** A line too short for the decoders: fewer than three tokens, or three
    tokens of which the third has three characters. *)
Definition too_short (parts : list string) : bool :=
  match parts with
  | [] | [_] | [_; _] => true
  | [_; _; t2] => Nat.eqb (String.length t2) 3
  | _ => false
  end.

(** The tokens of a field of a record; none when the field is missing. *)
Definition field_tokens (r : Dict) (key : string) : list string :=
  Py.split (default "" (r !! key)).

(** The two characters that end a line of a text file. *)
Definition line_feed : ascii := ascii_of_N 10.
Definition carriage_return : ascii := ascii_of_N 13.

(** The URL that [generate_url] builds in state [st]. *)
Definition url_of (st : State) : string :=
  WebScraper.base_url
  +:+ Py.replace_char " " "-" (Py.lower (semester st)) +:+ "-"
  +:+ Py.replace_char " " "-" (Py.lower (exam_type st))
  +:+ "-exam-schedule".

(** ** Notions used for the store *)

(** A row of a prelim table: three values, none of them [NULL]. *)
Definition full_row (row : list Value) : Prop :=
  exists x y z, row = [Some x; Some y; Some z].

(** A table name that the server reads bare as it reads it between
    quotes: an identifier without capital letters that is no reserved key
    word. *)
Definition plain_name (t : string) : Prop := unquoted_name t = Ok t.

(** The manager has selected table [t], which in the open transaction
    [db] is the prelim table [tb]. *)
Definition on_prelim_table (st : State) (t : string) (db : DB)
    (tb : Table) : Prop :=
  table_name st = Some t
  /\ working (conn st) = Some db
  /\ db !! t = Some tb
  /\ columns tb = prelim_columns
  /\ Forall full_row (rows tb).

(** The server fails at none of the next [k] statements. *)
Definition quiet (env : Env) (st : State) (k : nat) : Prop :=
  forall i, i < k -> db_fault env (n_exec (conn st) + i) = None.

(** A row of a prelim table as [format_exam_record] gives it back. *)
Definition prelim_dict (row : list Value) : gmap string Value :=
  {[ "course_code" := default None (row !! 0%nat);
     "exam_date" := default None (row !! 1%nat);
     "exam_locations" := default None (row !! 2%nat) ]}.

(** The rows whose first value is the course code [code]. *)
Definition rows_with (code : Value) (rows : list (list Value))
  : list (list Value) :=
  List.filter (row_matches 0 code) rows.


(** The table a bare name stands for when the server accepts the name,
    and the name itself otherwise. *)
Definition served_name (t : string) : string :=
  match unquoted_name t with Ok n => n | Raise _ => t end.

(** The table a query reads or writes. *)
Definition query_table (q : Query) : string :=
  match q with
  | CreateTableIfNotExists t _ => served_name t
  | InsertInto t _ => served_name t
  | UpdateSetWhere t _ _ => served_name t
  | SelectAllWhere t _ => t
  end.

(** Database [d'] is [d] in every table but [t]. *)
Definition same_elsewhere (t : string) (d d' : DB) : Prop :=
  forall t', t' <> t -> d' !! t' = d !! t'.

(** What is committed on the connection of [st], and what its open
    transaction sees, are [d0] in every table but [t]. *)
Definition framed (t : string) (d0 : DB) (st : State) : Prop :=
  same_elsewhere t d0 (committed (conn st))
  /\ forall w, working (conn st) = Some w -> same_elsewhere t d0 w.

(** A manager on a prelim table of two exams. *)
Definition two_rows : list (list Value) :=
  [ [Some "CS 2110"; Some "10/15"; Some "Statler Hall"];
    [Some "MATH 1920"; Some "10/17"; Some "Olin Hall"] ].

Definition prelim_table : Table :=
  {| columns := prelim_columns; rows := two_rows |}.

Definition prelim_db : DB := {[ "fall_2024_prelim_exams" := prelim_table ]}.

Definition prelim_manager : State :=
  set_table_name (Some "fall_2024_prelim_exams")
    (get_db_manager "fall" "prelim" prelim_db ∅).

(** * Properties *)

(** ** Strings *)

Section StringFacts.
Import Py.
#[local] Arguments String.append !_ _ / : simpl nomatch.

Lemma app_empty_r (s : string) : s +:+ "" = s.
Proof. induction s as [|c s IH]; simpl; [done | by rewrite IH]. Qed.

Lemma app_assoc' (a b c : string) : (a +:+ b) +:+ c = a +:+ b +:+ c.
Proof. induction a as [|x a IH]; simpl; [done | by rewrite IH]. Qed.

Lemma is_empty_app (a b : string) :
  is_empty (a +:+ b) = is_empty a && is_empty b.
Proof. by destruct a. Qed.

Lemma is_empty_true (s : string) : is_empty s = true -> s = "".
Proof. by destruct s. Qed.

Lemma no_space_app (a b : string) :
  no_space (a +:+ b) = no_space a && no_space b.
Proof.
  induction a as [|c a IH]; simpl; [done |].
  by rewrite IH, andb_assoc.
Qed.

(** Every string [split] returns is a token. *)
Lemma split_go_tokens (s cur : string) :
  no_space cur = true -> Forall is_token (split_go cur s).
Proof.
  revert cur. induction s as [|c s IH]; intros cur Hcur; simpl.
  - unfold emit. destruct (is_empty cur) eqn:E; [constructor |].
    repeat constructor; done.
  - destruct (isspace c) eqn:Hc.
    + unfold emit. destruct (is_empty cur) eqn:E.
      * by apply IH.
      * constructor; [done | by apply IH].
    + apply IH. rewrite no_space_app, Hcur. simpl. by rewrite Hc.
Qed.

Lemma split_tokens (s : string) : Forall is_token (split s).
Proof. by apply split_go_tokens. Qed.

(** White space around a line does not change its tokens. *)
Lemma split_lstrip (s : string) : split (lstrip s) = split s.
Proof.
  unfold split. induction s as [|c s IH]; simpl; [done |].
  destruct (isspace c) eqn:Hc; [| by simpl; rewrite Hc].
  by rewrite IH.
Qed.

Lemma split_go_rstrip (s cur : string) :
  split_go cur (rstrip s) = split_go cur s.
Proof.
  revert cur. induction s as [|c s IH]; intros cur; simpl; [done |].
  destruct (is_empty (rstrip s) && isspace c) eqn:E.
  - apply andb_true_iff in E as [E1 E2]. rewrite E2. simpl.
    rewrite <- (IH ""). apply is_empty_true in E1. by rewrite E1.
  - simpl. destruct (isspace c); by rewrite IH.
Qed.

Lemma split_strip (s : string) : split (strip s) = split s.
Proof. unfold strip. rewrite split_lstrip. apply split_go_rstrip. Qed.

(** [strip] leaves a space-joined list of tokens as it is. *)
Lemma lstrip_token_app (t x : string) :
  is_token t -> lstrip (t +:+ x) = t +:+ x.
Proof.
  intros [Hne Hns]. destruct t as [|c t]; [done |]. simpl in *.
  apply andb_true_iff in Hns as [Hc _].
  by destruct (isspace c).
Qed.

Lemma rstrip_app (x b : string) :
  is_empty b = false -> rstrip b = b -> rstrip (x +:+ b) = x +:+ b.
Proof.
  intros Hne Hb. induction x as [|c x IH]; simpl; [done |].
  rewrite IH. by rewrite is_empty_app, Hne, andb_false_r.
Qed.

Lemma rstrip_token (t : string) : no_space t = true -> rstrip t = t.
Proof.
  induction t as [|c t IH]; simpl; [done |].
  intros [Hc Ht]%andb_true_iff. rewrite IH by done.
  destruct (isspace c); [done |]. by rewrite andb_false_r.
Qed.

Lemma join_cons (sep t : string) (l : list string) :
  join sep (t :: l) =
  match l with [] => t | _ => t +:+ sep +:+ join sep l end.
Proof. by destruct l. Qed.

Lemma join_tokens_stripped (l : list string) :
  Forall is_token l ->
  lstrip (join " " l) = join " " l /\ rstrip (join " " l) = join " " l
  /\ (l <> [] -> is_empty (join " " l) = false).
Proof.
  induction 1 as [|t l Ht Hl IH]; [done |].
  rewrite join_cons. destruct l as [|t' l].
  - destruct Ht as [Hne Hns]. split_and!; [| by apply rstrip_token | done].
    rewrite <- (app_empty_r t). by apply lstrip_token_app.
  - destruct IH as (_ & IHr & IHe). split_and!.
    + by apply lstrip_token_app.
    + rewrite <- app_assoc'. apply rstrip_app; [by apply IHe | done].
    + intros _. rewrite is_empty_app. destruct Ht as [-> _]. done.
Qed.

Lemma strip_join_tokens (l : list string) :
  Forall is_token l -> strip (join " " l) = join " " l.
Proof.
  intros H. destruct (join_tokens_stripped l H) as (Hl & Hr & _).
  unfold strip. by rewrite Hr, Hl.
Qed.

End StringFacts.

(** ** Decoding one line *)

Section Decoding.
Import Py.
#[local] Arguments slice : simpl never.
#[local] Arguments slice_from : simpl never.

Lemma strip_token (t : string) : is_token t -> strip t = t.
Proof.
  intros Ht. apply (strip_join_tokens [t]).
  repeat (constructor; [assumption |]); constructor.
Qed.

Lemma strip_join2 (a b : string) :
  is_token a -> is_token b -> strip (a +:+ " " +:+ b) = a +:+ " " +:+ b.
Proof.
  intros Ha Hb. apply (strip_join_tokens [a; b]).
  repeat (constructor; [assumption |]); constructor.
Qed.

Lemma strip_join3 (a b c : string) :
  is_token a -> is_token b -> is_token c ->
  strip (a +:+ " " +:+ b +:+ " " +:+ c) = a +:+ " " +:+ b +:+ " " +:+ c.
Proof.
  intros Ha Hb Hc. apply (strip_join_tokens [a; b; c]).
  repeat (constructor; [assumption |]); constructor.
Qed.

Lemma strip_join_drop (n : nat) (l : list string) :
  Forall is_token l ->
  strip (join " " (slice_from n l)) = join " " (slice_from n l).
Proof. intros H. apply strip_join_tokens. by apply Forall_drop. Qed.

Lemma strip_join_slice (i j : nat) (l : list string) :
  Forall is_token l ->
  strip (join " " (slice i j l)) = join " " (slice i j l).
Proof.
  intros H. apply strip_join_tokens. unfold slice.
  by apply Forall_take, Forall_drop.
Qed.

(** The prelim decoder on a line of at least three tokens. *)
Lemma decode_prelim (et t0 t1 t2 : string) (rest : list string) :
  let parts := t0 :: t1 :: t2 :: rest in
  lower et = "prelim" ->
  Forall is_token parts ->
  decode_line et parts =
  if Nat.eqb (String.length t2) 3 then
    match rest with
    | [] => Raise (Exn IndexError "list index out of range")
    | d :: _ =>
        Ok {[ "course_code" := t0 +:+ " " +:+ t1 +:+ " " +:+ t2;
              "exam_date" := d;
              "exam_locations" := join " " (slice_from 4 parts) ]}
    end
  else
    Ok {[ "course_code" := t0 +:+ " " +:+ t1;
          "exam_date" := t2;
          "exam_locations" := join " " (slice_from 3 parts) ]}.
Proof.
  intros parts Het Htok. unfold decode_line. rewrite Het. simpl.
  pose proof Htok as Hall.
  apply Forall_cons in Htok as [H0 Htok].
  apply Forall_cons in Htok as [H1 Htok].
  apply Forall_cons in Htok as [H2 Htok].
  destruct (Nat.eqb (String.length t2) 3).
  - destruct rest as [|d locs]; [done |]. simpl.
    apply Forall_cons in Htok as [Hd _].
    by rewrite strip_join3, (strip_token d), (strip_join_drop 4 parts).
  - by rewrite strip_join2, (strip_token t2), (strip_join_drop 3 parts).
Qed.

(** The final decoder on a line of at least three tokens. *)
Lemma decode_final (et t0 t1 t2 : string) (rest : list string) :
  let parts := t0 :: t1 :: t2 :: rest in
  lower et = "final" ->
  Forall is_token parts ->
  decode_line et parts =
  if Nat.eqb (String.length t2) 3 then
    match rest with
    | [] => Raise (Exn IndexError "list index out of range")
    | d :: _ =>
        Ok {[ "course_code" := t0 +:+ " " +:+ t1 +:+ " " +:+ t2;
              "exam_date" := d;
              "exam_time" := join " " (slice 4 6 parts);
              "test_type" := join " " (slice 6 8 parts);
              "exam_locations" := join " " (slice_from 8 parts) ]}
    end
  else
    Ok {[ "course_code" := t0 +:+ " " +:+ t1;
          "exam_date" := t2;
          "exam_time" := join " " (slice 3 5 parts);
          "test_type" := join " " (slice 5 7 parts);
          "exam_locations" := join " " (slice_from 7 parts) ]}.
Proof.
  intros parts Het Htok. unfold decode_line. rewrite Het. simpl.
  pose proof Htok as Hall.
  apply Forall_cons in Htok as [H0 Htok].
  apply Forall_cons in Htok as [H1 Htok].
  apply Forall_cons in Htok as [H2 Htok].
  destruct (Nat.eqb (String.length t2) 3).
  - destruct rest as [|d more]; [done |]. simpl.
    apply Forall_cons in Htok as [Hd _].
    by rewrite strip_join3, (strip_token d), (strip_join_slice 4 6 parts),
      (strip_join_slice 6 8 parts), (strip_join_drop 8 parts).
  - by rewrite strip_join2, (strip_token t2), (strip_join_slice 3 5 parts),
      (strip_join_slice 5 7 parts), (strip_join_drop 7 parts).
Qed.

(** One step of the loop on a line that is not skipped. *)
Lemma parse_lines_step (sem et line : string) (file : list string)
    (acc : list Dict) :
  skipped sem (strip line) = false ->
  parse_lines sem et (line :: file) acc =
  r ← decode_line et (split line); parse_lines sem et file (acc ++ [r]).
Proof. intros H. simpl. by rewrite H, split_strip. Qed.

Lemma parse_lines_skip (sem et line : string) (file : list string)
    (acc : list Dict) :
  skipped sem (strip line) = true ->
  parse_lines sem et (line :: file) acc = parse_lines sem et file acc.
Proof. intros H. simpl. by rewrite H. Qed.

End Decoding.

(** ** The records [parse_exam_file] builds *)

Section Parsing.
Import Py.

(** C1 (as amended).  With exam type "prelim", a line of at least four
    tokens that the header test does not skip adds exactly one record: when
    the third token has three characters, the course code is the first
    three tokens joined by spaces, the date is the fourth token and the
    locations are the tokens from the fifth on joined by spaces; otherwise
    the course code is the first two tokens, the date the third, and the
    locations the tokens from the fourth on. *)
Theorem prelim_line_record (sem et line : string) (file : list string)
    (acc : list Dict) (t0 t1 t2 t3 : string) (rest : list string) :
  lower et = "prelim" ->
  skipped sem (strip line) = false ->
  split line = t0 :: t1 :: t2 :: t3 :: rest ->
  let record : Dict :=
    if Nat.eqb (String.length t2) 3
    then {[ "course_code" := join " " [t0; t1; t2];
            "exam_date" := t3;
            "exam_locations" := join " " rest ]}
    else {[ "course_code" := join " " [t0; t1];
            "exam_date" := t2;
            "exam_locations" := join " " (t3 :: rest) ]} in
  parse_lines sem et (line :: file) acc =
    parse_lines sem et file (acc ++ [record])
  /\ parse_exam_file sem et [line] = Ok [record].
Proof.
  intros Het Hskip Hsplit record.
  assert (Hdec : decode_line et (split line) = Ok record).
  { pose proof (split_tokens line) as Htok. rewrite Hsplit in *.
    rewrite decode_prelim by done. subst record.
    by destruct (Nat.eqb (String.length t2) 3). }
  split.
  - by rewrite parse_lines_step, Hdec.
  - unfold parse_exam_file. by rewrite parse_lines_step, Hdec.
Qed.

Lemma prelim_line_record_witness :
  (lower "prelim" = "prelim"
   /\ skipped "FA 2024" (strip "CS 2110 10/15 Statler Hall") = false
   /\ split "CS 2110 10/15 Statler Hall"
      = ["CS"; "2110"; "10/15"; "Statler"; "Hall"])
  /\ parse_exam_file "FA 2024" "prelim" ["CS 2110 10/15 Statler Hall"] =
     Ok [ {[ "course_code" := "CS 2110"; "exam_date" := "10/15";
             "exam_locations" := "Statler Hall" ]} ].
Proof.
  split; [by split_and! |].
  exact (proj2 (prelim_line_record "FA 2024" "prelim"
                  "CS 2110 10/15 Statler Hall" [] []
                  "CS" "2110" "10/15" "Statler" ["Hall"]
                  eq_refl eq_refl eq_refl)).
Defined.

(** C1 as stated fails on the header line: it has five tokens, starts with
    the semester label, and adds no record. *)
Lemma prelim_header_line_counterexample :
  4 <= length (split "FA 2024 Prelim Exam Schedule")
  /\ parse_exam_file "FA 2024" "prelim" ["FA 2024 Prelim Exam Schedule"]
     = Ok [].
Proof. split; [vm_compute; lia | reflexivity]. Qed.

(** C2 (as amended).  With exam type "final", a line the header test does
    not skip adds exactly one record.  When its third token has three
    characters and it has at least eight tokens: course code from the first
    three, date the fourth, time the fifth and sixth, test type the seventh
    and eighth, locations the rest.  When its third token has another
    length and it has at least seven tokens: course code from the first
    two, date the third, time the next two, test type the next two,
    locations the rest. *)
Theorem final_line_record (sem et : string) :
  lower et = "final" ->
  (forall line file acc t0 t1 t2 d a b c e rest,
     skipped sem (strip line) = false ->
     split line = t0 :: t1 :: t2 :: d :: a :: b :: c :: e :: rest ->
     String.length t2 = 3 ->
     let record : Dict :=
       {[ "course_code" := join " " [t0; t1; t2];
          "exam_date" := d;
          "exam_time" := join " " [a; b];
          "test_type" := join " " [c; e];
          "exam_locations" := join " " rest ]} in
     parse_lines sem et (line :: file) acc =
       parse_lines sem et file (acc ++ [record])
     /\ parse_exam_file sem et [line] = Ok [record])
  /\
  (forall line file acc t0 t1 t2 a b c e rest,
     skipped sem (strip line) = false ->
     split line = t0 :: t1 :: t2 :: a :: b :: c :: e :: rest ->
     String.length t2 <> 3 ->
     let record : Dict :=
       {[ "course_code" := join " " [t0; t1];
          "exam_date" := t2;
          "exam_time" := join " " [a; b];
          "test_type" := join " " [c; e];
          "exam_locations" := join " " rest ]} in
     parse_lines sem et (line :: file) acc =
       parse_lines sem et file (acc ++ [record])
     /\ parse_exam_file sem et [line] = Ok [record]).
Proof.
  intros Het. split.
  - intros line file acc t0 t1 t2 d a b c e rest Hskip Hsplit Hlen record.
    assert (Hdec : decode_line et (split line) = Ok record).
    { pose proof (split_tokens line) as Htok. rewrite Hsplit in *.
      rewrite decode_final by done. by rewrite Hlen. }
    unfold parse_exam_file. by rewrite !parse_lines_step, Hdec.
  - intros line file acc t0 t1 t2 a b c e rest Hskip Hsplit Hlen record.
    assert (Hdec : decode_line et (split line) = Ok record).
    { pose proof (split_tokens line) as Htok. rewrite Hsplit in *.
      rewrite decode_final by done.
      by apply Nat.eqb_neq in Hlen as ->. }
    unfold parse_exam_file. by rewrite !parse_lines_step, Hdec.
Qed.

Lemma final_line_record_witness :
  lower "final" = "final"
  /\ parse_exam_file "FA 2024" "final"
       ["CS 2110 001 12/14 9:00 AM in person Barton Hall"] =
     Ok [ {[ "course_code" := "CS 2110 001"; "exam_date" := "12/14";
             "exam_time" := "9:00 AM"; "test_type" := "in person";
             "exam_locations" := "Barton Hall" ]} ]
  /\ parse_exam_file "FA 2024" "final"
       ["CS 2110 12/14 9:00 AM in person Barton Hall"] =
     Ok [ {[ "course_code" := "CS 2110"; "exam_date" := "12/14";
             "exam_time" := "9:00 AM"; "test_type" := "in person";
             "exam_locations" := "Barton Hall" ]} ].
Proof.
  split; [reflexivity |]. split.
  - exact (proj2 (proj1 (final_line_record "FA 2024" "final" eq_refl)
             "CS 2110 001 12/14 9:00 AM in person Barton Hall" [] []
             "CS" "2110" "001" "12/14" "9:00" "AM" "in" "person"
             ["Barton"; "Hall"] eq_refl eq_refl eq_refl)).
  - refine (proj2 (proj2 (final_line_record "FA 2024" "final" eq_refl)
             "CS 2110 12/14 9:00 AM in person Barton Hall" [] []
             "CS" "2110" "12/14" "9:00" "AM" "in" "person"
             ["Barton"; "Hall"] eq_refl eq_refl _)).
    vm_compute. lia.
Defined.

(** C2 as stated fails on the header line, which has enough tokens,
    starts with the semester label, and adds no record. *)
Lemma final_header_line_counterexample :
  8 <= length (split "FA 2024 Final Exam Schedule as of December 1")
  /\ parse_exam_file "FA 2024" "final"
       ["FA 2024 Final Exam Schedule as of December 1"] = Ok [].
Proof. split; [vm_compute; lia | reflexivity]. Qed.

(** C6 (as amended).  With exam type "prelim" or "final", a line of at
    least four tokens that the header test does not skip and whose third
    token has three characters adds one record, in which the third token
    is part of the course code, whatever it contains, and the date is the
    token after it: the third token is not taken as the date. *)
Theorem three_char_third_token_joins_course_code (sem et line : string)
    (file : list string) (acc : list Dict) (t0 t1 t2 d : string)
    (rest : list string) :
  lower et = "prelim" \/ lower et = "final" ->
  skipped sem (strip line) = false ->
  split line = t0 :: t1 :: t2 :: d :: rest ->
  String.length t2 = 3 ->
  exists record : Dict,
    parse_exam_file sem et [line] = Ok [record]
    /\ parse_lines sem et (line :: file) acc =
       parse_lines sem et file (acc ++ [record])
    /\ record !! "course_code" = Some (t0 +:+ " " +:+ t1 +:+ " " +:+ t2)
    /\ record !! "exam_date" = Some d.
Proof.
  intros Het Hskip Hsplit Hlen.
  pose proof (split_tokens line) as Htok. rewrite Hsplit in Htok.
  unfold parse_exam_file. rewrite !parse_lines_step, Hsplit by done.
  destruct Het as [Het | Het].
  - rewrite decode_prelim, Hlen by done. simpl.
    eexists. split; [done |]. split; [done |]. by simplify_map_eq.
  - rewrite decode_final, Hlen by done. simpl.
    eexists. split; [done |]. split; [done |]. by simplify_map_eq.
Qed.

Lemma three_char_third_token_witness :
  exists record : Dict,
    parse_exam_file "FA 2024" "prelim" ["CS 2110 9/5 Statler Hall"]
    = Ok [record]
    /\ parse_lines "FA 2024" "prelim" ["CS 2110 9/5 Statler Hall"] [] =
       parse_lines "FA 2024" "prelim" [] ([] ++ [record])
    /\ record !! "course_code" = Some "CS 2110 9/5"
    /\ record !! "exam_date" = Some "Statler".
Proof.
  exact (three_char_third_token_joins_course_code "FA 2024" "prelim"
           "CS 2110 9/5 Statler Hall" [] [] "CS" "2110" "9/5"
           "Statler" ["Hall"] (or_introl eq_refl) eq_refl eq_refl eq_refl).
Defined.

(** C6 as stated fails on a line that stops at its third token: the line
    is not skipped, its third token has three characters, and the parse
    raises [IndexError] for either exam type, so that no record holds the
    token in its course code. *)
Lemma three_token_line_counterexample :
  skipped "FA 2024" (strip "CS 2110 9/5") = false
  /\ split "CS 2110 9/5" = ["CS"; "2110"; "9/5"]
  /\ String.length "9/5" = 3
  /\ parse_exam_file "FA 2024" "prelim" ["CS 2110 9/5"]
     = Raise (Exn IndexError "list index out of range")
  /\ parse_exam_file "FA 2024" "final" ["CS 2110 9/5"]
     = Raise (Exn IndexError "list index out of range").
Proof. split_and!; reflexivity. Qed.

(** With a known exam type the decoder raises nothing but [IndexError]. *)
Lemma decode_line_raises (et : string) (parts : list string) (e : exn) :
  lower et = "prelim" \/ lower et = "final" ->
  decode_line et parts = Raise e ->
  e = Exn IndexError "list index out of range".
Proof.
  intros Het. unfold decode_line.
  destruct Het as [-> | ->]; simpl;
    destruct parts as [|a [|b [|c [|d r]]]]; simpl;
    try destruct (Nat.eqb (String.length c) 3); simpl; congruence.
Qed.

Lemma decode_line_short (et : string) (parts : list string) :
  lower et = "prelim" \/ lower et = "final" ->
  length parts < 3 ->
  decode_line et parts = Raise (Exn IndexError "list index out of range").
Proof.
  intros Het Hlen. unfold decode_line.
  destruct Het as [-> | ->]; simpl;
    destruct parts as [|a [|b [|c r]]]; simpl in *; try done; lia.
Qed.

Lemma parse_lines_short_line (sem et line : string)
    (before after : list string) (acc : list Dict) :
  lower et = "prelim" \/ lower et = "final" ->
  skipped sem (strip line) = false ->
  length (split line) < 3 ->
  parse_lines sem et (before ++ line :: after) acc =
  Raise (Exn IndexError "list index out of range").
Proof.
  intros Het Hskip Hlen. revert acc.
  induction before as [|l before IH]; intros acc.
  - simpl app. by rewrite parse_lines_step, decode_line_short.
  - simpl app. destruct (skipped sem (strip l)) eqn:Hl.
    + by rewrite parse_lines_skip.
    + rewrite parse_lines_step by done.
      destruct (decode_line et (split l)) as [r | e] eqn:Hd; simpl.
      * apply IH.
      * by rewrite (decode_line_raises et _ e Het Hd).
Qed.

(** C7.  With exam type "prelim" or "final", a file that holds a line the
    header test does not skip and that has fewer than three tokens makes
    [parse_exam_file] raise [IndexError]; [process_exam_data], which
    handles only [FileNotFoundError], passes it on to its caller and
    leaves the state as it was. *)
Theorem short_line_raises_index_error (sem et line : string)
    (before after : list string) :
  lower et = "prelim" \/ lower et = "final" ->
  skipped sem (strip line) = false ->
  length (split line) < 3 ->
  parse_exam_file sem et (before ++ line :: after) =
    Raise (Exn IndexError "list index out of range")
  /\ forall (st : State) (path content : string),
       semester st = sem -> exam_type st = et ->
       files st !! path = Some content ->
       readlines content = before ++ line :: after ->
       WebScraper.process_exam_data (Some path) st =
       (Raise (Exn IndexError "list index out of range"), st).
Proof.
  intros Het Hskip Hlen.
  assert (Hp : parse_exam_file sem et (before ++ line :: after) =
               Raise (Exn IndexError "list index out of range")).
  { by apply parse_lines_short_line. }
  split; [done |].
  intros st path content Hsem Hety Hfile Hlines.
  unfold WebScraper.process_exam_data, try_except, mbind, M_bind, gets, lift.
  by rewrite Hfile, Hsem, Hety, Hlines, Hp.
Qed.

Lemma short_line_raises_index_error_witness :
  (lower "prelim" = "prelim" \/ lower "prelim" = "final")
  /\ skipped "FA 2024" (strip "CS 2110") = false
  /\ length (split "CS 2110") < 3
  /\ parse_exam_file "FA 2024" "prelim"
       (["FA 2024 Prelim Exam Schedule"] ++ "CS 2110" :: []) =
     Raise (Exn IndexError "list index out of range").
Proof.
  split_and!; [by left | done | vm_compute; lia |].
  refine (proj1 (short_line_raises_index_error "FA 2024" "prelim" "CS 2110"
                   ["FA 2024 Prelim Exam Schedule"] []
                   (or_introl eq_refl) eq_refl _)).
  vm_compute. lia.
Defined.

Lemma parse_lines_all_skipped (sem et : string) (file : list string)
    (acc : list Dict) :
  Forall (fun l => skipped sem (strip l) = true) file ->
  parse_lines sem et file acc = Ok acc.
Proof.
  induction 1 as [|l file Hl _ IH]; [done |].
  by rewrite parse_lines_skip.
Qed.

Lemma decode_line_unknown (et : string) (parts : list string) :
  lower et <> "prelim" -> lower et <> "final" ->
  decode_line et parts = Raise (Exn ValueError "Unknown Exam Type").
Proof.
  intros H1 H2. unfold decode_line.
  apply String.eqb_neq in H1, H2. by rewrite H1, H2.
Qed.

(** C10.  With an exam type that is neither "prelim" nor "final" (in any
    letter case), a file whose lines are all empty or start with the
    semester label parses to the empty list; the [ValueError] "Unknown
    Exam Type" is raised at the first line the header test does not
    skip. *)
Theorem unknown_exam_type_checked_per_line (sem et : string) :
  lower et <> "prelim" -> lower et <> "final" ->
  (forall file,
     Forall (fun l => skipped sem (strip l) = true) file ->
     parse_exam_file sem et file = Ok [])
  /\
  (forall before line after,
     Forall (fun l => skipped sem (strip l) = true) before ->
     skipped sem (strip line) = false ->
     parse_exam_file sem et (before ++ line :: after) =
     Raise (Exn ValueError "Unknown Exam Type")).
Proof.
  intros H1 H2. split.
  - intros file Hall. by apply parse_lines_all_skipped.
  - intros before line after Hall Hline. unfold parse_exam_file.
    generalize (@nil Dict).
    induction Hall as [|l before Hl _ IH]; intros acc; simpl app.
    + by rewrite parse_lines_step, decode_line_unknown.
    + by rewrite parse_lines_skip.
Qed.

Lemma unknown_exam_type_checked_per_line_witness :
  (lower "midterm" <> "prelim" /\ lower "midterm" <> "final")
  /\ parse_exam_file "FA 2024" "midterm"
       ["FA 2024 Midterm Exam Schedule"; ""; "   "] = Ok []
  /\ parse_exam_file "FA 2024" "midterm"
       (["FA 2024 Midterm Exam Schedule"; ""] ++
        "CS 2110 10/15 Statler Hall" :: []) =
     Raise (Exn ValueError "Unknown Exam Type").
Proof.
  assert (Hp : lower "midterm" <> "prelim") by discriminate.
  assert (Hf : lower "midterm" <> "final") by discriminate.
  split; [done |]. split.
  - apply (proj1 (unknown_exam_type_checked_per_line "FA 2024" "midterm"
                    Hp Hf)).
    repeat (constructor; [reflexivity |]). constructor.
  - apply (proj2 (unknown_exam_type_checked_per_line "FA 2024" "midterm"
                    Hp Hf)); [| reflexivity].
    repeat (constructor; [reflexivity |]). constructor.
Defined.

End Parsing.

(** ** The artifact file *)

Section Artifact.
Import Py.
#[local] Arguments String.append !_ _ / : simpl nomatch.

Lemma contains_app (c : ascii) (a b : string) :
  contains c (a +:+ b) = contains c a || contains c b.
Proof.
  induction a as [|x a IH]; simpl; [done |].
  by rewrite IH, orb_assoc.
Qed.

Lemma lower_char_space (c : ascii) :
  Ascii.eqb (lower_char c) " " = Ascii.eqb c " ".
Proof. destruct c as [[] [] [] [] [] [] [] []]; reflexivity. Qed.

Lemma contains_space_lower (s : string) :
  contains " " (lower s) = contains " " s.
Proof.
  induction s as [|c s IH]; simpl; [done |].
  by rewrite lower_char_space, IH.
Qed.

Lemma token_contains_no_space (t : string) :
  no_space t = true -> contains " " t = false.
Proof.
  induction t as [|c t IH]; simpl; [done |].
  intros [Hc Ht]%andb_true_iff. rewrite IH by done.
  destruct (Ascii.eqb_spec c " ") as [-> | _]; [done | done].
Qed.

Lemma filename_contains_space (sem y et : string) :
  no_space y = true ->
  contains " " (WebScraper.filename sem y et) =
  contains " " sem || contains " " et.
Proof.
  intros Hy. unfold WebScraper.filename.
  rewrite !contains_app, !contains_space_lower.
  rewrite (token_contains_no_space y Hy). simpl.
  by rewrite !orb_false_r.
Qed.

(** What [parse_html] does on a page that has its heading and its [pre]
    block, when the file can be written. *)
Lemma parse_html_ok (env : Env) (st : State) (soup : Soup)
    (info hdr a y : string) (more : list string) :
  h2_text soup = Some info ->
  strong_text soup = Some hdr ->
  split info = a :: y :: more ->
  let fn := WebScraper.filename (semester st) y (exam_type st) in
  write_fault env fn = None ->
  WebScraper.parse_html env soup st =
  (Ok (pre_text soup),
   set_stdout (stdout st ++ ["Data saved to " +:+ fn])
     (set_files (<[ fn := info +:+ nl +:+ pre_text soup ]> (files st))
        (set_file_name (Some fn)
           (set_year (Some y)
              (set_exam_data_header (Some (strip hdr)) st))))).
Proof.
  intros Hh2 Hstrong Hsplit fn Hw.
  unfold WebScraper.parse_html, WebScraper.save_to_text_file,
    WebScraper.success_response, print, try_except, mbind, M_bind, mret,
    M_ret, modify, gets, lift, raise.
  rewrite Hh2, Hstrong, Hsplit. cbn [getitem lookup list_lookup].
  cbn [semester exam_type set_year set_exam_data_header set_file_name].
  fold fn. rewrite Hw. reflexivity.
Qed.

(** C8 (as amended).  On a page that has its heading and its [pre] block,
    [parse_html] writes the heading, a line feed and the schedule text to
    the file named by the lower-cased semester, the year as extracted (the
    second token of the heading) and the lower-cased exam type, joined by
    hyphens and followed by "-exams.txt".  Spaces are not replaced: the
    file name holds a space exactly when the semester or the exam type
    does. *)
Theorem artifact_file_name (env : Env) (st : State) (soup : Soup)
    (info hdr a y : string) (more : list string) :
  h2_text soup = Some info ->
  strong_text soup = Some hdr ->
  split info = a :: y :: more ->
  let fn := lower (semester st) +:+ "-" +:+ y +:+ "-"
            +:+ lower (exam_type st) +:+ "-exams.txt" in
  write_fault env fn = None ->
  exists st',
    WebScraper.parse_html env soup st = (Ok (pre_text soup), st')
    /\ file_name st' = Some fn
    /\ files st' = <[ fn := info +:+ nl +:+ pre_text soup ]> (files st)
    /\ contains " " fn =
       contains " " (semester st) || contains " " (exam_type st).
Proof.
  intros Hh2 Hstrong Hsplit fn Hw. eexists. split_and!.
  - by eapply parse_html_ok.
  - done.
  - done.
  - apply filename_contains_space.
    pose proof (split_tokens info) as Htok. rewrite Hsplit in Htok.
    apply Forall_cons in Htok as [_ Htok].
    apply Forall_cons in Htok as [[_ Hy] _]. done.
Qed.

Lemma artifact_file_name_witness :
  exists st',
    WebScraper.parse_html (serving prelim_page) prelim_page
      (get_db_manager "fall" "Prelim" ∅ ∅)
    = (Ok "CS 2110 10/15 Statler Hall", st')
    /\ file_name st' = Some "fall-2024-prelim-exams.txt"
    /\ files st' =
       <[ "fall-2024-prelim-exams.txt" :=
            "Fall 2024 Prelim Exam Schedule" +:+ nl
            +:+ "CS 2110 10/15 Statler Hall" ]> ∅
    /\ contains " " "fall-2024-prelim-exams.txt" = false.
Proof.
  exact (artifact_file_name (serving prelim_page)
           (get_db_manager "fall" "Prelim" ∅ ∅) prelim_page
           "Fall 2024 Prelim Exam Schedule" "Course Date Location"
           "Fall" "2024" ["Prelim"; "Exam"; "Schedule"]
           eq_refl eq_refl eq_refl eq_refl).
Defined.

(** C8 as stated fails for a semester with a space in it: the file name
    keeps the space. *)
Lemma artifact_file_name_counterexample :
  file_name (snd (WebScraper.parse_html (serving prelim_page) prelim_page
                    (get_db_manager "Fall 2024" "Prelim" ∅ ∅)))
  = Some "fall 2024-2024-prelim-exams.txt"
  /\ contains " " "fall 2024-2024-prelim-exams.txt" = true
  /\ files (snd (WebScraper.parse_html (serving prelim_page) prelim_page
                   (get_db_manager "Fall 2024" "Prelim" ∅ ∅)))
     !! "fall 2024-2024-prelim-exams.txt"
     = Some ("Fall 2024 Prelim Exam Schedule" +:+ nl
             +:+ "CS 2110 10/15 Statler Hall").
Proof. split_and!; reflexivity. Qed.

End Artifact.

(** ** The scraper never touches the store *)

Section ScraperFrame.
Import Py.

(** [scrape_course_info] never raises, and changes neither the scraper's
    semester and exam type nor anything of the manager. *)
Lemma scrape_course_info_total (env : Env) (st : State) :
  exists v st',
    WebScraper.scrape_course_info env st = (Ok v, st')
    /\ conn st' = conn st /\ table_name st' = table_name st
    /\ semester st' = semester st /\ exam_type st' = exam_type st.
Proof.
  destruct st as [sem et fn hdr y tn c fs out].
  unfold WebScraper.scrape_course_info, WebScraper.generate_url,
    WebScraper.parse_html, WebScraper.save_to_text_file,
    WebScraper.error_response, WebScraper.success_response, print,
    try_except, mbind, M_bind, mret, M_ret, modify, gets, lift, raise.
  cbn [semester exam_type].
  destruct (requester env _) as [soup | e]; [| by eauto 10].
  destruct (h2_text soup) as [info |]; [| by eauto 10].
  destruct (strong_text soup) as [strong |]; [| by eauto 10].
  cbn [set_exam_data_header semester exam_type].
  destruct (getitem (split info) 1) as [yr | e]; [| by eauto 10].
  cbn [set_year set_file_name semester exam_type].
  destruct (write_fault env _) as [e |]; by eauto 10.
Qed.

End ScraperFrame.

(** ** An exam type the code does not know *)

Section UnknownExamType.
Import Py.

Lemma lower_char_idem (c : ascii) : lower_char (lower_char c) = lower_char c.
Proof. destruct c as [[] [] [] [] [] [] [] []]; reflexivity. Qed.

Lemma lower_idem (s : string) : lower (lower s) = lower s.
Proof.
  induction s as [|c s IH]; simpl; [done |].
  by rewrite lower_char_idem, IH.
Qed.

Lemma parse_lines_unknown (sem et : string) (file : list string)
    (acc : list Dict) :
  lower et <> "prelim" -> lower et <> "final" ->
  parse_lines sem et file acc = Ok acc
  \/ parse_lines sem et file acc = Raise (Exn ValueError "Unknown Exam Type").
Proof.
  intros H1 H2. induction file as [|l file IH]; [by left |].
  destruct (skipped sem (strip l)) eqn:Hl.
  - by rewrite parse_lines_skip.
  - right. by rewrite parse_lines_step, decode_line_unknown.
Qed.

Lemma create_exam_table_unknown (env : Env) (st : State)
    (sem et : string) (y : option string) :
  lower et <> "prelim" -> lower et <> "final" ->
  DatabaseManager.create_exam_table env sem et y st =
  (Raise DatabaseManager.unknown_exam_type,
   set_table_name
     (Some (sem +:+ "_" +:+ fmt y +:+ "_" +:+ et +:+ "_exams")) st).
Proof.
  intros H1%String.eqb_neq H2%String.eqb_neq.
  unfold DatabaseManager.create_exam_table,
    DatabaseManager.set_exam_table_name,
    DatabaseManager.generate_create_table_query,
    try_except, mbind, M_bind, modify, gets, lift.
  by rewrite H1, H2.
Qed.

Lemma update_exam_unknown (env : Env) (st : State)
    (code date locations : Value) (et : string) (time test_type : Value) :
  lower et <> "prelim" -> lower et <> "final" ->
  DatabaseManager.update_exam env code date locations et time test_type st
  = (Raise DatabaseManager.unknown_exam_type, st).
Proof.
  intros H1%String.eqb_neq H2%String.eqb_neq.
  unfold DatabaseManager.update_exam,
    DatabaseManager.generate_update_exam_query,
    try_except, mbind, M_bind, modify, gets, lift.
  by rewrite H1, H2.
Qed.

(** [process_exam_data] under an unknown exam type: it raises
    [AssertionError] without a path and [ValueError] at a data line, and
    it leaves the store and the scraper's fields alone. *)
Lemma process_exam_data_unknown (st : State) (fn : option string) :
  lower (exam_type st) <> "prelim" -> lower (exam_type st) <> "final" ->
  exists r st',
    WebScraper.process_exam_data fn st = (r, st')
    /\ conn st' = conn st /\ table_name st' = table_name st
    /\ file_name st' = file_name st /\ year st' = year st
    /\ match r with
       | Raise e =>
           exn_cls e = match fn with
                       | None => AssertionError
                       | Some _ => ValueError
                       end
       | Ok _ => fn <> None
       end.
Proof.
  intros H1 H2. destruct fn as [path |]; [| by eexists _, _].
  unfold WebScraper.process_exam_data, WebScraper.error_response, print,
    try_except, mbind, M_bind, mret, M_ret, modify, gets, lift.
  destruct (files st !! path) as [content |].
  - destruct (parse_lines_unknown (semester st) (exam_type st)
                (readlines content) [] H1 H2) as [Hp | Hp];
      unfold parse_exam_file; rewrite Hp; by eexists _, _.
  - cbn [is_class exn_cls bool_decide decide_rel]. by eexists _, _.
Qed.

Lemma populate_unknown (env : Env) (st : State) (sem et : string) :
  exam_type st = et ->
  lower et <> "prelim" -> lower et <> "final" ->
  exists e st',
    DatabaseManager.populate_exam_table env sem et st = (Raise e, st')
    /\ conn st' = conn st
    /\ exn_cls e = match file_name st' with
                   | None => AssertionError
                   | Some _ => ValueError
                   end.
Proof.
  intros Het H1 H2.
  destruct (scrape_course_info_total env st)
    as (v & st1 & Hs & Hc1 & Ht1 & Hsem1 & Het1).
  assert (H1' : lower (exam_type st1) <> "prelim") by congruence.
  assert (H2' : lower (exam_type st1) <> "final") by congruence.
  destruct (process_exam_data_unknown st1 (file_name st1) H1' H2')
    as (r & st2 & Hp & Hc2 & Ht2 & Hf2 & Hy2 & Hr).
  unfold DatabaseManager.populate_exam_table.
  unfold mbind at 1, M_bind at 1. rewrite Hs.
  unfold mbind at 1, M_bind at 1. unfold gets at 1.
  unfold mbind at 1, M_bind at 1. rewrite Hp.
  destruct r as [data | e].
  - unfold mbind at 1, M_bind at 1. unfold gets at 1.
    unfold mbind at 1, M_bind at 1.
    rewrite create_exam_table_unknown by (by rewrite lower_idem).
    eexists _, _. split; [done |]. split; [cbn; congruence |].
    cbn. rewrite Hf2. by destruct (file_name st1).
  - eexists _, _. split; [done |]. split; [congruence |].
    by rewrite Hf2.
Qed.

(** A [SELECT] that succeeds changes nothing but the statement count. *)
Lemma execute_select_frame (env : Env) (st st1 : State) (t col : string)
    (params : list Value) (rs : list (list Value)) :
  DatabaseManager.execute env (SelectAllWhere t col) params st = (Ok rs, st1)
  ->
  committed (conn st1) = committed (conn st)
  /\ working (conn st1) = working (conn st)
  /\ table_name st1 = table_name st /\ files st1 = files st.
Proof.
  unfold DatabaseManager.execute, run_query, sql_error.
  intros H. repeat case_match; simplify_eq; done.
Qed.

Lemma fetch_exam_unknown (env : Env) (st st1 : State) (code : Value)
    (et : string) (rs : list (list Value)) :
  et <> "prelim" -> et <> "final" ->
  DatabaseManager.execute env
    (SelectAllWhere (fmt (table_name st)) "course_code") [code] st
  = (Ok rs, st1) ->
  DatabaseManager.fetch_exam env code et st =
  (match rs with
   | [] => Ok (Val [])
   | _ :: _ => Raise DatabaseManager.unknown_exam_type
   end, st1).
Proof.
  intros H1%String.eqb_neq H2%String.eqb_neq Hx.
  unfold DatabaseManager.fetch_exam, try_except, mbind at 1, M_bind at 1.
  unfold gets at 1. unfold mbind at 1, M_bind at 1. rewrite Hx.
  destruct rs as [|r rs]; [done |].
  unfold mbind, M_bind, lift. cbn [DatabaseManager.format_each].
  unfold DatabaseManager.format_exam_record. by rewrite H1, H2.
Qed.

(** C4 (as amended).  With an exam type that is neither "prelim" nor
    "final" in any letter case: table creation raises [ValueError] after it
    has set the selected table name, and changes nothing else; update
    raises [ValueError] and changes nothing; populate, on a manager whose
    scraper has the same exam type, raises ([ValueError], or
    [AssertionError] when the scrape has set no file name) without sending
    anything over the connection, so that no table and no row changes;
    fetch by course code, when its [SELECT] succeeds, raises [ValueError]
    if a row matches and returns the empty list if none does, and changes
    neither the tables, the table name nor the files. *)
Theorem unknown_exam_type_entry_points (env : Env) (st : State)
    (et : string) :
  lower et <> "prelim" -> lower et <> "final" ->
  (forall sem y,
     DatabaseManager.create_exam_table env sem et y st =
     (Raise (Exn ValueError "Unknown exam type"),
      set_table_name
        (Some (sem +:+ "_" +:+ fmt y +:+ "_" +:+ et +:+ "_exams")) st))
  /\
  (forall code date locations time test_type,
     DatabaseManager.update_exam env code date locations et time test_type
       st
     = (Raise (Exn ValueError "Unknown exam type"), st))
  /\
  (forall sem,
     exam_type st = et ->
     exists e st',
       DatabaseManager.populate_exam_table env sem et st = (Raise e, st')
       /\ conn st' = conn st
       /\ exn_cls e = match file_name st' with
                      | None => AssertionError
                      | Some _ => ValueError
                      end)
  /\
  (forall code rs st1,
     DatabaseManager.execute env
       (SelectAllWhere (fmt (table_name st)) "course_code") [code] st
     = (Ok rs, st1) ->
     DatabaseManager.fetch_exam env code et st =
       (match rs with
        | [] => Ok (Val [])
        | _ :: _ => Raise (Exn ValueError "Unknown exam type")
        end, st1)
     /\ committed (conn st1) = committed (conn st)
     /\ working (conn st1) = working (conn st)
     /\ table_name st1 = table_name st /\ files st1 = files st).
Proof.
  intros H1 H2. split_and!.
  - intros sem y. by apply create_exam_table_unknown.
  - intros. by apply update_exam_unknown.
  - intros sem Het. by apply populate_unknown.
  - intros code rs st1 Hx. split.
    + apply fetch_exam_unknown; [by intros -> | by intros -> | done].
    + by eapply execute_select_frame.
Qed.

Lemma unknown_exam_type_entry_points_witness :
  (lower "midterm" <> "prelim" /\ lower "midterm" <> "final")
  /\ DatabaseManager.create_exam_table (serving midterm_page) "FA 2024"
       "midterm" (Some "2024") (get_db_manager "FA 2024" "midterm" ∅ ∅)
     = (Raise (Exn ValueError "Unknown exam type"),
        set_table_name (Some "FA 2024_2024_midterm_exams")
          (get_db_manager "FA 2024" "midterm" ∅ ∅))
  /\ DatabaseManager.update_exam (serving midterm_page) (Some "CS 2110")
       (Some "10/16") (Some "Olin Hall") "midterm" None None
       (get_db_manager "FA 2024" "midterm" ∅ ∅)
     = (Raise (Exn ValueError "Unknown exam type"),
        get_db_manager "FA 2024" "midterm" ∅ ∅).
Proof.
  assert (Hp : lower "midterm" <> "prelim") by discriminate.
  assert (Hf : lower "midterm" <> "final") by discriminate.
  pose proof (unknown_exam_type_entry_points (serving midterm_page)
                (get_db_manager "FA 2024" "midterm" ∅ ∅) "midterm" Hp Hf)
    as (Hc & Hu & _).
  split; [done |]. split; [apply Hc | apply Hu].
Defined.

(** C4 as stated fails: the failed table creation has already selected
    another table name; the failed populate has already written the
    artifact file; and fetch on a table without a matching row returns the
    empty list instead of failing. *)
Lemma unknown_exam_type_counterexample :
  (fst (DatabaseManager.create_exam_table (serving midterm_page)
          "FA 2024" "midterm" (Some "2024")
          (get_db_manager "FA 2024" "midterm" ∅ ∅))
   = Raise (Exn ValueError "Unknown exam type")
   /\ table_name (get_db_manager "FA 2024" "midterm" ∅ ∅) = None
   /\ table_name
        (snd (DatabaseManager.create_exam_table (serving midterm_page)
                "FA 2024" "midterm" (Some "2024")
                (get_db_manager "FA 2024" "midterm" ∅ ∅)))
      = Some "FA 2024_2024_midterm_exams")
  /\ (fst (DatabaseManager.populate_exam_table (serving midterm_page)
             "FA 2024" "midterm" (get_db_manager "FA 2024" "midterm" ∅ ∅))
      = Raise (Exn ValueError "Unknown Exam Type")
      /\ files (get_db_manager "FA 2024" "midterm" ∅ ∅)
         !! "fa 2024-2024-midterm-exams.txt" = None
      /\ files
           (snd (DatabaseManager.populate_exam_table (serving midterm_page)
                   "FA 2024" "midterm"
                   (get_db_manager "FA 2024" "midterm" ∅ ∅)))
         !! "fa 2024-2024-midterm-exams.txt"
         = Some ("FA 2024 Midterm Exam Schedule" +:+ nl
                 +:+ "CS 2110 10/15 Statler Hall"))
  /\ fst (DatabaseManager.fetch_exam (serving midterm_page)
            (Some "CS 2110") "midterm"
            (set_table_name (Some "fa_2024_exams")
               (get_db_manager "FA 2024" "midterm"
                  {[ "fa_2024_exams" :=
                       {| columns := prelim_columns; rows := [] |} ]} ∅)))
     = Ok (Val []).
Proof. split_and!; reflexivity. Qed.

End UnknownExamType.

(** ** Statements, commits and the rows that stay *)

Section Store.
Import Py.
Variable env : Env.

Lemma execute_fault (q : Query) (params : list Value) (st : State)
    (e : exn) :
  db_fault env (n_exec (conn st)) = Some e ->
  DatabaseManager.execute env q params st =
  (Raise e, set_conn (sent (conn st) None) st).
Proof. intros H. unfold DatabaseManager.execute. by rewrite H. Qed.

(** In an aborted transaction every statement fails. *)
Lemma execute_aborted (q : Query) (params : list Value) (st : State) :
  working (conn st) = None ->
  exists e,
    DatabaseManager.execute env q params st =
    (Raise e, set_conn (sent (conn st) None) st).
Proof.
  intros H. unfold DatabaseManager.execute. rewrite H.
  destruct (db_fault env _); by eexists.
Qed.

(** A handler of [OperationalError] around a failing body. *)
Lemma try_except_raise {A} (body : M A) (handler : exn -> M A)
    (st st' : State) (e : exn) :
  body st = (Raise e, st') ->
  try_except body (is_class OperationalError) handler st =
  if is_class OperationalError e then handler e st' else (Raise e, st').
Proof. intros H. unfold try_except. by rewrite H. Qed.

Lemma insert_exam_aborted (code date locations : Value) (et : string)
    (time test_type : Value) (st : State) :
  working (conn st) = None ->
  exists r st',
    DatabaseManager.insert_exam env code date locations et time test_type st
    = (r, st')
    /\ committed (conn st') = committed (conn st)
    /\ working (conn st') = None.
Proof.
  intros Hw. unfold DatabaseManager.insert_exam.
  unfold mbind at 1, M_bind at 1, gets at 1.
  unfold mbind at 1, M_bind at 1, lift at 1.
  destruct (DatabaseManager.generate_insert_exam_query _ _) as [q | e];
    [| by eexists _, _].
  set (body := mbind _ _).
  assert (Hbody : exists e st', body st = (Raise e, st')
            /\ committed (conn st') = committed (conn st)
            /\ working (conn st') = None).
  { subst body. unfold mbind at 1, M_bind at 1.
    destruct (String.eqb (lower et) "prelim").
    - destruct (execute_aborted q [code; date; locations] st Hw)
        as [e ->]. by eexists _, _.
    - destruct (String.eqb (lower et) "final").
      + destruct (execute_aborted q
                    [code; date; time; test_type; locations] st Hw)
          as [e ->]. by eexists _, _.
      + by eexists _, _. }
  destruct Hbody as (e & st' & Hbody & Hc & Hw').
  rewrite (try_except_raise _ _ _ _ _ Hbody).
  destruct (is_class OperationalError e); by eexists _, _.
Qed.

(** Once a statement has failed, the loop stores nothing more. *)
Lemma insert_each_aborted (et : string) (rs : list Dict) (st : State) :
  working (conn st) = None ->
  exists r st',
    DatabaseManager.insert_each env et rs st = (r, st')
    /\ committed (conn st') = committed (conn st)
    /\ working (conn st') = None.
Proof.
  revert st. induction rs as [|r rs IH]; intros st Hw.
  - by eexists _, _.
  - cbn [DatabaseManager.insert_each]. unfold mbind at 1, M_bind at 1.
    set (step := if String.eqb (lower et) "final" then _ else _).
    assert (Hstep : exists r1 st1, step st = (r1, st1)
              /\ committed (conn st1) = committed (conn st)
              /\ working (conn st1) = None).
    { subst step. destruct (String.eqb (lower et) "final");
        by apply insert_exam_aborted. }
    destruct Hstep as (r1 & st1 & -> & Hc1 & Hw1).
    destruct r1 as [b | e]; [| by eexists _, _].
    destruct (IH st1 Hw1) as (r2 & st2 & -> & Hc2 & Hw2).
    eexists _, _. split; [done |]. split; [congruence | done].
Qed.

(** The [try] block of [populate_exam_table] after a failed statement:
    the final commit rolls back, and nothing becomes visible. *)
Lemma populate_try_aborted (et : string) (data : Union (list Dict))
    (st : State) :
  working (conn st) = None ->
  let block :=
    try_except
      (_ ← match data with
           | Val l => DatabaseManager.insert_each env et l
           | Flag _ => raise (Exn TypeError "'bool' object is not iterable")
           end;
       _ ← DatabaseManager.commit;
       DatabaseManager.success_response
         "Data inserted into database successfully!")
      (is_class OperationalError)
      (fun e => DatabaseManager.error_response
                  ("Error inserting data into PostgreSQL: " +:+ exn_msg e))
  in
  committed (conn (snd (block st))) = committed (conn st).
Proof.
  intros Hw block. subst block. unfold try_except.
  unfold mbind at 1, M_bind at 1.
  destruct data as [l | b].
  - destruct (insert_each_aborted et l st Hw) as (r & st1 & -> & Hc & Hw1).
    destruct r as [[] | e].
    + unfold mbind, M_bind, DatabaseManager.commit,
        DatabaseManager.success_response, print, modify, mret, M_ret.
      cbn. unfold committing. by rewrite Hw1.
    + destruct (is_class OperationalError e); [| done].
      unfold DatabaseManager.error_response, print, mbind, M_bind, modify.
      cbn. done.
  - unfold raise. cbn. done.
Qed.

Lemma process_exam_data_frame (fn : option string) (st : State) :
  conn (snd (WebScraper.process_exam_data fn st)) = conn st.
Proof.
  destruct fn as [path |]; [| done].
  unfold WebScraper.process_exam_data, WebScraper.error_response, print,
    try_except, mbind, M_bind, mret, M_ret, modify, gets, lift.
  destruct (files st !! path) as [content |].
  - destruct (parse_exam_file _ _ _) as [a | e]; [done |].
    by destruct (is_class FileNotFoundError e).
  - done.
Qed.

(** The [CREATE TABLE] statement of the final exam type is refused by the
    server whatever the state of the connection: its fourth column
    definition runs into the fifth. *)
Lemma execute_create_final (tn et : string) (q : Query) (st : State) :
  lower et = "final" ->
  DatabaseManager.generate_create_table_query tn et = Ok q ->
  exists e,
    DatabaseManager.execute env q [] st =
    (Raise e, set_conn (sent (conn st) None) st).
Proof.
  intros Het. unfold DatabaseManager.generate_create_table_query.
  rewrite Het. cbn [String.eqb Ascii.eqb Bool.eqb]. intros [= <-].
  unfold DatabaseManager.execute.
  destruct (db_fault env _); [by eexists |].
  destruct (working (conn st)); [| by eexists].
  unfold run_query. destruct (unquoted_name tn); by eexists.
Qed.

Lemma create_exam_table_final (sem et : string) (y : option string)
    (st : State) :
  lower et = "final" ->
  exists r st',
    DatabaseManager.create_exam_table env sem et y st = (r, st')
    /\ r <> Ok true
    /\ committed (conn st') = committed (conn st)
    /\ working (conn st') = None.
Proof.
  intros Het. unfold DatabaseManager.create_exam_table.
  unfold mbind at 1, M_bind at 1, DatabaseManager.set_exam_table_name,
    modify at 1.
  set (st0 := set_table_name _ st).
  set (body := mbind _ _).
  assert (Hbody : exists e, body st0 =
            (Raise e, set_conn (sent (conn st0) None) st0)).
  { subst body. unfold mbind at 1, M_bind at 1, gets at 1.
    unfold mbind at 1, M_bind at 1, lift at 1.
    destruct (DatabaseManager.generate_create_table_query _ et)
      as [q | e] eqn:Hq.
    - unfold mbind at 1, M_bind at 1.
      destruct (execute_create_final _ et q st0 Het Hq) as [e ->].
      by eexists.
    - unfold DatabaseManager.generate_create_table_query in Hq.
      rewrite Het in Hq. done. }
  destruct Hbody as [e Hbody].
  rewrite (try_except_raise _ _ _ _ _ Hbody).
  destruct (is_class OperationalError e); by eexists _, _.
Qed.

(** With exam type "final", [populate_exam_table] makes nothing visible
    in the database, whatever the page, the files and the server do. *)
Lemma populate_final_stores_nothing (sem et : string) (st : State) :
  lower et = "final" ->
  committed (conn (snd (DatabaseManager.populate_exam_table env sem et st)))
  = committed (conn st).
Proof.
  intros Het.
  destruct (scrape_course_info_total env st)
    as (v & st1 & Hs & Hc1 & _).
  pose proof (process_exam_data_frame (file_name st1) st1) as Hc2.
  unfold DatabaseManager.populate_exam_table.
  unfold mbind at 1, M_bind at 1. rewrite Hs.
  unfold mbind at 1, M_bind at 1, gets at 1.
  unfold mbind at 1, M_bind at 1.
  destruct (WebScraper.process_exam_data _ st1) as [[data | e] st2];
    cbn [snd] in *; [| congruence].
  unfold mbind at 1, M_bind at 1, gets at 1.
  unfold mbind at 1, M_bind at 1.
  destruct (create_exam_table_final sem (lower et) (year st2) st2)
    as (r & st3 & -> & Hr & Hc3 & Hw3); [by rewrite lower_idem |].
  destruct r as [b | e]; cbn [snd]; [| congruence].
  rewrite populate_try_aborted by done. congruence.
Qed.

End Store.

(** ** The round trip through the store *)

Section RoundTrip.
Import Py.

(** On the prelim path the round trip works for a semester written in
    lower-case letters: what was scraped comes back from [fetch_exam]. *)
Example prelim_round_trip :
  fst (DatabaseManager.populate_exam_table
         (serving (page "fall 2024 Prelim Exam Schedule"
                     "CS 2110 10/15 Statler Hall"))
         "fall" "prelim" (get_db_manager "fall" "prelim" ∅ ∅))
  = Ok true
  /\ fst (DatabaseManager.fetch_exam
            (serving (page "fall 2024 Prelim Exam Schedule"
                        "CS 2110 10/15 Statler Hall"))
            (Some "CS 2110") "prelim"
            (snd (DatabaseManager.populate_exam_table
                    (serving (page "fall 2024 Prelim Exam Schedule"
                                "CS 2110 10/15 Statler Hall"))
                    "fall" "prelim"
                    (get_db_manager "fall" "prelim" ∅ ∅))))
     = Ok (Val [ {[ "course_code" := Some "CS 2110";
                    "exam_date" := Some "10/15";
                    "exam_locations" := Some "Statler Hall" ]} ]).
Proof. split; reflexivity. Qed.

(** C3.  On the final path the round trip fails, here for the semester
    "fall", whose table name [fall_2024_final_exams] the server accepts.
    The record is scraped, but the [CREATE TABLE] statement of
    [generate_create_table_query] has no comma between its fourth and
    fifth column, so the server refuses it: populate raises, nothing is
    stored, and a later request that fetches the course code finds no
    table.  Had the table its five columns, the [INSERT] would still fail:
    it names a column [exam_or_deliverable] where the table has
    [test_type]. *)
Theorem final_round_trip_fails :
  unquoted_name "fall_2024_final_exams" = Ok "fall_2024_final_exams"
  /\ parse_exam_file "fall" "final"
       (readlines ("fall 2024 Final Exam Schedule" +:+ nl +:+
                   "CS 2110 001 12/14 9:00 AM in person Barton Hall"))
     = Ok [ {[ "course_code" := "CS 2110 001"; "exam_date" := "12/14";
               "exam_time" := "9:00 AM"; "test_type" := "in person";
               "exam_locations" := "Barton Hall" ]} ]
  /\ DatabaseManager.populate_exam_table (serving final_page) "fall"
       "final" (get_db_manager "fall" "final" ∅ ∅)
     = (Raise (Exn ProgrammingError "syntax error"), after_final_populate)
  /\ committed (conn after_final_populate) = ∅
  /\ table_name after_final_populate = Some "fall_2024_final_exams"
  /\ fst (DatabaseManager.fetch_exam (serving final_page)
            (Some "CS 2110 001") "final"
            (set_table_name (Some "fall_2024_final_exams")
               (get_db_manager "fall" "final" ∅ ∅)))
     = Raise (Exn ProgrammingError "relation does not exist")
  /\ fst (DatabaseManager.insert_exam (serving final_page)
            (Some "CS 2110 001") (Some "12/14") (Some "Barton Hall")
            "final" (Some "9:00 AM") (Some "in person")
            (set_table_name (Some "fall_2024_final_exams")
               (get_db_manager "fall" "final"
                  {[ "fall_2024_final_exams" :=
                       {| columns := ["course_code"; "exam_date";
                                      "exam_time"; "test_type";
                                      "exam_locations"];
                          rows := [] |} ]} ∅)))
     = Raise (Exn ProgrammingError "column does not exist").
Proof. split_and!; reflexivity. Qed.

End RoundTrip.

(** ** Populating a prelim table *)

Section Populate.
Import Py.
Variable env : Env.



Lemma append_rows_lookup (t : string) (new : list (list Value)) (db : DB)
    (tb : Table) :
  db !! t = Some tb ->
  append_rows t new db !! t
  = Some {| columns := columns tb; rows := rows tb ++ new |}.
Proof. intros H. unfold append_rows. by rewrite H, lookup_insert_eq. Qed.

Lemma run_insert_prelim (db : DB) (t n : string) (tb : Table)
    (a b c : string) :
  unquoted_name t = Ok n ->
  db !! n = Some tb ->
  columns tb = prelim_columns ->
  run_query (InsertInto t prelim_columns) [Some a; Some b; Some c] db
  = Ok ([], append_rows n [[Some a; Some b; Some c]] db).
Proof.
  intros Hn Hl Hc. unfold run_query, append_rows. rewrite Hn.
  cbn [mbind result_bind]. rewrite Hl, Hc. reflexivity.
Qed.

Lemma run_create_prelim (db : DB) (t n : string) :
  unquoted_name t = Ok n ->
  run_query
    (CreateTableIfNotExists t
       [ DatabaseManager.text_not_null "course_code";
         DatabaseManager.text_not_null "exam_date";
         DatabaseManager.text_not_null "exam_locations" ]) [] db
  = Ok ([], with_prelim_table n db).
Proof.
  intros Hn. unfold run_query, with_prelim_table. rewrite Hn.
  cbn [mbind result_bind columns_of_defs column_of_def
       DatabaseManager.text_not_null].
  by destruct (db !! n).
Qed.

(** One row that the server accepts is committed at once. *)
Lemma insert_exam_prelim_ok (st : State) (et t n : string) (db : DB)
    (tb : Table) (a b c : string) (time test_type : Value) :
  lower et = "prelim" ->
  table_name st = Some t ->
  unquoted_name t = Ok n ->
  working (conn st) = Some db ->
  db !! n = Some tb ->
  columns tb = prelim_columns ->
  db_fault env (n_exec (conn st)) = None ->
  DatabaseManager.insert_exam env (Some a) (Some b) (Some c) et
    time test_type st
  = (Ok true,
     set_stdout (stdout st ++ ["Success: Exam record inserted successfully."])
       (set_conn
          (committing
             (sent (conn st)
                (Some (append_rows n [[Some a; Some b; Some c]] db))))
          st)).
Proof.
  intros Het Ht Hn Hw Hl Hc Hf.
  unfold DatabaseManager.insert_exam,
    DatabaseManager.generate_insert_exam_query.
  rewrite lower_idem, Het. cbn [String.eqb Ascii.eqb Bool.eqb].
  unfold try_except, mbind, M_bind, gets, lift, DatabaseManager.execute.
  rewrite Ht, Hf, Hw. cbn [fmt default from_option id].
  change ["course_code"; "exam_date"; "exam_locations"]
    with prelim_columns.
  rewrite (run_insert_prelim db t n tb a b c Hn Hl Hc).
  reflexivity.
Qed.

(** One row that the server refuses: nothing of it is stored; an
    [OperationalError] is caught, any other error is passed on. *)
Lemma insert_exam_fault (st : State) (et : string)
    (code date locations time test_type : Value) (e : exn) :
  lower et = "prelim" \/ lower et = "final" ->
  db_fault env (n_exec (conn st)) = Some e ->
  DatabaseManager.insert_exam env code date locations et time test_type st
  = if is_class OperationalError e
    then (Ok false,
          set_stdout (stdout st ++
                        ["Error: Error inserting exam record: "
                         +:+ exn_msg e])
            (set_conn (sent (conn st) None) st))
    else (Raise e, set_conn (sent (conn st) None) st).
Proof.
  intros Het Hf.
  unfold DatabaseManager.insert_exam,
    DatabaseManager.generate_insert_exam_query.
  rewrite lower_idem.
  destruct Het as [-> | ->]; cbn [String.eqb Ascii.eqb Bool.eqb];
    unfold try_except, mbind, M_bind, gets, lift, DatabaseManager.execute;
    rewrite Hf; by destruct (is_class OperationalError e).
Qed.

Lemma update_exam_fault (st : State) (et : string)
    (code date locations time test_type : Value) (e : exn) :
  lower et = "prelim" \/ lower et = "final" ->
  db_fault env (n_exec (conn st)) = Some e ->
  DatabaseManager.update_exam env code date locations et time test_type st
  = if is_class OperationalError e
    then (Ok false,
          set_stdout (stdout st ++
                        ["Error: Error updating exam record: "
                         +:+ exn_msg e])
            (set_conn (sent (conn st) None) st))
    else (Raise e, set_conn (sent (conn st) None) st).
Proof.
  intros Het Hf.
  unfold DatabaseManager.update_exam,
    DatabaseManager.generate_update_exam_query.
  destruct Het as [-> | ->]; cbn [String.eqb Ascii.eqb Bool.eqb];
    unfold try_except, mbind, M_bind, gets, lift, DatabaseManager.execute;
    rewrite Hf; by destruct (is_class OperationalError e).
Qed.

Lemma fetch_exam_fault (st : State) (et : string) (code : Value)
    (e : exn) :
  db_fault env (n_exec (conn st)) = Some e ->
  DatabaseManager.fetch_exam env code et st
  = if is_class OperationalError e
    then (Ok (Flag false),
          set_stdout (stdout st ++
                        ["Error: Error fetching exam records: "
                         +:+ exn_msg e])
            (set_conn (sent (conn st) None) st))
    else (Raise e, set_conn (sent (conn st) None) st).
Proof.
  intros Hf.
  unfold DatabaseManager.fetch_exam, try_except, mbind, M_bind, gets, lift,
    DatabaseManager.execute.
  rewrite Hf. by destruct (is_class OperationalError e).
Qed.

Lemma create_exam_table_fault (st : State) (sem et : string)
    (y : option string) (e : exn) :
  lower et = "prelim" \/ lower et = "final" ->
  db_fault env (n_exec (conn st)) = Some e ->
  let st0 := set_table_name
               (Some (sem +:+ "_" +:+ fmt y +:+ "_" +:+ et +:+ "_exams"))
               st in
  DatabaseManager.create_exam_table env sem et y st
  = if is_class OperationalError e
    then (Ok false,
          set_stdout (stdout st ++
                        ["Error: Error creating table in PostgreSQL: "
                         +:+ exn_msg e])
            (set_conn (sent (conn st) None) st0))
    else (Raise e, set_conn (sent (conn st) None) st0).
Proof.
  intros Het Hf st0.
  unfold DatabaseManager.create_exam_table,
    DatabaseManager.set_exam_table_name,
    DatabaseManager.generate_create_table_query.
  destruct Het as [-> | ->]; cbn [String.eqb Ascii.eqb Bool.eqb];
    unfold try_except, mbind, M_bind, modify, gets, lift,
      DatabaseManager.execute;
    cbn [conn set_table_name]; rewrite Hf;
    by destruct (is_class OperationalError e).
Qed.






(** The scrape on a page that has its heading and its [pre] block. *)
Lemma scrape_course_info_ok (st : State) (soup : Soup)
    (info hdr a y : string) (more : list string) :
  let url := WebScraper.base_url
             +:+ replace_char " " "-" (lower (semester st)) +:+ "-"
             +:+ replace_char " " "-" (lower (exam_type st))
             +:+ "-exam-schedule" in
  let fn := WebScraper.filename (semester st) y (exam_type st) in
  requester env url = Ok soup ->
  h2_text soup = Some info ->
  strong_text soup = Some hdr ->
  split info = a :: y :: more ->
  write_fault env fn = None ->
  WebScraper.scrape_course_info env st =
  (Ok (Val (pre_text soup)),
   set_stdout (stdout st ++ ["Data saved to " +:+ fn])
     (set_files (<[ fn := info +:+ nl +:+ pre_text soup ]> (files st))
        (set_file_name (Some fn)
           (set_year (Some y)
              (set_exam_data_header (Some (strip hdr)) st))))).
Proof.
  intros url fn Hreq Hh2 Hstrong Hsplit Hw.
  unfold WebScraper.scrape_course_info, try_except.
  unfold mbind at 1, M_bind at 1, WebScraper.generate_url.
  unfold mbind at 1 2, M_bind at 1 2, gets at 1 2, mret at 1, M_ret at 1.
  unfold mbind at 1, M_bind at 1, lift at 1. fold url. rewrite Hreq.
  unfold mbind at 1, M_bind at 1.
  by rewrite (parse_html_ok env st soup info hdr a y more).
Qed.

(** Table creation on the prelim path. *)
Lemma create_exam_table_prelim_ok (st : State) (sem et : string)
    (y : option string) (db : DB) (n : string) :
  lower et = "prelim" ->
  working (conn st) = Some db ->
  db_fault env (n_exec (conn st)) = None ->
  let t := sem +:+ "_" +:+ fmt y +:+ "_" +:+ et +:+ "_exams" in
  unquoted_name t = Ok n ->
  DatabaseManager.create_exam_table env sem et y st =
  (Ok true,
   set_stdout (stdout st ++ ["Success: Table created successfully!"])
     (set_conn (committing (sent (conn st)
                              (Some (with_prelim_table n db))))
        (set_table_name (Some t) st))).
Proof.
  intros Het Hw Hf t Hn.
  unfold DatabaseManager.create_exam_table,
    DatabaseManager.set_exam_table_name,
    DatabaseManager.generate_create_table_query.
  rewrite Het. cbn [String.eqb Ascii.eqb Bool.eqb].
  unfold try_except, mbind, M_bind, modify, gets, lift,
    DatabaseManager.execute.
  cbn [conn set_table_name table_name fmt default from_option id].
  rewrite Hf, Hw. fold t. rewrite (run_create_prelim db t n Hn).
  reflexivity.
Qed.



End Populate.

Section PopulateScenarios.
Import Py.



End PopulateScenarios.

(** ** Which failures are caught *)

Section ErrorHandling.
Import Py.

Lemma save_to_text_file_fault (env : Env) (st : State)
    (fn data : string) (f : WriteFault) :
  write_fault env fn = Some f ->
  WebScraper.save_to_text_file env fn data st =
  (Ok false,
   set_stdout
     (stdout st ++ ["Error saving data to file: " +:+ exn_msg (fault_exn f)])
     (set_files (after_fault f fn data (files st)) st)).
Proof.
  intros H.
  unfold WebScraper.save_to_text_file, WebScraper.error_response, print,
    try_except, mbind, M_bind, modify, raise, mret, M_ret.
  by rewrite H.
Qed.

Lemma scrape_course_info_request_fails (env : Env) (st : State) (e : exn) :
  requester env
    (WebScraper.base_url
     +:+ replace_char " " "-" (lower (semester st)) +:+ "-"
     +:+ replace_char " " "-" (lower (exam_type st))
     +:+ "-exam-schedule") = Raise e ->
  WebScraper.scrape_course_info env st =
  (Ok (Flag false),
   set_stdout
     (stdout st ++ ["Error scraping course information: " +:+ exn_msg e])
     st).
Proof.
  intros H.
  unfold WebScraper.scrape_course_info, WebScraper.generate_url,
    WebScraper.error_response, print, try_except, mbind, M_bind, modify,
    gets, lift, mret, M_ret.
  by rewrite H.
Qed.

Lemma process_exam_data_missing (st : State) (path : string) :
  files st !! path = None ->
  WebScraper.process_exam_data (Some path) st =
  (Ok (Flag false),
   set_stdout (stdout st ++ ["Error: File '" +:+ path +:+ "' not found."])
     st).
Proof.
  intros H.
  unfold WebScraper.process_exam_data, WebScraper.error_response, print,
    try_except, mbind, M_bind, modify, gets, lift, mret, M_ret.
  by rewrite H.
Qed.

(** The exceptions [parse_exam_file] can raise. *)
Lemma parse_lines_raises (sem et : string) (file : list string)
    (acc : list Dict) (e : exn) :
  parse_lines sem et file acc = Raise e ->
  exn_cls e = IndexError \/ exn_cls e = ValueError.
Proof.
  revert acc. induction file as [|l file IH]; intros acc; [done |].
  destruct (skipped sem (strip l)) eqn:Hl.
  - rewrite parse_lines_skip by done. apply IH.
  - rewrite parse_lines_step by done.
    destruct (decode_line et (split l)) as [r | e'] eqn:Hd.
    + apply IH.
    + cbn. intros [= <-]. revert Hd. unfold decode_line.
      destruct (String.eqb (lower et) "prelim");
        [| destruct (String.eqb (lower et) "final")];
        destruct (split l) as [|a [|b [|c [|d r]]]]; cbn;
        try destruct (Nat.eqb (String.length c) 3); cbn;
        intros [= <-]; auto.
Qed.

(** What [process_exam_data] does with a file that is there. *)
Lemma process_exam_data_file (st : State) (path content : string) :
  files st !! path = Some content ->
  WebScraper.process_exam_data (Some path) st =
  (match parse_exam_file (semester st) (exam_type st) (readlines content)
   with
   | Ok rs => Ok (Val rs)
   | Raise e => Raise e
   end, st).
Proof.
  intros H.
  unfold WebScraper.process_exam_data, try_except, mbind, M_bind, gets,
    lift, mret, M_ret.
  rewrite H.
  destruct (parse_exam_file _ _ _) as [rs | e] eqn:Hp; [done |].
  apply parse_lines_raises in Hp.
  unfold is_class. destruct Hp as [-> | ->]; done.
Qed.

Lemma insert_exam_unknown (env : Env) (st : State)
    (code date locations : Value) (et : string) (time test_type : Value) :
  lower et <> "prelim" -> lower et <> "final" ->
  DatabaseManager.insert_exam env code date locations et time test_type st
  = (Raise DatabaseManager.unknown_exam_type, st).
Proof.
  intros H1%String.eqb_neq H2%String.eqb_neq.
  unfold DatabaseManager.insert_exam,
    DatabaseManager.generate_insert_exam_query,
    try_except, mbind, M_bind, modify, gets, lift.
  by rewrite lower_idem, H1, H2.
Qed.

(** C9 (as amended).  What is caught, printed and turned into [False]:
    every exception inside [scrape_course_info] and [save_to_text_file];
    a missing file, and nothing else, in [process_exam_data]; an
    [OperationalError] of the database, and nothing else, in the store
    operations.  What is passed on to the caller: every exception of the
    parser from [process_exam_data], the [ValueError] for an unknown exam
    type from [insert_exam], [update_exam] and [create_exam_table], and a
    database error of another class from the store operations. *)
Theorem failures_caught_or_passed_on (env : Env) (st : State) :
  (exists v st', WebScraper.scrape_course_info env st = (Ok v, st'))
  /\
  (forall e,
     requester env
       (WebScraper.base_url
        +:+ replace_char " " "-" (lower (semester st)) +:+ "-"
        +:+ replace_char " " "-" (lower (exam_type st))
        +:+ "-exam-schedule") = Raise e ->
     WebScraper.scrape_course_info env st =
     (Ok (Flag false),
      set_stdout
        (stdout st ++ ["Error scraping course information: " +:+ exn_msg e])
        st))
  /\
  (forall fn data f,
     write_fault env fn = Some f ->
     WebScraper.save_to_text_file env fn data st =
     (Ok false,
      set_stdout
        (stdout st
         ++ ["Error saving data to file: " +:+ exn_msg (fault_exn f)])
        (set_files (after_fault f fn data (files st)) st)))
  /\
  (forall path,
     files st !! path = None ->
     WebScraper.process_exam_data (Some path) st =
     (Ok (Flag false),
      set_stdout
        (stdout st ++ ["Error: File '" +:+ path +:+ "' not found."]) st))
  /\
  (forall path content e,
     files st !! path = Some content ->
     parse_exam_file (semester st) (exam_type st) (readlines content)
     = Raise e ->
     (exn_cls e = IndexError \/ exn_cls e = ValueError)
     /\ WebScraper.process_exam_data (Some path) st = (Raise e, st))
  /\
  (forall et,
     lower et <> "prelim" -> lower et <> "final" ->
     (forall code date locations time test_type,
        DatabaseManager.insert_exam env code date locations et time
          test_type st
        = (Raise (Exn ValueError "Unknown exam type"), st))
     /\
     (forall code date locations time test_type,
        DatabaseManager.update_exam env code date locations et time
          test_type st
        = (Raise (Exn ValueError "Unknown exam type"), st))
     /\
     (forall sem y,
        DatabaseManager.create_exam_table env sem et y st
        = (Raise (Exn ValueError "Unknown exam type"),
           set_table_name
             (Some (sem +:+ "_" +:+ fmt y +:+ "_" +:+ et +:+ "_exams"))
             st)))
  /\
  (forall e,
     db_fault env (n_exec (conn st)) = Some e ->
     let failed := set_conn (sent (conn st) None) in
     let said line s := set_stdout (stdout st ++ [line +:+ exn_msg e]) s in
     (forall code date locations et time test_type,
        lower et = "prelim" \/ lower et = "final" ->
        DatabaseManager.insert_exam env code date locations et time
          test_type st
        = if is_class OperationalError e
          then (Ok false,
                said "Error: Error inserting exam record: " (failed st))
          else (Raise e, failed st))
     /\
     (forall code date locations et time test_type,
        lower et = "prelim" \/ lower et = "final" ->
        DatabaseManager.update_exam env code date locations et time
          test_type st
        = if is_class OperationalError e
          then (Ok false,
                said "Error: Error updating exam record: " (failed st))
          else (Raise e, failed st))
     /\
     (forall code et,
        DatabaseManager.fetch_exam env code et st
        = if is_class OperationalError e
          then (Ok (Flag false),
                said "Error: Error fetching exam records: " (failed st))
          else (Raise e, failed st))
     /\
     (forall sem et y,
        lower et = "prelim" \/ lower et = "final" ->
        let st0 := set_table_name
                     (Some (sem +:+ "_" +:+ fmt y +:+ "_" +:+ et
                            +:+ "_exams")) st in
        DatabaseManager.create_exam_table env sem et y st
        = if is_class OperationalError e
          then (Ok false,
                said "Error: Error creating table in PostgreSQL: "
                  (failed st0))
          else (Raise e, failed st0))).
Proof.
  split_and!.
  - destruct (scrape_course_info_total env st) as (v & st' & H & _).
    by eexists _, _.
  - apply scrape_course_info_request_fails.
  - intros. by apply save_to_text_file_fault.
  - apply process_exam_data_missing.
  - intros path content e Hfile Hparse. split.
    + by apply parse_lines_raises in Hparse.
    + by rewrite (process_exam_data_file st path content Hfile), Hparse.
  - intros et H1 H2. split_and!.
    + intros. by apply insert_exam_unknown.
    + intros. by apply update_exam_unknown.
    + intros. by apply create_exam_table_unknown.
  - intros e He failed said. split_and!.
    + intros. by apply insert_exam_fault.
    + intros. by apply update_exam_fault.
    + intros. by apply fetch_exam_fault.
    + intros. by apply create_exam_table_fault.
Qed.

Lemma failures_caught_or_passed_on_witness :
  DatabaseManager.insert_exam
    (serving_with_fault three_prelims 0 statement_timeout)
    (Some "CS 2110") (Some "10/15") (Some "Statler Hall") "prelim" None None
    (get_db_manager "fall" "prelim" ∅ ∅)
  = (Ok false,
     set_stdout
       ([] ++ ["Error: Error inserting exam record: "
               +:+ "canceling statement due to statement timeout"])
       (set_conn (sent (conn (get_db_manager "fall" "prelim" ∅ ∅)) None)
          (get_db_manager "fall" "prelim" ∅ ∅)))
  /\ WebScraper.process_exam_data (Some "fall-2024-prelim-exams.txt")
       (get_db_manager "fall" "prelim" ∅ ∅)
     = (Ok (Flag false),
        set_stdout
          ([] ++ ["Error: File '" +:+ "fall-2024-prelim-exams.txt"
                  +:+ "' not found."])
          (get_db_manager "fall" "prelim" ∅ ∅))
  /\ DatabaseManager.insert_exam
       (serving_with_fault three_prelims 0 statement_timeout)
       (Some "CS 2110") (Some "10/15") (Some "Statler Hall") "midterm"
       None None (get_db_manager "fall" "prelim" ∅ ∅)
     = (Raise (Exn ValueError "Unknown exam type"),
        get_db_manager "fall" "prelim" ∅ ∅).
Proof.
  pose proof (failures_caught_or_passed_on
                (serving_with_fault three_prelims 0 statement_timeout)
                (get_db_manager "fall" "prelim" ∅ ∅))
    as (_ & _ & _ & Hfile & _ & Hunknown & Hdb).
  split_and!.
  - exact (proj1 (Hdb statement_timeout eq_refl)
             (Some "CS 2110") (Some "10/15") (Some "Statler Hall")
             "prelim" None None (or_introl eq_refl)).
  - exact (Hfile "fall-2024-prelim-exams.txt" eq_refl).
  - refine (proj1 (Hunknown "midterm" _ _) _ _ _ _ _); discriminate.
Defined.

(** C9 as stated fails: an [IndexError] of the parser leaves
    [process_exam_data], a [ValueError] leaves [insert_exam], and a
    database error that is no [OperationalError] leaves
    [create_exam_table]. *)
Lemma exceptions_propagate_counterexample :
  fst (WebScraper.process_exam_data (Some "fall-2024-prelim-exams.txt")
         (set_files {[ "fall-2024-prelim-exams.txt" :=
                         "fall 2024 Prelim Exam Schedule" +:+ nl
                         +:+ "CS 2110" ]}
            (get_db_manager "fall" "prelim" ∅ ∅)))
  = Raise (Exn IndexError "list index out of range")
  /\ fst (DatabaseManager.insert_exam (serving three_prelims)
            (Some "CS 2110") (Some "10/15") (Some "Statler Hall")
            "midterm" None None (get_db_manager "fall" "midterm" ∅ ∅))
     = Raise (Exn ValueError "Unknown exam type")
  /\ unquoted_name "fall_2024_final_exams" = Ok "fall_2024_final_exams"
  /\ fst (DatabaseManager.create_exam_table (serving three_prelims)
            "fall" "final" (Some "2024")
            (get_db_manager "fall" "final" ∅ ∅))
     = Raise (Exn ProgrammingError "syntax error").
Proof. split_and!; reflexivity. Qed.

End ErrorHandling.

(** * Further properties of the code *)

(** ** More on [parse_exam_file] *)

Section ParsingMore.
Import Py.
#[local] Arguments slice : simpl never.
#[local] Arguments slice_from : simpl never.

Lemma app_cons_string (c : ascii) (a b : string) :
  String c a +:+ b = String c (a +:+ b).
Proof. reflexivity. Qed.

Lemma app_nil_string (b : string) : "" +:+ b = b.
Proof. reflexivity. Qed.

(** Reading a token, then the rest. *)
Lemma split_go_token_app (t s cur : string) :
  no_space t = true -> split_go cur (t +:+ s) = split_go (cur +:+ t) s.
Proof.
  revert cur. induction t as [|c t IH]; intros cur Ht.
  - by rewrite app_nil_string, app_empty_r.
  - cbn in Ht. apply andb_true_iff in Ht as [Hc Ht].
    rewrite app_cons_string. cbn [split_go].
    apply negb_true_iff in Hc. rewrite Hc, IH by done.
    by rewrite app_assoc'.
Qed.

(** Splitting a space-joined list of tokens gives the tokens back. *)
Lemma split_join_tokens (l : list string) :
  Forall is_token l -> split (join " " l) = l.
Proof.
  induction 1 as [|t l [Hne Hns] Hl IH]; [done |].
  rewrite join_cons. unfold split. destruct l as [|t' l].
  - rewrite <- (app_empty_r t) at 1.
    rewrite split_go_token_app by done. cbn [split_go].
    unfold emit. by rewrite app_nil_string, Hne.
  - rewrite split_go_token_app by done. rewrite app_nil_string.
    change (" " +:+ join " " (t' :: l))
      with (String " " (join " " (t' :: l))).
    cbn [split_go]. change (isspace " ") with true. cbn iota.
    unfold emit. rewrite Hne. f_equal. apply IH.
Qed.

(** With a known exam type, the decoder fails exactly on the lines that
    are too short, and then with [IndexError]. *)
Lemma decode_line_known (et : string) (parts : list string) :
  known et ->
  Forall is_token parts ->
  if too_short parts
  then decode_line et parts
       = Raise (Exn IndexError "list index out of range")
  else exists r, decode_line et parts = Ok r.
Proof.
  intros Het Htok.
  destruct parts as [|t0 [|t1 [|t2 rest]]];
    try (cbn [too_short]; apply decode_line_short; [done | simpl; lia]).
  destruct Het as [Het | Het].
  - rewrite (decode_prelim et t0 t1 t2 rest Het Htok).
    destruct rest as [|d rest]; cbn [too_short];
      destruct (Nat.eqb (String.length t2) 3); by eauto.
  - rewrite (decode_final et t0 t1 t2 rest Het Htok).
    destruct rest as [|d rest]; cbn [too_short];
      destruct (Nat.eqb (String.length t2) 3); by eauto.
Qed.

(** X1.  With exam type "prelim" or "final", a line that the header test
    does not skip either is too short (fewer than three tokens, or exactly
    three with a third token of three characters) and makes the parse
    raise [IndexError] wherever it stands, or is parsed to exactly one
    record, which the loop adds to those before it: no other line fails,
    however few tokens are left for the later fields. *)
Theorem line_decoded_or_index_error (sem et line : string) :
  known et ->
  skipped sem (strip line) = false ->
  if too_short (split line)
  then parse_exam_file sem et [line]
       = Raise (Exn IndexError "list index out of range")
       /\ forall file acc,
            parse_lines sem et (line :: file) acc
            = Raise (Exn IndexError "list index out of range")
  else exists r,
         parse_exam_file sem et [line] = Ok [r]
         /\ forall file acc,
              parse_lines sem et (line :: file) acc
              = parse_lines sem et file (acc ++ [r]).
Proof.
  intros Het Hskip.
  pose proof (decode_line_known et (split line) Het (split_tokens line))
    as H.
  unfold parse_exam_file.
  destruct (too_short (split line)).
  - split; [| intros file acc]; by rewrite parse_lines_step, H.
  - destruct H as [r Hr]. exists r.
    split; [| intros file acc]; by rewrite parse_lines_step, Hr.
Qed.

Lemma line_decoded_or_index_error_witness :
  parse_exam_file "FA 2024" "final" ["CS 2110 9/5"]
  = Raise (Exn IndexError "list index out of range")
  /\ exists r, parse_exam_file "FA 2024" "final" ["CS 2110 12/14"] = Ok [r].
Proof.
  split.
  - exact (proj1 (line_decoded_or_index_error "FA 2024" "final"
                    "CS 2110 9/5" (or_intror eq_refl) eq_refl)).
  - destruct (line_decoded_or_index_error "FA 2024" "final"
                "CS 2110 12/14" (or_intror eq_refl) eq_refl) as (r & Hr & _).
    by exists r.
Defined.

(** What holds of every decoded record holds of every parsed record. *)
Lemma parse_lines_Forall (P : Dict -> Prop) (sem et : string)
    (file : list string) :
  (forall parts r, Forall is_token parts ->
                   decode_line et parts = Ok r -> P r) ->
  forall acc rs,
    Forall P acc -> parse_lines sem et file acc = Ok rs -> Forall P rs.
Proof.
  intros HP. induction file as [|l file IH]; intros acc rs Hacc.
  - by intros [= <-].
  - destruct (skipped sem (strip l)) eqn:Hl.
    + rewrite parse_lines_skip by done. by apply IH.
    + rewrite parse_lines_step by done.
      destruct (decode_line et (split l)) as [r | e] eqn:Hd; [| done].
      cbn. apply IH. apply Forall_app. split; [done |].
      constructor; [| constructor].
      eapply HP; [apply split_tokens | done].
Qed.

Lemma decode_line_dom (et : string) (parts : list string) (r : Dict) :
  Forall is_token parts ->
  decode_line et parts = Ok r ->
  (lower et = "prelim" ->
   dom r = ({[ "course_code"; "exam_date"; "exam_locations" ]}
            : gset string))
  /\ (lower et = "final" ->
      dom r = ({[ "course_code"; "exam_date"; "exam_time"; "test_type";
                  "exam_locations" ]} : gset string)).
Proof.
  intros Htok Hd. split; intros Het.
  - destruct parts as [|t0 [|t1 [|t2 rest]]];
      try (rewrite decode_line_short in Hd;
           [done | by left | simpl; lia]).
    rewrite (decode_prelim et t0 t1 t2 rest Het Htok) in Hd.
    destruct (Nat.eqb (String.length t2) 3);
      [destruct rest as [|d rest]; [done |] |];
      injection Hd as <-; rewrite !dom_insert_L, dom_singleton_L;
      set_solver.
  - destruct parts as [|t0 [|t1 [|t2 rest]]];
      try (rewrite decode_line_short in Hd;
           [done | by right | simpl; lia]).
    rewrite (decode_final et t0 t1 t2 rest Het Htok) in Hd.
    destruct (Nat.eqb (String.length t2) 3);
      [destruct rest as [|d rest]; [done |] |];
      injection Hd as <-; rewrite !dom_insert_L, dom_singleton_L;
      set_solver.
Qed.

(** X2.  The exam type alone fixes the shape of the records of a parse:
    every record of a prelim parse has exactly the keys course_code,
    exam_date and exam_locations, every record of a final parse exactly
    those and exam_time and test_type. *)
Theorem record_keys_by_exam_type (sem et : string) (file : list string)
    (rs : list Dict) :
  parse_exam_file sem et file = Ok rs ->
  (lower et = "prelim" ->
   Forall (fun r => dom r = ({[ "course_code"; "exam_date";
                                "exam_locations" ]} : gset string)) rs)
  /\ (lower et = "final" ->
      Forall (fun r => dom r = ({[ "course_code"; "exam_date"; "exam_time";
                                   "test_type"; "exam_locations" ]}
                                : gset string)) rs).
Proof.
  intros Hp. split; intros Het.
  - eapply (parse_lines_Forall _ sem et file); [| constructor | exact Hp].
    intros parts r Htok Hd.
    by apply (proj1 (decode_line_dom et parts r Htok Hd)).
  - eapply (parse_lines_Forall _ sem et file); [| constructor | exact Hp].
    intros parts r Htok Hd.
    by apply (proj2 (decode_line_dom et parts r Htok Hd)).
Qed.

Lemma record_keys_by_exam_type_witness :
  Forall (fun r : Dict => dom r = ({[ "course_code"; "exam_date";
                                      "exam_locations" ]} : gset string))
    three_records.
Proof.
  refine (proj1 (record_keys_by_exam_type "FA 2024" "prelim"
                   (readlines ("FA 2024 Prelim Exam Schedule" +:+ nl
                               +:+ pre_text three_prelims))
                   three_records _) eq_refl).
  vm_cast_no_check (@eq_refl _ (@Ok (list Dict) three_records)).
Defined.

Lemma split_token (t : string) : is_token t -> split t = [t].
Proof.
  intros Ht. apply (split_join_tokens [t]).
  constructor; [assumption | constructor].
Qed.

Lemma split_join3 (a b c : string) :
  is_token a -> is_token b -> is_token c ->
  split (a +:+ " " +:+ b +:+ " " +:+ c) = [a; b; c].
Proof.
  intros Ha Hb Hc. apply (split_join_tokens [a; b; c]).
  repeat (constructor; [assumption |]); constructor.
Qed.

Lemma split_join2 (a b : string) :
  is_token a -> is_token b -> split (a +:+ " " +:+ b) = [a; b].
Proof.
  intros Ha Hb. apply (split_join_tokens [a; b]).
  repeat (constructor; [assumption |]); constructor.
Qed.

Lemma decode_line_keeps_tokens (et : string) (parts : list string)
    (r : Dict) :
  known et ->
  Forall is_token parts ->
  decode_line et parts = Ok r ->
  field_tokens r "course_code" ++ field_tokens r "exam_date"
  ++ field_tokens r "exam_time" ++ field_tokens r "test_type"
  ++ field_tokens r "exam_locations" = parts.
Proof.
  intros Het Htok Hd.
  destruct parts as [|t0 [|t1 [|t2 rest]]];
    try (rewrite decode_line_short in Hd; [done | done | simpl; lia]).
  pose proof Htok as Hall.
  apply Forall_cons in Htok as [H0 Htok].
  apply Forall_cons in Htok as [H1 Htok].
  apply Forall_cons in Htok as [H2 Htok].
  unfold field_tokens.
  destruct Het as [Het | Het].
  - rewrite (decode_prelim et t0 t1 t2 rest Het Hall) in Hd.
    destruct (Nat.eqb (String.length t2) 3).
    + destruct rest as [|d rest]; [done |]. injection Hd as <-.
      apply Forall_cons in Htok as [Hd Htok].
      simplify_map_eq. cbn [default from_option id].
      rewrite split_join3, (split_token d) by done.
      change (split "") with (@nil string).
      change (slice_from 4 (t0 :: t1 :: t2 :: d :: rest)) with rest.
      by rewrite split_join_tokens.
    + injection Hd as <-. simplify_map_eq. cbn [default from_option id].
      rewrite split_join2, (split_token t2) by done.
      change (split "") with (@nil string).
      change (slice_from 3 (t0 :: t1 :: t2 :: rest)) with rest.
      by rewrite split_join_tokens.
  - rewrite (decode_final et t0 t1 t2 rest Het Hall) in Hd.
    destruct (Nat.eqb (String.length t2) 3).
    + destruct rest as [|d rest]; [done |]. injection Hd as <-.
      apply Forall_cons in Htok as [Hd Htok].
      simplify_map_eq. cbn [default from_option id].
      rewrite split_join3, (split_token d) by done.
      change (slice 4 6 (t0 :: t1 :: t2 :: d :: rest)) with (take 2 rest).
      change (slice 6 8 (t0 :: t1 :: t2 :: d :: rest))
        with (take 2 (drop 2 rest)).
      change (slice_from 8 (t0 :: t1 :: t2 :: d :: rest))
        with (drop (2 + 2) rest).
      rewrite <- (drop_drop rest 2 2).
      rewrite !split_join_tokens
        by (repeat first [apply Forall_take | apply Forall_drop]; done).
      cbn [app]. by rewrite !take_drop.
    + injection Hd as <-. simplify_map_eq. cbn [default from_option id].
      rewrite split_join2, (split_token t2) by done.
      change (slice 3 5 (t0 :: t1 :: t2 :: rest)) with (take 2 rest).
      change (slice 5 7 (t0 :: t1 :: t2 :: rest))
        with (take 2 (drop 2 rest)).
      change (slice_from 7 (t0 :: t1 :: t2 :: rest))
        with (drop (2 + 2) rest).
      rewrite <- (drop_drop rest 2 2).
      rewrite !split_join_tokens
        by (repeat first [apply Forall_take | apply Forall_drop]; done).
      cbn [app]. by rewrite !take_drop.
Qed.

(** X3.  The decoders lose no token and add none: the tokens of the fields
    of a record, read in the order course_code, exam_date, exam_time,
    test_type, exam_locations (a prelim record has no exam_time and no
    test_type), are the tokens of the line it was built from. *)
Theorem record_fields_keep_the_tokens (sem et line : string) (r : Dict) :
  known et ->
  skipped sem (strip line) = false ->
  parse_exam_file sem et [line] = Ok [r] ->
  field_tokens r "course_code" ++ field_tokens r "exam_date"
  ++ field_tokens r "exam_time" ++ field_tokens r "test_type"
  ++ field_tokens r "exam_locations" = split line.
Proof.
  intros Het Hskip Hp. unfold parse_exam_file in Hp.
  rewrite parse_lines_step in Hp by done.
  destruct (decode_line et (split line)) as [r' | e] eqn:Hd; [| done].
  cbn in Hp. injection Hp as <-.
  by apply (decode_line_keeps_tokens et _ r' Het (split_tokens line)).
Qed.

Lemma record_fields_keep_the_tokens_witness :
  field_tokens final_record "course_code"
  ++ field_tokens final_record "exam_date"
  ++ field_tokens final_record "exam_time"
  ++ field_tokens final_record "test_type"
  ++ field_tokens final_record "exam_locations"
  = split "CS 2110 001 12/14 9:00 AM in person Barton Hall".
Proof.
  refine (record_fields_keep_the_tokens "FA 2024" "final"
            "CS 2110 001 12/14 9:00 AM in person Barton Hall" final_record
            (or_intror eq_refl) eq_refl _).
  vm_cast_no_check (@eq_refl _ (@Ok (list Dict) [final_record])).
Defined.

(** Records found so far only stand before the new ones. *)
Lemma parse_lines_acc (sem et : string) (file : list string)
    (acc : list Dict) :
  parse_lines sem et file acc =
  rs ← parse_lines sem et file []; Ok (acc ++ rs).
Proof.
  revert acc. induction file as [|l file IH]; intros acc.
  - cbn. by rewrite app_nil_r.
  - destruct (skipped sem (strip l)) eqn:Hl.
    + rewrite !parse_lines_skip by done. apply IH.
    + rewrite !parse_lines_step by done.
      destruct (decode_line et (split l)) as [r | e]; [| done].
      cbn. rewrite (IH (acc ++ [r])), (IH [r]).
      destruct (parse_lines sem et file []) as [rs | e]; [| done].
      cbn. by rewrite <- app_assoc.
Qed.

Lemma parse_lines_app (sem et : string) (f1 f2 : list string)
    (acc : list Dict) :
  parse_lines sem et (f1 ++ f2) acc =
  rs ← parse_lines sem et f1 acc; parse_lines sem et f2 rs.
Proof.
  revert acc. induction f1 as [|l f1 IH]; intros acc; [done |].
  simpl app. destruct (skipped sem (strip l)) eqn:Hl.
  - rewrite !parse_lines_skip by done. apply IH.
  - rewrite !parse_lines_step by done.
    destruct (decode_line et (split l)) as [r | e]; [| done].
    cbn. apply IH.
Qed.

(** X4.  Parsing two files one after the other is parsing them apart and
    appending the records; an error in the first file is the error of the
    whole, as is an error in the second when the first parses. *)
Theorem parse_concatenation (sem et : string) (f1 f2 : list string) :
  parse_exam_file sem et (f1 ++ f2) =
  rs1 ← parse_exam_file sem et f1;
  rs2 ← parse_exam_file sem et f2;
  Ok (rs1 ++ rs2).
Proof.
  unfold parse_exam_file. rewrite parse_lines_app.
  destruct (parse_lines sem et f1 []) as [rs1 | e]; [| done].
  cbn. apply parse_lines_acc.
Qed.

(** X5.  Lines that the header test skips (empty lines, lines of white
    space, lines that start with the semester label) can be taken out of
    the file without changing what is parsed. *)
Theorem skipped_lines_do_not_count (sem et : string) (file : list string) :
  parse_exam_file sem et file =
  parse_exam_file sem et
    (List.filter (fun l => negb (skipped sem (strip l))) file).
Proof.
  unfold parse_exam_file. generalize (@nil Dict).
  induction file as [|l file IH]; intros acc; [done |].
  cbn [List.filter]. destruct (skipped sem (strip l)) eqn:Hl; cbn [negb].
  - rewrite parse_lines_skip by done. apply IH.
  - rewrite !parse_lines_step by done.
    destruct (decode_line et (split l)) as [r | e]; [| done].
    cbn. apply IH.
Qed.

Lemma parse_lines_length (sem et : string) (file : list string) :
  forall acc rs,
    parse_lines sem et file acc = Ok rs ->
    length rs = length acc
                + length (List.filter
                            (fun l => negb (skipped sem (strip l))) file).
Proof.
  induction file as [|l file IH]; intros acc rs.
  - intros [= <-]. simpl. lia.
  - cbn [List.filter]. destruct (skipped sem (strip l)) eqn:Hl; cbn [negb].
    + rewrite parse_lines_skip by done. apply IH.
    + rewrite parse_lines_step by done.
      destruct (decode_line et (split l)) as [r | e]; [| done].
      cbn. intros H. apply IH in H. rewrite length_app in H.
      simpl in *. lia.
Qed.

(** X6.  A parse that succeeds returns one record for every line the
    header test does not skip, neither more nor fewer. *)
Theorem one_record_per_data_line (sem et : string) (file : list string)
    (rs : list Dict) :
  parse_exam_file sem et file = Ok rs ->
  length rs =
  length (List.filter (fun l => negb (skipped sem (strip l))) file).
Proof. intros H. by apply parse_lines_length in H. Qed.

Lemma one_record_per_data_line_witness :
  length three_records =
  length (List.filter
            (fun l => negb (skipped "FA 2024" (strip l)))
            (readlines ("FA 2024 Prelim Exam Schedule" +:+ nl
                        +:+ pre_text three_prelims))).
Proof.
  refine (one_record_per_data_line "FA 2024" "prelim"
            (readlines ("FA 2024 Prelim Exam Schedule" +:+ nl
                        +:+ pre_text three_prelims))
            three_records _).
  vm_cast_no_check (@eq_refl _ (@Ok (list Dict) three_records)).
Defined.

End ParsingMore.

(** ** More on the scraper *)

Section ScraperMore.
Import Py.
#[local] Arguments String.append !_ _ / : simpl nomatch.

Lemma contains_replace_space (s : string) :
  contains " " (replace_char " " "-" s) = false.
Proof.
  induction s as [|c s IH]; simpl; [done |]. rewrite IH.
  destruct (Ascii.eqb_spec c " ") as [-> | Hc]; [done |].
  by apply Ascii.eqb_neq in Hc as ->.
Qed.

(** X7.  The URL [generate_url] builds holds no space, whatever the
    semester and the exam type are: their spaces have become hyphens
    (unlike in the name of the artifact file). *)
Theorem url_has_no_space (st : State) :
  exists url,
    WebScraper.generate_url st = (Ok url, st)
    /\ contains " " url = false.
Proof.
  eexists. split; [reflexivity |].
  by rewrite !contains_app, !contains_replace_space.
Qed.

(** A stretch of text without line ends is read into the current line. *)
Lemma readlines_go_plain (s rest cur : string) :
  contains line_feed s = false ->
  contains carriage_return s = false ->
  readlines_go cur (s +:+ rest) = readlines_go (cur +:+ s) rest.
Proof.
  revert cur. induction s as [|c s IH]; intros cur Hn Hr.
  - simpl. by rewrite app_empty_r.
  - cbn [contains] in Hn, Hr.
    apply orb_false_iff in Hn as [Hn1 Hn2].
    apply orb_false_iff in Hr as [Hr1 Hr2].
    change (String c s +:+ rest) with (String c (s +:+ rest)).
    cbn [readlines_go].
    change (ascii_of_N 10) with line_feed.
    change (ascii_of_N 13) with carriage_return.
    rewrite Hn1, Hr1, IH by done.
    f_equal. rewrite app_assoc'. done.
Qed.

Lemma readlines_heading (info body : string) :
  contains line_feed info = false ->
  contains carriage_return info = false ->
  readlines (info +:+ nl +:+ body) = (info +:+ nl) :: readlines body.
Proof.
  intros Hn Hr. unfold readlines.
  rewrite readlines_go_plain by done. reflexivity.
Qed.

Lemma rstrip_line_feed (s : string) : rstrip (s +:+ nl) = rstrip s.
Proof. induction s as [|c s IH]; simpl; [done | by rewrite IH]. Qed.

Lemma strip_line_feed (s : string) : strip (s +:+ nl) = strip s.
Proof. unfold strip. by rewrite rstrip_line_feed. Qed.

(** X8.  After a scrape that succeeds, [process_exam_data] on the file
    just written returns the records of the schedule text alone, provided
    the heading is one line and starts with the scraper's semester label:
    the heading written at the top of the file is then the line the header
    test skips. *)
Theorem scraped_file_parses_to_body (env : Env) (st : State) (soup : Soup)
    (info hdr a y : string) (more : list string) :
  requester env (url_of st) = Ok soup ->
  h2_text soup = Some info ->
  strong_text soup = Some hdr ->
  split info = a :: y :: more ->
  write_fault env (WebScraper.filename (semester st) y (exam_type st))
  = None ->
  contains line_feed info = false ->
  contains carriage_return info = false ->
  startswith (strip info) (semester st) = true ->
  exists st1,
    WebScraper.scrape_course_info env st = (Ok (Val (pre_text soup)), st1)
    /\ WebScraper.process_exam_data (file_name st1) st1 =
       (match parse_exam_file (semester st) (exam_type st)
                (readlines (pre_text soup)) with
        | Ok rs => Ok (Val rs)
        | Raise e => Raise e
        end, st1).
Proof.
  intros Hreq Hh2 Hstrong Hsplit Hw Hn Hr Hstart.
  eexists. split.
  - by apply (scrape_course_info_ok env st soup info hdr a y more).
  - set (st1 := set_stdout _ _).
    replace (file_name st1) with
      (Some (WebScraper.filename (semester st) y (exam_type st)))
      by reflexivity.
    rewrite (process_exam_data_file st1 _
               (info +:+ nl +:+ pre_text soup))
      by (subst st1; cbn; apply lookup_insert_eq).
    change (semester st1) with (semester st).
    change (exam_type st1) with (exam_type st).
    rewrite readlines_heading by done.
    unfold parse_exam_file at 1.
    rewrite parse_lines_skip; [done |].
    rewrite strip_line_feed. unfold skipped. by rewrite Hstart.
Qed.

Lemma scraped_file_parses_to_body_witness :
  exists st1,
    WebScraper.scrape_course_info (serving prelim_page)
      (get_db_manager "Fall 2024" "Prelim" ∅ ∅)
    = (Ok (Val "CS 2110 10/15 Statler Hall"), st1)
    /\ WebScraper.process_exam_data (file_name st1) st1 =
       (match parse_exam_file "Fall 2024" "Prelim"
                (readlines "CS 2110 10/15 Statler Hall") with
        | Ok rs => Ok (Val rs)
        | Raise e => Raise e
        end, st1).
Proof.
  exact (scraped_file_parses_to_body (serving prelim_page)
           (get_db_manager "Fall 2024" "Prelim" ∅ ∅) prelim_page
           "Fall 2024 Prelim Exam Schedule" "Course Date Location"
           "Fall" "2024" ["Prelim"; "Exam"; "Schedule"]
           eq_refl eq_refl eq_refl eq_refl eq_refl eq_refl eq_refl eq_refl).
Defined.

(** X9.  When the request fails, [scrape_course_info] prints the error and
    sets no file name, so that populate on a manager whose scraper has not
    scraped before raises [AssertionError] in [process_exam_data]: nothing
    is sent to the database, no table name is selected and no file is
    written. *)
Theorem populate_after_failed_request (env : Env) (st : State)
    (sem et : string) (e : exn) :
  requester env (url_of st) = Raise e ->
  file_name st = None ->
  DatabaseManager.populate_exam_table env sem et st =
  (Raise (Exn AssertionError ""),
   set_stdout
     (stdout st ++ ["Error scraping course information: " +:+ exn_msg e])
     st).
Proof.
  intros Hreq Hfn. unfold DatabaseManager.populate_exam_table.
  unfold mbind at 1, M_bind at 1.
  rewrite (scrape_course_info_request_fails env st e Hreq).
  unfold mbind at 1, M_bind at 1, gets at 1.
  unfold mbind at 1, M_bind at 1.
  cbn [file_name set_stdout]. by rewrite Hfn.
Qed.

Lemma populate_after_failed_request_witness :
  DatabaseManager.populate_exam_table
    {| requester := fun _ => Raise (Exn RequestException "404 Client Error");
       write_fault := fun _ => None;
       db_fault := fun _ => None |}
    "FA 2024" "prelim" (get_db_manager "FA 2024" "prelim" ∅ ∅)
  = (Raise (Exn AssertionError ""),
     set_stdout
       ([] ++ ["Error scraping course information: "
               +:+ "404 Client Error"])
       (get_db_manager "FA 2024" "prelim" ∅ ∅)).
Proof.
  exact (populate_after_failed_request
           {| requester := fun _ =>
                Raise (Exn RequestException "404 Client Error");
              write_fault := fun _ => None;
              db_fault := fun _ => None |}
           (get_db_manager "FA 2024" "prelim" ∅ ∅) "FA 2024" "prelim"
           (Exn RequestException "404 Client Error") eq_refl eq_refl).
Defined.

(** X10.  A heading of fewer than two tokens has no year: [parse_html]
    raises [IndexError] when it reads the second token, after it has set
    [exam_data_header] and before it sets the year and the file name or
    writes the file; [scrape_course_info] prints the error and returns
    [False]. *)
Theorem heading_without_year (env : Env) (st : State) (soup : Soup)
    (info hdr : string) :
  requester env (url_of st) = Ok soup ->
  h2_text soup = Some info ->
  strong_text soup = Some hdr ->
  length (split info) < 2 ->
  WebScraper.scrape_course_info env st =
  (Ok (Flag false),
   set_stdout
     (stdout st ++
        ["Error scraping course information: list index out of range"])
     (set_exam_data_header (Some (strip hdr)) st)).
Proof.
  intros Hreq Hh2 Hstrong Hlen.
  unfold WebScraper.scrape_course_info, WebScraper.generate_url,
    WebScraper.parse_html, WebScraper.error_response, print,
    try_except, mbind, M_bind, mret, M_ret, modify, gets, lift, raise.
  fold (url_of st). rewrite Hreq, Hh2, Hstrong.
  destruct (split info) as [|a [|b l]]; simpl in Hlen; try lia; done.
Qed.

Lemma heading_without_year_witness :
  WebScraper.scrape_course_info (serving (page "Prelims" "CS 2110 10/15"))
    (get_db_manager "FA 2024" "prelim" ∅ ∅)
  = (Ok (Flag false),
     set_stdout
       ([] ++
          ["Error scraping course information: list index out of range"])
       (set_exam_data_header (Some (strip "Course Date Location"))
          (get_db_manager "FA 2024" "prelim" ∅ ∅))).
Proof.
  refine (heading_without_year (serving (page "Prelims" "CS 2110 10/15"))
            (get_db_manager "FA 2024" "prelim" ∅ ∅)
            (page "Prelims" "CS 2110 10/15") "Prelims"
            "Course Date Location" eq_refl eq_refl eq_refl _).
  vm_compute. lia.
Defined.

(** The scrape when the file cannot be written. *)
Lemma scrape_course_info_unwritten (env : Env) (st : State) (soup : Soup)
    (info hdr a y : string) (more : list string) (f : WriteFault) :
  let fn := WebScraper.filename (semester st) y (exam_type st) in
  requester env (url_of st) = Ok soup ->
  h2_text soup = Some info ->
  strong_text soup = Some hdr ->
  split info = a :: y :: more ->
  write_fault env fn = Some f ->
  WebScraper.scrape_course_info env st =
  (Ok (Val (pre_text soup)),
   set_stdout
     (stdout st ++ ["Error saving data to file: " +:+ exn_msg (fault_exn f)])
     (set_files
        (after_fault f fn (info +:+ nl +:+ pre_text soup) (files st))
        (set_file_name (Some fn)
           (set_year (Some y)
              (set_exam_data_header (Some (strip hdr)) st))))).
Proof.
  intros fn Hreq Hh2 Hstrong Hsplit Hw.
  unfold WebScraper.scrape_course_info, WebScraper.generate_url,
    WebScraper.parse_html, WebScraper.save_to_text_file,
    WebScraper.error_response, print,
    try_except, mbind, M_bind, mret, M_ret, modify, gets, lift, raise.
  fold (url_of st). rewrite Hreq, Hh2, Hstrong, Hsplit.
  cbn [getitem lookup list_lookup].
  cbn [semester exam_type set_year set_exam_data_header set_file_name].
  fold fn. rewrite Hw. reflexivity.
Qed.

Lemma substring_nothing (s : string) : String.substring 0 0 s = "".
Proof. by destruct s. Qed.

(** X11.  When the artifact file cannot be written, the scrape still
    returns the schedule text and sets the file name, and what
    [process_exam_data] then parses is what the failure has left under
    that name: the older file when the file could not be opened (the
    files are as they were), and what had been written when the failure
    came after the file was opened, which is nothing, and so no record at
    all, when it came before the first character. *)
Theorem failed_write_decides_what_is_parsed (env : Env) (st : State)
    (soup : Soup) (info hdr a y : string) (more : list string)
    (f : WriteFault) :
  let fn := WebScraper.filename (semester st) y (exam_type st) in
  let data := info +:+ nl +:+ pre_text soup in
  let parsed content st1 :=
    (match parse_exam_file (semester st) (exam_type st) (readlines content)
     with
     | Ok rs => Ok (Val rs)
     | Raise e => Raise e
     end, st1) in
  requester env (url_of st) = Ok soup ->
  h2_text soup = Some info ->
  strong_text soup = Some hdr ->
  split info = a :: y :: more ->
  write_fault env fn = Some f ->
  exists st1,
    WebScraper.scrape_course_info env st = (Ok (Val (pre_text soup)), st1)
    /\ file_name st1 = Some fn
    /\ match f with
       | AtOpen _ =>
           files st1 = files st
           /\ forall old,
                files st !! fn = Some old ->
                WebScraper.process_exam_data (file_name st1) st1
                = parsed old st1
       | AtWrite _ written =>
           files st1 = <[ fn := String.substring 0 written data ]> (files st)
           /\ WebScraper.process_exam_data (file_name st1) st1
              = parsed (String.substring 0 written data) st1
           /\ (written = 0 ->
               WebScraper.process_exam_data (file_name st1) st1
               = (Ok (Val []), st1))
       end.
Proof.
  intros fn data parsed Hreq Hh2 Hstrong Hsplit Hw.
  eexists. split; [| split].
  - by apply (scrape_course_info_unwritten env st soup info hdr a y more f).
  - done.
  - set (st1 := set_stdout _ _).
    replace (file_name st1) with (Some fn) by reflexivity.
    destruct f as [e | e written].
    + split; [done |]. intros old Hold.
      by rewrite (process_exam_data_file st1 fn old).
    + assert (Hfile : files st1 !! fn
                      = Some (String.substring 0 written data)).
      { subst st1. cbn. fold fn. fold data. apply lookup_insert_eq. }
      split; [done |]. split.
      * by rewrite (process_exam_data_file st1 fn _ Hfile).
      * intros ->. rewrite substring_nothing in Hfile.
        by rewrite (process_exam_data_file st1 fn _ Hfile).
Qed.

Lemma failed_write_decides_what_is_parsed_witness :
  let env :=
    {| requester := fun _ => Ok prelim_page;
       write_fault := fun _ =>
         Some (AtWrite (Exn OSError "No space left on device") 0);
       db_fault := fun _ => None |} in
  let st :=
    get_db_manager "fall" "prelim"
      ∅ {[ "fall-2024-prelim-exams.txt" := "MATH 1920 9/30 Olin Hall" ]} in
  exists st1,
    WebScraper.scrape_course_info env st
    = (Ok (Val (pre_text prelim_page)), st1)
    /\ files st1 !! "fall-2024-prelim-exams.txt" = Some ""
    /\ WebScraper.process_exam_data (file_name st1) st1
       = (Ok (Val []), st1).
Proof.
  intros env st.
  destruct (failed_write_decides_what_is_parsed env st
              prelim_page "Fall 2024 Prelim Exam Schedule"
              "Course Date Location" "Fall" "2024"
              ["Prelim"; "Exam"; "Schedule"]
              (AtWrite (Exn OSError "No space left on device") 0)
              eq_refl eq_refl eq_refl eq_refl eq_refl)
    as (st1 & Hscrape & _ & Hfiles & _ & Hnone).
  exists st1. split; [exact Hscrape |]. split.
  - rewrite Hfiles. apply lookup_insert_eq.
  - by apply Hnone.
Defined.

End ScraperMore.

(** ** More on the store: fetching, deleting, updating *)

Section StoreMore.
Import Py.
Variable env : Env.

Lemma quiet_now (st : State) (k : nat) :
  quiet env st (S k) -> db_fault env (n_exec (conn st)) = None.
Proof.
  intros H. rewrite <- (Nat.add_0_r (n_exec (conn st))). apply H. lia.
Qed.

Lemma full_row_length (row : list Value) : full_row row -> length row = 3.
Proof. by intros (x & y & z & ->). Qed.

Lemma format_each_prelim (rows : list (list Value)) :
  Forall full_row rows ->
  DatabaseManager.format_each rows "prelim" = Ok (prelim_dict <$> rows).
Proof.
  induction 1 as [|row rows (x & y & z & ->) _ IH]; [done |].
  cbn [DatabaseManager.format_each]. rewrite IH. reflexivity.
Qed.

Lemma rows_with_full (code : Value) (rows : list (list Value)) :
  Forall full_row rows -> Forall full_row (rows_with code rows).
Proof.
  intros H. unfold rows_with. apply Forall_forall. intros row Hin.
  apply list_elem_of_In, filter_In in Hin as [Hin _].
  rewrite Forall_forall in H. by apply H, list_elem_of_In.
Qed.

(** The [SELECT] of [fetch_exam] on a prelim table. *)
Lemma execute_select_prelim (st : State) (t : string) (db : DB)
    (tb : Table) (code : Value) :
  on_prelim_table st t db tb ->
  db_fault env (n_exec (conn st)) = None ->
  DatabaseManager.execute env
    (SelectAllWhere (fmt (table_name st)) "course_code") [code] st
  = (Ok (rows_with code (rows tb)),
     set_conn (sent (conn st) (Some db)) st).
Proof.
  intros (Ht & Hw & Hl & Hc & _) Hf.
  unfold DatabaseManager.execute. rewrite Hf, Hw, Ht.
  cbn [fmt default from_option id]. unfold run_query.
  rewrite Hl, Hc. reflexivity.
Qed.

Lemma fetch_exam_prelim (st : State) (t : string) (db : DB) (tb : Table)
    (code : Value) :
  on_prelim_table st t db tb ->
  quiet env st 1 ->
  DatabaseManager.fetch_exam env code "prelim" st =
  (Ok (Val (prelim_dict <$> rows_with code (rows tb))),
   set_conn (sent (conn st) (Some db)) st).
Proof.
  intros Hon Hq. pose proof Hon as (Ht & Hw & Hl & Hc & Hrows).
  unfold DatabaseManager.fetch_exam, try_except.
  unfold mbind at 1, M_bind at 1.
  unfold mbind at 1, M_bind at 1, gets at 1.
  unfold mbind at 1, M_bind at 1.
  rewrite (execute_select_prelim st t db tb code Hon (quiet_now _ _ Hq)).
  unfold mbind, M_bind, lift, mret, M_ret.
  by rewrite format_each_prelim by (by apply rows_with_full).
Qed.

(** X12.  On a prelim table, [fetch_exam] with exam type "prelim" returns
    the rows whose course code is the one asked for, all of them, in the
    order of the table, each as a record of its three fields; it changes
    nothing in the tables. *)
Theorem fetch_exam_returns_matching_rows (st : State) (t : string)
    (db : DB) (tb : Table) (code : Value) :
  on_prelim_table st t db tb ->
  quiet env st 1 ->
  DatabaseManager.fetch_exam env code "prelim" st =
  (Ok (Val (prelim_dict <$> rows_with code (rows tb))),
   set_conn (sent (conn st) (Some db)) st)
  /\ Forall (fun d : gmap string Value => d !! "course_code" = Some code)
       (prelim_dict <$> rows_with code (rows tb)).
Proof.
  intros Hon Hq. pose proof Hon as (Ht & Hw & Hl & Hc & Hrows). split.
  - by apply (fetch_exam_prelim st t db tb).
  - apply Forall_fmap, Forall_forall. intros row Hin.
    apply list_elem_of_In, filter_In in Hin as [Hin Hm].
    rewrite Forall_forall in Hrows.
    destruct (Hrows row) as (x & y & z & ->); [by apply list_elem_of_In |].
    unfold prelim_dict. cbn. rewrite lookup_insert_eq.
    destruct code as [c |]; [| done]. cbn in Hm.
    by apply String.eqb_eq in Hm as ->.
Qed.

Lemma quiet_next (st st1 : State) (k : nat) :
  quiet env st (S k) ->
  n_exec (conn st1) = S (n_exec (conn st)) ->
  quiet env st1 k.
Proof.
  intros H Hn i Hi. rewrite Hn.
  replace (S (n_exec (conn st)) + i) with (n_exec (conn st) + S i) by lia.
  apply H. lia.
Qed.

(** [insert_exam] on a prelim table: the row is appended and committed,
    and the manager is on the longer table. *)
Lemma insert_exam_on_table (st : State) (t : string) (db : DB) (tb : Table)
    (et a b c : string) (time test_type : Value) :
  on_prelim_table st t db tb ->
  plain_name t ->
  lower et = "prelim" ->
  db_fault env (n_exec (conn st)) = None ->
  exists st1,
    DatabaseManager.insert_exam env (Some a) (Some b) (Some c) et
      time test_type st = (Ok true, st1)
    /\ on_prelim_table st1 t
         (append_rows t [[Some a; Some b; Some c]] db)
         {| columns := columns tb;
            rows := rows tb ++ [[Some a; Some b; Some c]] |}
    /\ n_exec (conn st1) = S (n_exec (conn st))
    /\ committed (conn st1) = append_rows t [[Some a; Some b; Some c]] db.
Proof.
  intros (Ht & Hw & Hl & Hc & Hrows) Hplain Het Hf.
  eexists. split.
  - by apply (insert_exam_prelim_ok env st et t t db tb a b c).
  - unfold on_prelim_table. split_and!; try done.
    + by apply append_rows_lookup.
    + cbn. apply Forall_app. split; [done |].
      constructor; [by exists a, b, c | constructor].
Qed.

Lemma rows_with_app (code : Value) (r1 r2 : list (list Value)) :
  rows_with code (r1 ++ r2) = rows_with code r1 ++ rows_with code r2.
Proof. unfold rows_with. apply List.filter_app. Qed.

Lemma rows_with_same (a b c : string) :
  rows_with (Some a) [[Some a; Some b; Some c]] = [[Some a; Some b; Some c]].
Proof. unfold rows_with. cbn. by rewrite String.eqb_refl. Qed.

(** X13.  A round trip through the store: on a prelim table whose name
    the server reads bare as it reads it between quotes, the record that
    [insert_exam] has stored is what [fetch_exam] gives back for its
    course code, after the records that were there for that code. *)
Theorem insert_then_fetch (st : State) (t : string) (db : DB) (tb : Table)
    (et a b c : string) (time test_type : Value) :
  on_prelim_table st t db tb ->
  plain_name t ->
  lower et = "prelim" ->
  quiet env st 2 ->
  exists st1,
    DatabaseManager.insert_exam env (Some a) (Some b) (Some c) et
      time test_type st = (Ok true, st1)
    /\ fst (DatabaseManager.fetch_exam env (Some a) "prelim" st1) =
       Ok (Val ((prelim_dict <$> rows_with (Some a) (rows tb))
                ++ [ {[ "course_code" := Some a; "exam_date" := Some b;
                        "exam_locations" := Some c ]} ])).
Proof.
  intros Hon Hplain Het Hq.
  destruct (insert_exam_on_table st t db tb et a b c time test_type Hon
              Hplain Het (quiet_now _ _ Hq))
    as (st1 & Hins & Hon1 & Hn1 & _).
  exists st1. split; [done |].
  rewrite (fetch_exam_prelim st1 t _ _ (Some a) Hon1)
    by (by eapply quiet_next).
  cbn [fst rows]. by rewrite rows_with_app, rows_with_same, fmap_app.
Qed.

(** X14.  The store keeps no course code unique: on a prelim table whose
    name the server reads bare as it reads it between quotes, the same
    record inserted twice is stored twice, and [fetch_exam] returns it
    twice. *)
Theorem insert_twice_stores_two_rows (st : State) (t : string) (db : DB)
    (tb : Table) (et a b c : string) (time test_type : Value) :
  on_prelim_table st t db tb ->
  plain_name t ->
  lower et = "prelim" ->
  quiet env st 3 ->
  exists st1 st2,
    DatabaseManager.insert_exam env (Some a) (Some b) (Some c) et
      time test_type st = (Ok true, st1)
    /\ DatabaseManager.insert_exam env (Some a) (Some b) (Some c) et
         time test_type st1 = (Ok true, st2)
    /\ fst (DatabaseManager.fetch_exam env (Some a) "prelim" st2) =
       Ok (Val ((prelim_dict <$> rows_with (Some a) (rows tb))
                ++ [ {[ "course_code" := Some a; "exam_date" := Some b;
                        "exam_locations" := Some c ]};
                     {[ "course_code" := Some a; "exam_date" := Some b;
                        "exam_locations" := Some c ]} ])).
Proof.
  intros Hon Hplain Het Hq.
  destruct (insert_exam_on_table st t db tb et a b c time test_type Hon
              Hplain Het (quiet_now _ _ Hq))
    as (st1 & Hins1 & Hon1 & Hn1 & _).
  pose proof (quiet_next st st1 2 Hq Hn1) as Hq1.
  destruct (insert_exam_on_table st1 t _ _ et a b c time test_type Hon1
              Hplain Het (quiet_now _ _ Hq1))
    as (st2 & Hins2 & Hon2 & Hn2 & _).
  exists st1, st2. split; [done |]. split; [done |].
  rewrite (fetch_exam_prelim st2 t _ _ (Some a) Hon2)
    by (by eapply quiet_next).
  cbn [fst rows columns].
  rewrite !rows_with_app, !rows_with_same, !fmap_app, <- app_assoc.
  reflexivity.
Qed.

(** [delete_exam] on a prelim table. *)
Lemma delete_exam_on_table (st : State) (t : string) (db : DB) (tb : Table)
    (code : Value) :
  on_prelim_table st t db tb ->
  db_fault env (n_exec (conn st)) = None ->
  let db' := <[ t := {| columns := columns tb;
                        rows := rows_without 0 code (rows tb) |} ]> db in
  exists st1,
    DatabaseManager.delete_exam env code st = (Ok true, st1)
    /\ on_prelim_table st1 t db'
         {| columns := columns tb;
            rows := rows_without 0 code (rows tb) |}
    /\ n_exec (conn st1) = S (n_exec (conn st))
    /\ committed (conn st1) = db'.
Proof.
  intros (Ht & Hw & Hl & Hc & Hrows) Hf db'.
  unfold DatabaseManager.delete_exam, try_except.
  unfold mbind, M_bind, gets, DatabaseManager.execute_statement.
  rewrite Hf, Hw, Ht. cbn [fmt default from_option id].
  unfold run_statement. rewrite Hl, Hc.
  change (index_of "course_code" prelim_columns) with (Some 0).
  cbn iota beta. eexists. split; [reflexivity |].
  subst db'. rewrite Hc. unfold on_prelim_table. split_and!; try done.
  - apply lookup_insert_eq.
  - cbn [rows]. unfold rows_without. apply Forall_forall. intros row Hin.
    apply list_elem_of_In, filter_In in Hin as [Hin _].
    rewrite Forall_forall in Hrows. by apply Hrows, list_elem_of_In.
Qed.

Lemma rows_with_without_same (code : Value) (rows : list (list Value)) :
  rows_with code (rows_without 0 code rows) = [].
Proof.
  unfold rows_with, rows_without.
  induction rows as [|row rows IH]; [done |]. cbn [List.filter].
  destruct (row_matches 0 code row) eqn:Hm; cbn [negb]; [done |].
  cbn [List.filter]. by rewrite Hm.
Qed.

Lemma row_matches_other (code other : Value) (row : list Value) :
  other <> code ->
  row_matches 0 other row = true -> row_matches 0 code row = false.
Proof.
  unfold row_matches. intros Hne.
  destruct other as [o |]; [| done].
  destruct (row !! 0) as [[x |] |]; try done.
  intros ->%String.eqb_eq. destruct code as [c |]; [| done].
  apply String.eqb_neq. congruence.
Qed.

Lemma rows_with_without_other (code other : Value)
    (rows : list (list Value)) :
  other <> code ->
  rows_with other (rows_without 0 code rows) = rows_with other rows.
Proof.
  intros Hne. unfold rows_with, rows_without.
  induction rows as [|row rows IH]; [done |]. cbn [List.filter].
  destruct (row_matches 0 other row) eqn:Ho.
  - rewrite (row_matches_other code other row Hne Ho). cbn [negb List.filter].
    by rewrite Ho, IH.
  - destruct (row_matches 0 code row); cbn [negb List.filter];
      [done | by rewrite Ho].
Qed.

(** X15.  On a prelim table, [delete_exam] removes the rows of its course
    code and no other: afterwards [fetch_exam] finds nothing for that
    code, and for every other code what it found before. *)
Theorem delete_removes_that_code_only (st : State) (t : string) (db : DB)
    (tb : Table) (code : Value) :
  on_prelim_table st t db tb ->
  quiet env st 2 ->
  exists st1,
    DatabaseManager.delete_exam env code st = (Ok true, st1)
    /\ fst (DatabaseManager.fetch_exam env code "prelim" st1) = Ok (Val [])
    /\ forall other,
         other <> code ->
         fst (DatabaseManager.fetch_exam env other "prelim" st1) =
         Ok (Val (prelim_dict <$> rows_with other (rows tb))).
Proof.
  intros Hon Hq.
  destruct (delete_exam_on_table st t db tb code Hon (quiet_now _ _ Hq))
    as (st1 & Hdel & Hon1 & Hn1 & _).
  pose proof (quiet_next st st1 1 Hq Hn1) as Hq1.
  exists st1. split; [done |]. split.
  - rewrite (fetch_exam_prelim st1 t _ _ code Hon1 Hq1). cbn [fst rows].
    by rewrite rows_with_without_same.
  - intros other Hne.
    rewrite (fetch_exam_prelim st1 t _ _ other Hon1 Hq1). cbn [fst rows].
    by rewrite rows_with_without_other.
Qed.

Lemma rows_without_absent (code : Value) (rows : list (list Value)) :
  rows_with code rows = [] -> rows_without 0 code rows = rows.
Proof.
  unfold rows_with, rows_without.
  induction rows as [|row rows IH]; [done |]. cbn [List.filter].
  destruct (row_matches 0 code row); [done |]. cbn [negb].
  intros H. by rewrite IH.
Qed.

(** X16.  Deleting a course code that no row has is no error: on a prelim
    table [delete_exam] returns [True] and leaves the database as it
    was. *)
Theorem delete_absent_code_changes_nothing (st : State) (t : string)
    (db : DB) (tb : Table) (code : Value) :
  on_prelim_table st t db tb ->
  quiet env st 1 ->
  rows_with code (rows tb) = [] ->
  exists st1,
    DatabaseManager.delete_exam env code st = (Ok true, st1)
    /\ committed (conn st1) = db
    /\ working (conn st1) = Some db.
Proof.
  intros Hon Hq Habs.
  destruct (delete_exam_on_table st t db tb code Hon (quiet_now _ _ Hq))
    as (st1 & Hdel & Hon1 & _ & Hcm).
  assert (Hdb : <[ t := {| columns := columns tb;
                           rows := rows_without 0 code (rows tb) |} ]> db
                = db).
  { rewrite rows_without_absent by done. apply insert_id.
    destruct Hon as (_ & _ & -> & _). by destruct tb. }
  exists st1. split; [done |]. split; [by rewrite Hcm |].
  destruct Hon1 as (_ & -> & _). by rewrite Hdb.
Qed.

(** [delete_all_exams] on a prelim table. *)
Lemma delete_all_on_table (st : State) (t : string) (db : DB) (tb : Table) :
  on_prelim_table st t db tb ->
  db_fault env (n_exec (conn st)) = None ->
  let db' := <[ t := {| columns := columns tb; rows := [] |} ]> db in
  exists st1,
    DatabaseManager.delete_all_exams env st = (Ok true, st1)
    /\ on_prelim_table st1 t db' {| columns := columns tb; rows := [] |}
    /\ n_exec (conn st1) = S (n_exec (conn st))
    /\ committed (conn st1) = db'.
Proof.
  intros (Ht & Hw & Hl & Hc & Hrows) Hf db'.
  unfold DatabaseManager.delete_all_exams, try_except.
  unfold mbind, M_bind, gets, DatabaseManager.execute_statement.
  rewrite Hf, Hw, Ht. cbn [fmt default from_option id].
  unfold run_statement. rewrite Hl.
  eexists. split; [reflexivity |].
  unfold on_prelim_table. split_and!; try done.
  apply lookup_insert_eq.
Qed.

(** X17.  On a prelim table, after [delete_all_exams] the table is still
    there with its columns and without rows, [fetch_exam] finds nothing
    for any course code, and every other table is as it was. *)
Theorem delete_all_empties_the_table (st : State) (t : string) (db : DB)
    (tb : Table) :
  on_prelim_table st t db tb ->
  quiet env st 2 ->
  exists st1,
    DatabaseManager.delete_all_exams env st = (Ok true, st1)
    /\ committed (conn st1) !! t
       = Some {| columns := columns tb; rows := [] |}
    /\ (forall t', t' <> t -> committed (conn st1) !! t' = db !! t')
    /\ forall code,
         fst (DatabaseManager.fetch_exam env code "prelim" st1)
         = Ok (Val []).
Proof.
  intros Hon Hq.
  destruct (delete_all_on_table st t db tb Hon (quiet_now _ _ Hq))
    as (st1 & Hdel & Hon1 & Hn1 & Hcm).
  pose proof (quiet_next st st1 1 Hq Hn1) as Hq1.
  exists st1. split; [done |]. rewrite Hcm. split_and!.
  - apply lookup_insert_eq.
  - intros t' Hne. by rewrite lookup_insert_ne.
  - intros code. by rewrite (fetch_exam_prelim st1 t _ _ code Hon1 Hq1).
Qed.

Lemma first_fields_singletons (l : list Value) :
  DatabaseManager.first_fields ((fun v => [v]) <$> l) = Ok l.
Proof.
  induction l as [|v l IH]; [done |].
  cbn [fmap list_fmap DatabaseManager.first_fields]. rewrite IH. done.
Qed.

(** X18.  On a prelim table whose name the server reads bare as it reads
    it between quotes, [fetch_all_courses] returns every course code that
    some row has, each one once. *)
Theorem fetch_all_courses_distinct (st : State) (t : string) (db : DB)
    (tb : Table) :
  on_prelim_table st t db tb ->
  plain_name t ->
  quiet env st 1 ->
  exists l,
    fst (DatabaseManager.fetch_all_courses env st) = Ok (Val l)
    /\ NoDup l
    /\ forall v, v ∈ l <-> exists row, row ∈ rows tb /\ row !! 0 = Some v.
Proof.
  intros (Ht & Hw & Hl & Hc & Hrows) Hplain Hq.
  exists (distinct_values 0 (rows tb)). split_and!.
  - unfold DatabaseManager.fetch_all_courses, try_except.
    unfold mbind at 1, M_bind at 1, gets at 1.
    unfold mbind at 1, M_bind at 1, DatabaseManager.execute_statement.
    rewrite (quiet_now _ _ Hq), Hw, Ht. cbn [fmt default from_option id].
    unfold run_statement. rewrite Hplain. cbn [mbind result_bind].
    rewrite Hl, Hc. unfold mbind, M_bind, lift, mret, M_ret.
    change (index_of "course_code" prelim_columns) with (Some 0).
    cbn iota beta. by rewrite first_fields_singletons.
  - apply NoDup_remove_dups.
  - intros v. unfold distinct_values.
    rewrite elem_of_remove_dups, list_elem_of_fmap. split.
    + intros (row & -> & Hin). exists row. split; [done |].
      rewrite Forall_forall in Hrows.
      by destruct (Hrows row Hin) as (x & y & z & ->).
    + intros (row & Hin & Hv). exists row. by rewrite Hv.
Qed.

(** The loop of [fetch_k_exams] on a prelim table. *)
Lemma fetch_each_prelim (t : string) (db : DB) (tb : Table)
    (codes : list Value) :
  forall (st : State) (acc : list (gmap string Value)),
    on_prelim_table st t db tb ->
    quiet env st (length codes) ->
    exists st',
      DatabaseManager.fetch_each env codes "prelim" acc st =
      (Ok (acc ++ omap (fun code => prelim_dict
                                      <$> head (rows_with code (rows tb)))
                    codes), st').
Proof.
  induction codes as [|code codes IH]; intros st acc Hon Hq.
  - eexists. cbn. by rewrite app_nil_r.
  - cbn [DatabaseManager.fetch_each length] in *.
    unfold mbind at 1, M_bind at 1, gets at 1.
    unfold mbind at 1, M_bind at 1.
    rewrite (execute_select_prelim st t db tb code Hon (quiet_now _ _ Hq)).
    set (st1 := set_conn _ st).
    assert (Hon1 : on_prelim_table st1 t db tb).
    { destruct Hon as (Ht & Hw & Hl & Hc & Hrows).
      unfold on_prelim_table. by split_and!. }
    assert (Hq1 : quiet env st1 (length codes))
      by (by apply (quiet_next st st1)).
    pose proof (rows_with_full code (rows tb)) as Hfull.
    destruct Hon as (_ & _ & _ & _ & Hrows). specialize (Hfull Hrows).
    cbn [omap list_omap].
    destruct (rows_with code (rows tb)) as [|row more].
    + cbn [head fmap option_fmap option_map]. by apply IH.
    + apply Forall_cons in Hfull as [(x & y & z & ->) _].
      cbn [head fmap option_fmap option_map].
      unfold mbind at 1, M_bind at 1, lift at 1.
      change (DatabaseManager.format_exam_record
                [Some x; Some y; Some z] "prelim")
        with (Ok (prelim_dict [Some x; Some y; Some z])).
      destruct (IH st1 (acc ++ [prelim_dict [Some x; Some y; Some z]])
                  Hon1 Hq1) as [st' ->].
      eexists. by rewrite <- app_assoc.
Qed.

(** X19.  On a prelim table, [fetch_k_exams] returns, in the order of the
    course codes it is given, the first row of each code that has a row;
    a code without a row adds nothing. *)
Theorem fetch_k_exams_first_matches (st : State) (t : string) (db : DB)
    (tb : Table) (codes : list Value) :
  on_prelim_table st t db tb ->
  quiet env st (length codes) ->
  fst (DatabaseManager.fetch_k_exams env codes "prelim" st) =
  Ok (Val (omap (fun code => prelim_dict
                               <$> head (rows_with code (rows tb)))
             codes)).
Proof.
  intros Hon Hq. unfold DatabaseManager.fetch_k_exams, try_except.
  unfold mbind, M_bind.
  by destruct (fetch_each_prelim t db tb codes st [] Hon Hq) as [st' ->].
Qed.



(** X21.  [CREATE TABLE IF NOT EXISTS]: on the prelim path, when the
    server accepts the name [create_exam_table] builds and the table of
    that name, as the server reads it, is there already,
    [create_exam_table] succeeds, selects the name as it built it, and
    leaves the database, and with it the rows of that table, as it
    was. *)
Theorem create_exam_table_keeps_rows (st : State) (sem et : string)
    (y : option string) (db : DB) (tb : Table) (n : string) :
  lower et = "prelim" ->
  working (conn st) = Some db ->
  unquoted_name (sem +:+ "_" +:+ fmt y +:+ "_" +:+ et +:+ "_exams") = Ok n ->
  db !! n = Some tb ->
  quiet env st 1 ->
  exists st1,
    DatabaseManager.create_exam_table env sem et y st = (Ok true, st1)
    /\ table_name st1
       = Some (sem +:+ "_" +:+ fmt y +:+ "_" +:+ et +:+ "_exams")
    /\ committed (conn st1) = db
    /\ working (conn st1) = Some db.
Proof.
  intros Het Hw Hn Hl Hq.
  rewrite (create_exam_table_prelim_ok env st sem et y db n Het Hw
             (quiet_now _ _ Hq) Hn).
  eexists. split; [reflexivity |]. cbn.
  unfold committing, with_prelim_table. cbn. by rewrite Hl.
Qed.

(** X22.  [fetch_exam] compares the exam type as it is written, where
    [insert_exam] lower-cases it: with an exam type such as "Prelim" the
    record is inserted (on a prelim table whose name the server reads bare
    as it reads it between quotes), and fetching its course code with
    that same exam type raises [ValueError]. *)
Theorem fetch_exam_is_case_sensitive (st : State) (t : string) (db : DB)
    (tb : Table) (et a b c : string) (time test_type : Value) :
  on_prelim_table st t db tb ->
  plain_name t ->
  lower et = "prelim" ->
  et <> "prelim" ->
  quiet env st 2 ->
  exists st1,
    DatabaseManager.insert_exam env (Some a) (Some b) (Some c) et
      time test_type st = (Ok true, st1)
    /\ fst (DatabaseManager.fetch_exam env (Some a) et st1)
       = Raise (Exn ValueError "Unknown exam type").
Proof.
  intros Hon Hplain Het Hne Hq.
  destruct (insert_exam_on_table st t db tb et a b c time test_type Hon
              Hplain Het (quiet_now _ _ Hq))
    as (st1 & Hins & Hon1 & Hn1 & _).
  pose proof (quiet_next st st1 1 Hq Hn1) as Hq1.
  exists st1. split; [done |].
  assert (Hnf : et <> "final") by (intros ->; discriminate Het).
  rewrite (fetch_exam_unknown env st1 _ (Some a) et _ Hne Hnf
             (execute_select_prelim st1 t _ _ (Some a) Hon1
                (quiet_now _ _ Hq1))).
  cbn [rows fst]. rewrite rows_with_app, rows_with_same.
  by destruct (rows_with (Some a) (rows tb)).
Qed.

(** The [SELECT] of [fetch_exam] when the selected table is not there. *)
Lemma fetch_exam_no_table (st : State) (db : DB) (code : Value)
    (et : string) :
  working (conn st) = Some db ->
  db !! fmt (table_name st) = None ->
  db_fault env (n_exec (conn st)) = None ->
  DatabaseManager.fetch_exam env code et st =
  (Raise (Exn ProgrammingError "relation does not exist"),
   set_conn (sent (conn st) None) st).
Proof.
  intros Hw Hl Hf.
  unfold DatabaseManager.fetch_exam, try_except, mbind, M_bind, gets,
    DatabaseManager.execute.
  rewrite Hf, Hw. unfold run_query. by rewrite Hl.
Qed.

(** X27.  [insert_exam] writes the selected table name bare and
    [fetch_exam] writes it between quotes.  When the server reads the bare
    name as another name than the one selected (a name with a capital
    letter) and the database has a prelim table under the name as read,
    but none under the name as selected, the record is inserted into the
    former, and [fetch_exam] on the same manager finds no table: it
    passes the server's "relation does not exist" on to its caller. *)
Theorem folded_table_is_not_fetched (st : State) (t n : string) (db : DB)
    (tb : Table) (et a b c : string) (time test_type : Value) :
  table_name st = Some t ->
  unquoted_name t = Ok n ->
  n <> t ->
  working (conn st) = Some db ->
  db !! n = Some tb ->
  columns tb = prelim_columns ->
  db !! t = None ->
  lower et = "prelim" ->
  quiet env st 2 ->
  exists st1,
    DatabaseManager.insert_exam env (Some a) (Some b) (Some c) et
      time test_type st = (Ok true, st1)
    /\ committed (conn st1) !! n
       = Some {| columns := columns tb;
                 rows := rows tb ++ [[Some a; Some b; Some c]] |}
    /\ forall code et',
         fst (DatabaseManager.fetch_exam env code et' st1)
         = Raise (Exn ProgrammingError "relation does not exist").
Proof.
  intros Ht Hn Hne Hw Hl Hc Hnone Het Hq.
  rewrite (insert_exam_prelim_ok env st et t n db tb a b c time test_type
             Het Ht Hn Hw Hl Hc (quiet_now _ _ Hq)).
  eexists. split; [reflexivity |]. split.
  - cbn. by apply append_rows_lookup.
  - intros code et'.
    rewrite (fetch_exam_no_table _
               (append_rows n [[Some a; Some b; Some c]] db) code et');
      [done | done | |].
    + cbn. rewrite Ht. cbn. unfold append_rows. rewrite Hl.
      by rewrite lookup_insert_ne.
    + cbn. rewrite <- (Hq 1) by lia. f_equal. lia.
Qed.

(** X23.  For a name the server reads bare as it reads it between quotes,
    [delete_table] drops the table whether it is there or not, and
    commits; when it was the selected table, [fetch_exam] afterwards
    passes the server's "relation does not exist" on to its caller as an
    exception, whatever the course code and the exam type. *)
Theorem delete_table_then_fetch (st : State) (t : string) (db : DB) :
  table_name st = Some t ->
  plain_name t ->
  working (conn st) = Some db ->
  quiet env st 2 ->
  exists st1,
    DatabaseManager.delete_table env t st = (Ok true, st1)
    /\ committed (conn st1) = delete t db
    /\ forall code et,
         fst (DatabaseManager.fetch_exam env code et st1)
         = Raise (Exn ProgrammingError "relation does not exist").
Proof.
  intros Ht Hplain Hw Hq.
  unfold DatabaseManager.delete_table, try_except.
  unfold mbind at 1, M_bind at 1, DatabaseManager.execute_statement.
  rewrite (quiet_now _ _ Hq), Hw. cbn [run_statement]. rewrite Hplain.
  cbn [mbind result_bind]. unfold mbind, M_bind.
  eexists. split; [reflexivity |]. split; [reflexivity |].
  intros code et.
  rewrite (fetch_exam_no_table _ (delete t db) code et); [done | done | |].
  - cbn. rewrite Ht. cbn. apply lookup_delete_eq.
  - cbn. rewrite <- (Hq 1) by lia. f_equal. lia.
Qed.

End StoreMore.

(** ** The store on a table of two exams *)

Section StoreScenarios.
Import Py.

Lemma prelim_manager_on_table :
  on_prelim_table prelim_manager "fall_2024_prelim_exams" prelim_db
    prelim_table.
Proof.
  unfold on_prelim_table. split_and!; try reflexivity.
  repeat (constructor; [by eexists _, _, _ |]). constructor.
Defined.

Lemma serving_quiet (soup : Soup) (st : State) (k : nat) :
  quiet (serving soup) st k.
Proof. intros i _. reflexivity. Defined.

Lemma prelim_table_plain_name : plain_name "fall_2024_prelim_exams".
Proof. reflexivity. Defined.

Lemma fetch_exam_returns_matching_rows_witness :
  DatabaseManager.fetch_exam (serving prelim_page) (Some "CS 2110") "prelim"
    prelim_manager =
  (Ok (Val (prelim_dict <$> rows_with (Some "CS 2110") (rows prelim_table))),
   set_conn (sent (conn prelim_manager) (Some prelim_db)) prelim_manager)
  /\ Forall (fun d : gmap string Value =>
               d !! "course_code" = Some (Some "CS 2110"))
       (prelim_dict <$> rows_with (Some "CS 2110") (rows prelim_table)).
Proof.
  exact (fetch_exam_returns_matching_rows (serving prelim_page)
           prelim_manager "fall_2024_prelim_exams" prelim_db prelim_table
           (Some "CS 2110") prelim_manager_on_table
           (serving_quiet prelim_page prelim_manager 1)).
Defined.

Lemma insert_then_fetch_witness :
  exists st1,
    DatabaseManager.insert_exam (serving prelim_page) (Some "PHYS 1112")
      (Some "10/22") (Some "Rockefeller Hall") "prelim" None None
      prelim_manager = (Ok true, st1)
    /\ fst (DatabaseManager.fetch_exam (serving prelim_page)
              (Some "PHYS 1112") "prelim" st1) =
       Ok (Val ((prelim_dict
                   <$> rows_with (Some "PHYS 1112") (rows prelim_table))
                ++ [ {[ "course_code" := Some "PHYS 1112";
                        "exam_date" := Some "10/22";
                        "exam_locations" := Some "Rockefeller Hall" ]} ])).
Proof.
  exact (insert_then_fetch (serving prelim_page) prelim_manager
           "fall_2024_prelim_exams" prelim_db prelim_table "prelim"
           "PHYS 1112" "10/22" "Rockefeller Hall" None None
           prelim_manager_on_table prelim_table_plain_name eq_refl
           (serving_quiet prelim_page prelim_manager 2)).
Defined.

Lemma insert_twice_stores_two_rows_witness :
  exists st1 st2,
    DatabaseManager.insert_exam (serving prelim_page) (Some "CS 2110")
      (Some "10/15") (Some "Statler Hall") "prelim" None None
      prelim_manager = (Ok true, st1)
    /\ DatabaseManager.insert_exam (serving prelim_page) (Some "CS 2110")
         (Some "10/15") (Some "Statler Hall") "prelim" None None st1
       = (Ok true, st2)
    /\ fst (DatabaseManager.fetch_exam (serving prelim_page)
              (Some "CS 2110") "prelim" st2) =
       Ok (Val ((prelim_dict
                   <$> rows_with (Some "CS 2110") (rows prelim_table))
                ++ [ {[ "course_code" := Some "CS 2110";
                        "exam_date" := Some "10/15";
                        "exam_locations" := Some "Statler Hall" ]};
                     {[ "course_code" := Some "CS 2110";
                        "exam_date" := Some "10/15";
                        "exam_locations" := Some "Statler Hall" ]} ])).
Proof.
  exact (insert_twice_stores_two_rows (serving prelim_page) prelim_manager
           "fall_2024_prelim_exams" prelim_db prelim_table "prelim"
           "CS 2110" "10/15" "Statler Hall" None None
           prelim_manager_on_table prelim_table_plain_name eq_refl
           (serving_quiet prelim_page prelim_manager 3)).
Defined.

Lemma delete_removes_that_code_only_witness :
  exists st1,
    DatabaseManager.delete_exam (serving prelim_page) (Some "CS 2110")
      prelim_manager = (Ok true, st1)
    /\ fst (DatabaseManager.fetch_exam (serving prelim_page)
              (Some "CS 2110") "prelim" st1) = Ok (Val [])
    /\ forall other,
         other <> Some "CS 2110" ->
         fst (DatabaseManager.fetch_exam (serving prelim_page) other
                "prelim" st1) =
         Ok (Val (prelim_dict <$> rows_with other (rows prelim_table))).
Proof.
  exact (delete_removes_that_code_only (serving prelim_page) prelim_manager
           "fall_2024_prelim_exams" prelim_db prelim_table (Some "CS 2110")
           prelim_manager_on_table
           (serving_quiet prelim_page prelim_manager 2)).
Defined.

Lemma delete_absent_code_changes_nothing_witness :
  exists st1,
    DatabaseManager.delete_exam (serving prelim_page) (Some "CHEM 2070")
      prelim_manager = (Ok true, st1)
    /\ committed (conn st1) = prelim_db
    /\ working (conn st1) = Some prelim_db.
Proof.
  exact (delete_absent_code_changes_nothing (serving prelim_page)
           prelim_manager "fall_2024_prelim_exams" prelim_db prelim_table
           (Some "CHEM 2070") prelim_manager_on_table
           (serving_quiet prelim_page prelim_manager 1) eq_refl).
Defined.

Lemma delete_all_empties_the_table_witness :
  exists st1,
    DatabaseManager.delete_all_exams (serving prelim_page) prelim_manager
    = (Ok true, st1)
    /\ committed (conn st1) !! "fall_2024_prelim_exams"
       = Some {| columns := columns prelim_table; rows := [] |}
    /\ (forall t', t' <> "fall_2024_prelim_exams" ->
                   committed (conn st1) !! t' = prelim_db !! t')
    /\ forall code,
         fst (DatabaseManager.fetch_exam (serving prelim_page) code
                "prelim" st1) = Ok (Val []).
Proof.
  exact (delete_all_empties_the_table (serving prelim_page) prelim_manager
           "fall_2024_prelim_exams" prelim_db prelim_table
           prelim_manager_on_table
           (serving_quiet prelim_page prelim_manager 2)).
Defined.

Lemma fetch_all_courses_distinct_witness :
  exists l,
    fst (DatabaseManager.fetch_all_courses (serving prelim_page)
           prelim_manager) = Ok (Val l)
    /\ NoDup l
    /\ forall v, v ∈ l <->
                 exists row, row ∈ rows prelim_table /\ row !! 0 = Some v.
Proof.
  exact (fetch_all_courses_distinct (serving prelim_page) prelim_manager
           "fall_2024_prelim_exams" prelim_db prelim_table
           prelim_manager_on_table prelim_table_plain_name
           (serving_quiet prelim_page prelim_manager 1)).
Defined.

Lemma fetch_k_exams_first_matches_witness :
  fst (DatabaseManager.fetch_k_exams (serving prelim_page)
         [Some "MATH 1920"; Some "CHEM 2070"; Some "CS 2110"] "prelim"
         prelim_manager) =
  Ok (Val (omap (fun code => prelim_dict
                               <$> head (rows_with code (rows prelim_table)))
             [Some "MATH 1920"; Some "CHEM 2070"; Some "CS 2110"])).
Proof.
  exact (fetch_k_exams_first_matches (serving prelim_page) prelim_manager
           "fall_2024_prelim_exams" prelim_db prelim_table
           [Some "MATH 1920"; Some "CHEM 2070"; Some "CS 2110"]
           prelim_manager_on_table
           (serving_quiet prelim_page prelim_manager 3)).
Defined.


Lemma create_exam_table_keeps_rows_witness :
  exists st1,
    DatabaseManager.create_exam_table (serving prelim_page) "fall" "prelim"
      (Some "2024") prelim_manager = (Ok true, st1)
    /\ table_name st1
       = Some ("fall" +:+ "_" +:+ fmt (Some "2024") +:+ "_" +:+ "prelim"
               +:+ "_exams")
    /\ committed (conn st1) = prelim_db
    /\ working (conn st1) = Some prelim_db.
Proof.
  refine (create_exam_table_keeps_rows (serving prelim_page) prelim_manager
            "fall" "prelim" (Some "2024") prelim_db prelim_table
            "fall_2024_prelim_exams"
            eq_refl eq_refl prelim_table_plain_name _
            (serving_quiet prelim_page prelim_manager 1)).
  vm_cast_no_check (@eq_refl _ (Some prelim_table)).
Defined.

Lemma fetch_exam_is_case_sensitive_witness :
  exists st1,
    DatabaseManager.insert_exam (serving prelim_page) (Some "PHYS 1112")
      (Some "10/22") (Some "Rockefeller Hall") "Prelim" None None
      prelim_manager = (Ok true, st1)
    /\ fst (DatabaseManager.fetch_exam (serving prelim_page)
              (Some "PHYS 1112") "Prelim" st1)
       = Raise (Exn ValueError "Unknown exam type").
Proof.
  refine (fetch_exam_is_case_sensitive (serving prelim_page) prelim_manager
            "fall_2024_prelim_exams" prelim_db prelim_table "Prelim"
            "PHYS 1112" "10/22" "Rockefeller Hall" None None
            prelim_manager_on_table prelim_table_plain_name eq_refl _
            (serving_quiet prelim_page prelim_manager 2)).
  discriminate.
Defined.

Lemma folded_table_is_not_fetched_witness :
  let db : DB := {[ "fa_2024_prelim_exams" :=
                      {| columns := prelim_columns; rows := [] |} ]} in
  let st := set_table_name (Some "FA_2024_prelim_exams")
              (get_db_manager "FA" "prelim" db ∅) in
  exists st1,
    DatabaseManager.insert_exam (serving prelim_page) (Some "CS 2110")
      (Some "10/15") (Some "Statler Hall") "prelim" None None st
    = (Ok true, st1)
    /\ committed (conn st1) !! "fa_2024_prelim_exams"
       = Some {| columns := prelim_columns;
                 rows := [] ++ [[Some "CS 2110"; Some "10/15";
                                 Some "Statler Hall"]] |}
    /\ forall code et',
         fst (DatabaseManager.fetch_exam (serving prelim_page) code et' st1)
         = Raise (Exn ProgrammingError "relation does not exist").
Proof.
  intros db st.
  refine (folded_table_is_not_fetched (serving prelim_page) st
            "FA_2024_prelim_exams" "fa_2024_prelim_exams" db
            {| columns := prelim_columns; rows := [] |}
            "prelim" "CS 2110" "10/15" "Statler Hall" None None
            eq_refl eq_refl _ eq_refl _ eq_refl _ eq_refl
            (serving_quiet prelim_page st 2)).
  - discriminate.
  - vm_cast_no_check
      (@eq_refl _ (Some {| columns := prelim_columns; rows := [] |})).
  - vm_cast_no_check (@eq_refl (option Table) None).
Defined.

Lemma delete_table_then_fetch_witness :
  exists st1,
    DatabaseManager.delete_table (serving prelim_page)
      "fall_2024_prelim_exams" prelim_manager = (Ok true, st1)
    /\ committed (conn st1) = delete "fall_2024_prelim_exams" prelim_db
    /\ forall code et,
         fst (DatabaseManager.fetch_exam (serving prelim_page) code et st1)
         = Raise (Exn ProgrammingError "relation does not exist").
Proof.
  exact (delete_table_then_fetch (serving prelim_page) prelim_manager
           "fall_2024_prelim_exams" prelim_db eq_refl
           prelim_table_plain_name eq_refl
           (serving_quiet prelim_page prelim_manager 2)).
Defined.

End StoreScenarios.

(** ** What populate leaves alone *)

Section Frame.
Import Py.
Variable env : Env.

Lemma run_query_frame (q : Query) (params : list Value) (db db' : DB)
    (rs : list (list Value)) :
  run_query q params db = Ok (rs, db') ->
  same_elsewhere (query_table q) db db'.
Proof.
  unfold run_query, sql_error, query_table, served_name. intros H t' Hne.
  destruct q as [t defs | t cols | t set_cols where_col | t where_col];
    try (destruct (unquoted_name t) as [n | e]; [| done]);
    cbn [mbind result_bind] in H;
    repeat case_match; simplify_eq; try done;
    by rewrite lookup_insert_ne.
Qed.

Lemma execute_frame (t : string) (d0 : DB) (q : Query)
    (params : list Value) (st : State) :
  query_table q = t ->
  framed t d0 st ->
  framed t d0 (snd (DatabaseManager.execute env q params st)).
Proof.
  intros Hq [Hc Hw]. unfold DatabaseManager.execute.
  destruct (db_fault env _); [by split |].
  destruct (working (conn st)) as [db |] eqn:Hwk; [| by split].
  destruct (run_query q params db) as [[rs db'] | e] eqn:Hrun;
    [| by split].
  split; [done |]. cbn. intros w [= <-] t' Hne.
  rewrite (run_query_frame q params db db' rs Hrun t') by congruence.
  by apply Hw.
Qed.

Lemma commit_frame (t : string) (d0 : DB) (st : State) :
  framed t d0 st ->
  framed t d0 (set_conn (committing (conn st)) st).
Proof.
  intros [Hc Hw]. unfold committing.
  destruct (working (conn st)) as [db |] eqn:Hwk; cbn.
  - split; cbn; [by apply Hw |]. intros w [= <-]. by apply Hw.
  - split; cbn; [done |]. by intros w [= <-].
Qed.

Lemma set_stdout_frame (t : string) (d0 : DB) (st : State)
    (out : list string) :
  framed t d0 st -> framed t d0 (set_stdout out st).
Proof. done. Qed.

(** The shape of the store methods that write: a statement, a commit, a
    message; an [OperationalError] is printed. *)
Lemma write_frame (t : string) (d0 : DB) (q : Query) (params : list Value)
    (ok err : string) (st : State) :
  query_table q = t ->
  framed t d0 st ->
  framed t d0
    (snd (try_except
            (_ ← DatabaseManager.execute env q params;
             _ ← DatabaseManager.commit;
             DatabaseManager.success_response ok)
            (is_class OperationalError)
            (fun e => DatabaseManager.error_response (err +:+ exn_msg e))
            st)).
Proof.
  intros Hq Hf.
  pose proof (execute_frame t d0 q params st Hq Hf) as Hx.
  unfold try_except, mbind, M_bind.
  destruct (DatabaseManager.execute env q params st) as [[rs | e] st1];
    cbn [snd] in Hx.
  - unfold DatabaseManager.commit, DatabaseManager.success_response, print,
      modify, mbind, M_bind, mret, M_ret. cbn [snd].
    by apply set_stdout_frame, commit_frame.
  - destruct (is_class OperationalError e); [| done].
    unfold DatabaseManager.error_response, print, modify, mbind, M_bind,
      mret, M_ret. cbn [snd]. by apply set_stdout_frame.
Qed.

Lemma execute_table_name (q : Query) (params : list Value) (st : State) :
  table_name (snd (DatabaseManager.execute env q params st))
  = table_name st.
Proof.
  unfold DatabaseManager.execute.
  repeat case_match; done.
Qed.

Lemma write_table_name (q : Query) (params : list Value) (ok err : string)
    (st : State) :
  table_name
    (snd (try_except
            (_ ← DatabaseManager.execute env q params;
             _ ← DatabaseManager.commit;
             DatabaseManager.success_response ok)
            (is_class OperationalError)
            (fun e => DatabaseManager.error_response (err +:+ exn_msg e))
            st))
  = table_name st.
Proof.
  pose proof (execute_table_name q params st) as Hx.
  unfold try_except, mbind, M_bind.
  destruct (DatabaseManager.execute env q params st) as [[rs | e] st1];
    cbn [snd] in Hx.
  - done.
  - by destruct (is_class OperationalError e).
Qed.

Lemma insert_exam_frame (t : string) (d0 : DB)
    (code date locations : Value) (et : string) (time test_type : Value)
    (st : State) :
  table_name st = Some t ->
  framed (served_name t) d0 st ->
  framed (served_name t) d0
    (snd (DatabaseManager.insert_exam env code date locations et
            time test_type st)).
Proof.
  intros Ht Hf. unfold DatabaseManager.insert_exam.
  unfold mbind at 1, M_bind at 1, gets at 1.
  unfold mbind at 1, M_bind at 1, lift at 1.
  rewrite Ht. cbn [fmt default from_option id].
  unfold DatabaseManager.generate_insert_exam_query. rewrite lower_idem.
  destruct (String.eqb (lower et) "prelim"); cbv iota.
  - by apply write_frame.
  - destruct (String.eqb (lower et) "final"); cbv iota;
      [by apply write_frame | done].
Qed.

Lemma insert_exam_table_name (code date locations : Value) (et : string)
    (time test_type : Value) (st : State) :
  table_name
    (snd (DatabaseManager.insert_exam env code date locations et
            time test_type st)) = table_name st.
Proof.
  unfold DatabaseManager.insert_exam.
  unfold mbind at 1, M_bind at 1, gets at 1.
  unfold mbind at 1, M_bind at 1, lift at 1.
  unfold DatabaseManager.generate_insert_exam_query.
  destruct (String.eqb (lower (lower et)) "prelim"); cbv iota.
  - destruct (String.eqb (lower et) "prelim"); cbv iota.
    + apply write_table_name.
    + destruct (String.eqb (lower et) "final"); cbv iota;
        [apply write_table_name | done].
  - destruct (String.eqb (lower (lower et)) "final"); cbv iota; [| done].
    destruct (String.eqb (lower et) "prelim"); cbv iota.
    + apply write_table_name.
    + destruct (String.eqb (lower et) "final"); cbv iota;
        [apply write_table_name | done].
Qed.

Lemma insert_each_frame (t : string) (d0 : DB) (et : string)
    (rs : list Dict) :
  forall st,
    table_name st = Some t ->
    framed (served_name t) d0 st ->
    framed (served_name t) d0
      (snd (DatabaseManager.insert_each env et rs st)).
Proof.
  induction rs as [|r rs IH]; intros st Ht Hf; [done |].
  cbn [DatabaseManager.insert_each]. unfold mbind at 1, M_bind at 1.
  set (step := if String.eqb (lower et) "final" then _ else _).
  assert (Hstep : framed (served_name t) d0 (snd (step st))
                  /\ table_name (snd (step st)) = Some t).
  { subst step. destruct (String.eqb (lower et) "final");
      (split; [by apply insert_exam_frame
              | by rewrite insert_exam_table_name]). }
  destruct (step st) as [[b | e] st1]; cbn [snd] in *;
    destruct Hstep as [Hf1 Ht1].
  - by apply IH.
  - done.
Qed.

Lemma create_exam_table_frame (d0 : DB) (sem et : string)
    (y : option string) (st : State) :
  let t := sem +:+ "_" +:+ fmt y +:+ "_" +:+ et +:+ "_exams" in
  framed (served_name t) d0 st ->
  framed (served_name t) d0
    (snd (DatabaseManager.create_exam_table env sem et y st)).
Proof.
  intros t Hf. unfold DatabaseManager.create_exam_table,
    DatabaseManager.set_exam_table_name.
  unfold mbind at 1, M_bind at 1, modify at 1. fold t.
  set (st0 := set_table_name (Some t) st).
  assert (Hf0 : framed (served_name t) d0 st0) by done.
  unfold try_except.
  unfold mbind at 1, M_bind at 1, gets at 1.
  unfold mbind at 1, M_bind at 1, lift at 1.
  change (fmt (table_name st0)) with t.
  unfold DatabaseManager.generate_create_table_query.
  destruct (String.eqb (lower et) "prelim"); cbv iota.
  - by apply (write_frame (served_name t) d0).
  - destruct (String.eqb (lower et) "final"); cbv iota;
      [by apply (write_frame (served_name t) d0) | done].
Qed.

Lemma create_exam_table_selects (sem et : string) (y : option string)
    (st : State) :
  table_name (snd (DatabaseManager.create_exam_table env sem et y st))
  = Some (sem +:+ "_" +:+ fmt y +:+ "_" +:+ et +:+ "_exams").
Proof.
  unfold DatabaseManager.create_exam_table,
    DatabaseManager.set_exam_table_name.
  unfold mbind at 1, M_bind at 1, modify at 1.
  set (st0 := set_table_name _ st).
  unfold try_except.
  unfold mbind at 1, M_bind at 1, gets at 1.
  unfold mbind at 1, M_bind at 1, lift at 1.
  unfold DatabaseManager.generate_create_table_query.
  destruct (String.eqb (lower et) "prelim"); cbv iota.
  - transitivity (table_name st0); [| reflexivity].
    apply write_table_name.
  - destruct (String.eqb (lower et) "final"); cbv iota; [| done].
    transitivity (table_name st0); [| reflexivity].
    apply write_table_name.
Qed.

Lemma populate_block_frame (t : string) (d0 : DB) (et : string)
    (data : Union (list Dict)) (st : State) :
  table_name st = Some t ->
  framed (served_name t) d0 st ->
  framed (served_name t) d0
    (snd (try_except
            (_ ← match data with
                 | Val l => DatabaseManager.insert_each env et l
                 | Flag _ =>
                     raise (Exn TypeError "'bool' object is not iterable")
                 end;
             _ ← DatabaseManager.commit;
             DatabaseManager.success_response
               "Data inserted into database successfully!")
            (is_class OperationalError)
            (fun e => DatabaseManager.error_response
                        ("Error inserting data into PostgreSQL: "
                         +:+ exn_msg e))
            st)).
Proof.
  intros Ht Hf. unfold try_except. unfold mbind at 1, M_bind at 1.
  destruct data as [l | b].
  - pose proof (insert_each_frame t d0 et l st Ht Hf) as Hl.
    destruct (DatabaseManager.insert_each env et l st) as [[[] | e] st1];
      cbn [snd] in Hl.
    + unfold DatabaseManager.commit, DatabaseManager.success_response,
        print, modify, mbind, M_bind, mret, M_ret. cbn [snd].
      by apply set_stdout_frame, commit_frame.
    + destruct (is_class OperationalError e); [| done].
      unfold DatabaseManager.error_response, print, modify, mbind, M_bind,
        mret, M_ret. cbn [snd]. by apply set_stdout_frame.
  - done.
Qed.

Lemma insert_each_table_name (et : string) (rs : list Dict) :
  forall st,
    table_name (snd (DatabaseManager.insert_each env et rs st))
    = table_name st.
Proof.
  induction rs as [|r rs IH]; intros st; [done |].
  cbn [DatabaseManager.insert_each]. unfold mbind at 1, M_bind at 1.
  set (step := if String.eqb (lower et) "final" then _ else _).
  assert (Hstep : table_name (snd (step st)) = table_name st).
  { subst step. destruct (String.eqb (lower et) "final");
      apply insert_exam_table_name. }
  destruct (step st) as [[b | e] st1]; cbn [snd] in *; [| done].
  by rewrite IH.
Qed.

Lemma populate_block_table_name (et : string) (data : Union (list Dict))
    (st : State) :
  table_name
    (snd (try_except
            (_ ← match data with
                 | Val l => DatabaseManager.insert_each env et l
                 | Flag _ =>
                     raise (Exn TypeError "'bool' object is not iterable")
                 end;
             _ ← DatabaseManager.commit;
             DatabaseManager.success_response
               "Data inserted into database successfully!")
            (is_class OperationalError)
            (fun e => DatabaseManager.error_response
                        ("Error inserting data into PostgreSQL: "
                         +:+ exn_msg e))
            st))
  = table_name st.
Proof.
  unfold try_except. unfold mbind at 1, M_bind at 1.
  destruct data as [l | b]; [| done].
  pose proof (insert_each_table_name et l st) as Hl.
  destruct (DatabaseManager.insert_each env et l st) as [[[] | e] st1];
    cbn [snd] in Hl.
  - done.
  - by destruct (is_class OperationalError e).
Qed.

(** Populate either leaves the connection as it was, or it has selected
    the table it names and has changed no other table. *)
Lemma populate_frame (st : State) (sem et : string) :
  working (conn st) = Some (committed (conn st)) ->
  let st' := snd (DatabaseManager.populate_exam_table env sem et st) in
  conn st' = conn st
  \/ exists t,
       table_name st' = Some t
       /\ (exists y, t = sem +:+ "_" +:+ y +:+ "_" +:+ lower et +:+ "_exams")
       /\ same_elsewhere (served_name t) (committed (conn st))
            (committed (conn st')).
Proof.
  intros Hclean st'. subst st'.
  remember (DatabaseManager.populate_exam_table env sem et st) as res
    eqn:Hres.
  destruct (scrape_course_info_total env st)
    as (v & st1 & Hs & Hc1 & _).
  pose proof (process_exam_data_frame (file_name st1) st1) as Hc2.
  unfold DatabaseManager.populate_exam_table in Hres.
  unfold mbind at 1, M_bind at 1 in Hres. rewrite Hs in Hres.
  unfold mbind at 1, M_bind at 1, gets at 1 in Hres.
  unfold mbind at 1, M_bind at 1 in Hres.
  destruct (WebScraper.process_exam_data _ st1) as [[data | e] st2];
    cbn [snd] in *; [| subst res; left; cbn [snd]; congruence].
  unfold mbind at 1, M_bind at 1, gets at 1 in Hres.
  unfold mbind at 1, M_bind at 1 in Hres.
  set (t := sem +:+ "_" +:+ fmt (year st2) +:+ "_" +:+ lower et
            +:+ "_exams").
  assert (Hf2 : framed (served_name t) (committed (conn st)) st2).
  { unfold framed. rewrite Hc2, Hc1. split; [done |].
    rewrite Hclean. by intros w [= <-]. }
  pose proof (create_exam_table_frame _ sem (lower et) (year st2) st2
                Hf2) as Hf3.
  pose proof (create_exam_table_selects sem (lower et) (year st2) st2)
    as Ht3.
  right. exists t.
  destruct (DatabaseManager.create_exam_table env sem (lower et)
              (year st2) st2) as [[b | e] st3]; cbn [snd] in *; subst res.
  - destruct (populate_block_frame t _ et data st3 Ht3 Hf3) as [Hcm _].
    split; [| split; [by eexists | done]].
    etransitivity; [apply populate_block_table_name | exact Ht3].
  - destruct Hf3 as [Hcm _]. split; [done |]. split; [by eexists | done].
Qed.

(** X24.  On a connection without uncommitted work, populate changes no
    table but its own.  When the table name it has selected by its end is
    one the server accepts, every table but the one of that name, as the
    server reads it, is after populate what it was before, whether
    populate returns or raises, and whatever the page, the files and the
    server do; when populate has not come to select its table, the
    database is as it was. *)
Theorem populate_touches_its_table_only (st : State) (sem et : string)
    (t' : string) :
  working (conn st) = Some (committed (conn st)) ->
  let st' := snd (DatabaseManager.populate_exam_table env sem et st) in
  (forall t, table_name st' = Some t ->
             exists n, unquoted_name t = Ok n /\ t' <> n) ->
  committed (conn st') !! t' = committed (conn st) !! t'.
Proof.
  intros Hclean st' Hname.
  destruct (populate_frame st sem et Hclean) as [Hc | (t & Ht & _ & Hsame)].
  - fold st' in Hc. by rewrite Hc.
  - fold st' in Ht, Hsame.
    destruct (Hname t Ht) as (n & Hn & Hne).
    apply Hsame. unfold served_name. by rewrite Hn.
Qed.

End Frame.

Section FrameScenarios.
Import Py.

Lemma populate_touches_its_table_only_witness :
  committed (conn (snd (DatabaseManager.populate_exam_table
                          (serving three_prelims) "FA" "prelim"
                          (get_db_manager "FA" "prelim" prelim_db ∅))))
    !! "fall_2024_prelim_exams"
  = prelim_db !! "fall_2024_prelim_exams".
Proof.
  apply (populate_touches_its_table_only (serving three_prelims)
           (get_db_manager "FA" "prelim" prelim_db ∅) "FA" "prelim"
           "fall_2024_prelim_exams").
  - reflexivity.
  - intros t H. vm_compute in H. injection H as <-.
    exists "fa_2024_prelim_exams". split; [reflexivity | discriminate].
Defined.

End FrameScenarios.

(** ** The routes *)

Section RoutesFacts.
Import Py.
Variable env : Env.

Lemma lower_char_underscore (c : ascii) :
  Ascii.eqb (lower_char c) "_" = Ascii.eqb c "_".
Proof. destruct c as [[] [] [] [] [] [] [] []]; reflexivity. Qed.

Lemma contains_underscore_lower (s : string) :
  contains "_" (lower s) = contains "_" s.
Proof.
  induction s as [|c s IH]; simpl; [done |].
  by rewrite lower_char_underscore, IH.
Qed.

Lemma downcase_char_underscore (c : ascii) :
  Ascii.eqb (downcase_char c) "_" = Ascii.eqb c "_".
Proof. destruct c as [[] [] [] [] [] [] [] []]; reflexivity. Qed.

Lemma contains_underscore_downcase (s : string) :
  contains "_" (downcase_identifier s) = contains "_" s.
Proof.
  induction s as [|c s IH]; simpl; [done |].
  by rewrite downcase_char_underscore, IH.
Qed.

(** No table of populate is called None, in whatever letter case. *)
Lemma none_is_no_exam_table (t sem y et : string) :
  lower t = "none" ->
  t <> served_name (sem +:+ "_" +:+ y +:+ "_" +:+ et +:+ "_exams").
Proof.
  intros Hl Heq.
  assert (Hc : contains "_" (lower t) = false) by (by rewrite Hl).
  rewrite contains_underscore_lower, Heq in Hc.
  assert (Hs : contains "_" (served_name (sem +:+ "_" +:+ y +:+ "_" +:+ et
                                          +:+ "_exams"))
               = contains "_" (sem +:+ "_" +:+ y +:+ "_" +:+ et
                               +:+ "_exams")).
  { unfold served_name, unquoted_name, sql_error.
    destruct (_ && _); [apply contains_underscore_downcase | done]. }
  rewrite Hs, !contains_app in Hc. cbn in Hc.
  by destruct (contains "_" sem).
Qed.

Lemma unquoted_None : unquoted_name "None" = Ok "none".
Proof. reflexivity. Qed.

Lemma execute_statement_no_table (st : State) (db : DB) (s : Statement)
    (params : list Value) :
  working (conn st) = Some db ->
  db_fault env (n_exec (conn st)) = None ->
  run_statement s params db
  = Raise (Exn ProgrammingError "relation does not exist") ->
  DatabaseManager.execute_statement env s params st =
  (Raise (Exn ProgrammingError "relation does not exist"),
   set_conn (sent (conn st) None) st).
Proof.
  intros Hw Hf Hr. unfold DatabaseManager.execute_statement.
  by rewrite Hf, Hw, Hr.
Qed.

(** The route that fetches the exams of a course, on a database without a
    table None. *)
Lemma get_exams_no_table (srv : App.Server)
    (course_code semester exam_type : string) :
  App.database srv !! "None" = None ->
  db_fault env 0 = None ->
  App.get_exams_by_course_code env course_code semester exam_type srv
  = ((App.Error "relation does not exist", 404), srv).
Proof.
  intros Hnone Hf. destruct srv as [db fs]. cbn [App.database] in Hnone.
  unfold App.get_exams_by_course_code, App.handle.
  cbn [App.database App.disk].
  by rewrite (fetch_exam_no_table env _ db).
Qed.

(** X25.  A manager fresh from [get_db_manager] has selected no table, and
    its statements name the table None: unless the database has a table
    of that name (in some letter case), the routes that fetch the exams
    of a course, delete them, or list the courses answer 404 with the
    server's message, and change nothing. *)
Theorem routes_look_for_table_None (srv : App.Server)
    (course_code semester exam_type : string) :
  (forall t, lower t = "none" -> App.database srv !! t = None) ->
  db_fault env 0 = None ->
  App.get_exams_by_course_code env course_code semester exam_type srv
  = ((App.Error "relation does not exist", 404), srv)
  /\ App.delete_exam_by_course_code env course_code semester exam_type srv
     = ((App.Error "relation does not exist", 404), srv)
  /\ App.fetch_all_courses env semester exam_type srv
     = ((App.Error "relation does not exist", 404), srv).
Proof.
  intros Hnone Hf.
  assert (Hn : App.database srv !! "None" = None) by by apply Hnone.
  assert (Hn' : App.database srv !! "none" = None) by by apply Hnone.
  split; [by apply get_exams_no_table |].
  destruct srv as [db fs]. cbn [App.database] in Hn, Hn'. split.
  - unfold App.delete_exam_by_course_code, App.handle.
    cbn [App.database App.disk].
    unfold DatabaseManager.delete_exam, try_except.
    unfold mbind, M_bind, gets.
    rewrite (execute_statement_no_table _ db); try done.
    cbn. by rewrite Hn.
  - unfold App.fetch_all_courses, App.handle.
    cbn [App.database App.disk].
    unfold DatabaseManager.fetch_all_courses, try_except.
    unfold mbind, M_bind, gets.
    rewrite (execute_statement_no_table _ db); try done.
    cbn [get_db_manager table_name fmt default from_option id
         run_statement].
    rewrite unquoted_None. cbn [mbind result_bind]. by rewrite Hn'.
Qed.

End RoutesFacts.

(** X26.  What the create route stores, the route that fetches the exams
    of a course cannot read: after [create_all_exams] on a database
    without a table None, a later [get_exams_by_course_code] answers 404
    for every course code, semester and exam type, whatever the page, the
    files and the server did during the creation. *)
Theorem created_exams_are_not_served (env env' : Env) (srv : App.Server)
    (semester exam_type : string) :
  (forall t, Py.lower t = "none" -> App.database srv !! t = None) ->
  db_fault env' 0 = None ->
  forall course_code semester' exam_type',
    App.get_exams_by_course_code env' course_code semester' exam_type'
      (snd (App.create_all_exams env semester exam_type srv))
    = ((App.Error "relation does not exist", 404),
       snd (App.create_all_exams env semester exam_type srv)).
Proof.
  intros Hnone Hf course_code semester' exam_type'.
  apply get_exams_no_table; [| done].
  unfold App.create_all_exams, App.handle.
  pose proof (populate_frame env
                (get_db_manager semester exam_type (App.database srv)
                   (App.disk srv))
                semester exam_type eq_refl) as Hfr.
  cbv zeta in Hfr.
  assert (Hkept : committed (conn (snd
                    (DatabaseManager.populate_exam_table env semester
                       exam_type
                       (get_db_manager semester exam_type
                          (App.database srv) (App.disk srv)))))
                  !! "None" = None).
  { destruct Hfr as [Hc | (t & _ & [y ->] & Hsame)].
    - rewrite Hc. by apply Hnone.
    - rewrite Hsame; [by apply Hnone |].
      by apply none_is_no_exam_table. }
  destruct (DatabaseManager.populate_exam_table env semester exam_type _)
    as [[a | e] st']; cbn [snd] in *; done.
Qed.


Section RoutesScenarios.
Import Py.

Lemma prelim_db_has_no_table_None (t : string) :
  lower t = "none" -> prelim_db !! t = None.
Proof.
  intros Hl. apply lookup_singleton_ne. intros <-.
  vm_compute in Hl. discriminate Hl.
Defined.

Lemma routes_look_for_table_None_witness :
  let srv := {| App.database := prelim_db; App.disk := ∅ |} in
  App.get_exams_by_course_code (serving prelim_page) "CS 2110" "FA"
    "prelim" srv
  = ((App.Error "relation does not exist", 404), srv)
  /\ App.delete_exam_by_course_code (serving prelim_page) "CS 2110" "FA"
       "prelim" srv
     = ((App.Error "relation does not exist", 404), srv)
  /\ App.fetch_all_courses (serving prelim_page) "FA" "prelim" srv
     = ((App.Error "relation does not exist", 404), srv).
Proof.
  apply (routes_look_for_table_None (serving prelim_page)
           {| App.database := prelim_db; App.disk := ∅ |}
           "CS 2110" "FA" "prelim").
  - exact prelim_db_has_no_table_None.
  - reflexivity.
Defined.

Lemma created_exams_are_not_served_witness :
  let srv := {| App.database := ∅; App.disk := ∅ |} in
  let srv1 := snd (App.create_all_exams (serving three_prelims) "FA"
                     "prelim" srv) in
  App.get_exams_by_course_code (serving three_prelims) "CS 2110" "FA"
    "prelim" srv1
  = ((App.Error "relation does not exist", 404), srv1).
Proof.
  apply (created_exams_are_not_served (serving three_prelims)
           (serving three_prelims)
           {| App.database := ∅; App.disk := ∅ |} "FA" "prelim").
  - intros t _. apply lookup_empty.
  - reflexivity.
Defined.

End RoutesScenarios.
